(** * Synthetic network traffic generation: a shallow embedding of
      [NetworkTrafficGenerator] (src/main.py) and the properties its
      specification states about it.

    Python values are modelled as the interpreter has them: [int] as [Z],
    [float] as the kernel's binary64 numbers, [str] as [string], a naive
    [datetime] as a point of the proleptic Gregorian time line.  The global
    NumPy generator and the file system are threaded through an explicit
    state, and Python exceptions are results of the computation.

    What is left out: the progress bar and the log, which change nothing
    the generator returns or writes; the text of the cells of a CSV file,
    a row being kept as the record it was written from; and the
    distribution of the random draws, of which the model keeps the set of
    values each call can return.  The scraper and the analyzer are outside
    the generator: they only supply the list of events. *)

From Stdlib Require Import ZArith List String Ascii Bool Lia Floats DecimalString.
Import ListNotations.

Set Warnings "-inexact-float".

Local Open Scope string_scope.
Local Open Scope Z_scope.

(** ** Python exceptions and fallible pure computations *)

Inductive exn : Set :=
| KeyError
| IndexError
| ValueError
| TypeError
| AttributeError
| OverflowError.

Definition result (A : Type) : Type := (exn + A)%type.

Definition rbind {A B : Type} (c : result A) (k : A -> result B) : result B :=
  match c with
  | inl e => inl e
  | inr a => k a
  end.

(** ** Python floats: IEEE 754 binary64 *)

Module PyFloat.

(** [float(n)] for a Python int: the nearest binary64 number. *)
Definition of_int (n : Z) : float :=
  SF2Prim (binary_normalize prec emax n 0 false).

(** [int(x)]: truncation towards zero; [ValueError] on NaN,
    [OverflowError] on an infinity. *)
Definition to_int (x : float) : result Z :=
  match Prim2SF x with
  | S754_zero _ => inr 0
  | S754_nan => inl ValueError
  | S754_infinity _ => inl OverflowError
  | S754_finite s m e =>
      let mag := if 0 <=? e then Z.shiftl (Zpos m) e
                 else Z.shiftr (Zpos m) (- e) in
      inr (if s then - mag else mag)
  end.

(** The integer nearest to [p / q] ([q > 0]), ties going to the even one. *)
Definition div_half_even (p q : Z) : Z :=
  let n := p / q in
  let r := p mod q in
  match 2 * r ?= q with
  | Lt => n
  | Gt => n + 1
  | Eq => if Z.even n then n else n + 1
  end.

(** The binary64 number nearest to [n / d] for positive integers, with the
    sign [s]. *)
Definition nearest_quotient (s : bool) (n d : Z) : float :=
  let '(q, e, l) := SFdiv_core_binary prec emax n 0 d 0 in
  SF2Prim (binary_round_aux prec emax s q e l).

(** [round(x, ndigits)] for [ndigits >= 0]: the exact value of [x] is
    rounded to [ndigits] decimals, half to even, and the decimal obtained
    is read back as the nearest float.  Zeros, NaN and infinities round to
    themselves. *)
Definition round (x : float) (ndigits : Z) : float :=
  match Prim2SF x with
  | S754_finite s m e =>
      let scale := 10 ^ ndigits in
      let n := if 0 <=? e then Z.shiftl (Zpos m) e * scale
               else div_half_even (Zpos m * scale) (2 ^ (- e)) in
      if n =? 0 then (if s then (-0)%float else 0%float)
      else nearest_quotient s n scale
  | _ => x
  end.

End PyFloat.

(** ** Naive datetimes

    A [datetime] is the number of microseconds elapsed since
    0001-01-01T00:00:00 in the proleptic Gregorian calendar; the calendar
    fields are read off it as the [datetime] module does from a day
    ordinal. *)

Record datetime : Set := mk_datetime { ticks : Z }.

Module Calendar.

Definition us_per_second : Z := 1000000.
Definition us_per_hour : Z := 3600 * us_per_second.
Definition us_per_day : Z := 24 * us_per_hour.
Definition max_ordinal : Z := 3652059.   (* date(9999, 12, 31).toordinal() *)

Definition is_leap (y : Z) : bool :=
  (y mod 4 =? 0) && (negb (y mod 100 =? 0) || (y mod 400 =? 0)).

Definition days_before_year (y : Z) : Z :=
  let p := y - 1 in p * 365 + p / 4 - p / 100 + p / 400.

Definition month_lengths : list Z :=
  [31; 28; 31; 30; 31; 30; 31; 31; 30; 31; 30; 31].

Definition days_in_month (y m : Z) : Z :=
  if (m =? 2) && is_leap y then 29
  else nth (Z.to_nat (m - 1)) month_lengths 0.

Definition days_before_month (y m : Z) : Z :=
  fold_right Z.add 0 (firstn (Z.to_nat (m - 1)) month_lengths)
  + (if (2 <? m) && is_leap y then 1 else 0).

Definition ymd2ord (y m d : Z) : Z :=
  days_before_year y + days_before_month y m + d.

(** The inverse of [ymd2ord], by 400-, 100-, 4- and 1-year cycles. *)
Definition ord2ymd (ordinal : Z) : Z * Z * Z :=
  let n := ordinal - 1 in
  let n400 := n / 146097 in
  let n := n mod 146097 in
  let n100 := n / 36524 in
  let n := n mod 36524 in
  let n4 := n / 1461 in
  let n := n mod 1461 in
  let n1 := n / 365 in
  let n := n mod 365 in
  let year := n400 * 400 + 1 + n100 * 100 + n4 * 4 + n1 in
  if (n1 =? 4) || (n100 =? 4) then (year - 1, 12, 31)
  else
    let leapyear := (n1 =? 3) && (negb (n4 =? 24) || (n100 =? 3)) in
    let month := Z.shiftr (n + 50) 5 in
    let preceding :=
      days_before_month 1 month + (if (2 <? month) && leapyear then 1 else 0) in
    if n <? preceding then
      let month' := month - 1 in
      let preceding' :=
        preceding
        - (nth (Z.to_nat (month' - 1)) month_lengths 0
           + (if (month' =? 2) && leapyear then 1 else 0)) in
      (year, month', n - preceding' + 1)
    else (year, month, n - preceding + 1).

(** [datetime(y, m, d, H, M, S)]; [ValueError] on a field out of range. *)
Definition make (y m d H M S : Z) : result datetime :=
  if (1 <=? y) && (y <=? 9999) && (1 <=? m) && (m <=? 12)
     && (1 <=? d) && (d <=? days_in_month y m)
     && (0 <=? H) && (H <? 24) && (0 <=? M) && (M <? 60)
     && (0 <=? S) && (S <? 60)
  then inr (mk_datetime ((ymd2ord y m d - 1) * us_per_day
                         + H * us_per_hour + (M * 60 + S) * us_per_second))
  else inl ValueError.

Definition toordinal (t : datetime) : Z := ticks t / us_per_day + 1.
Definition year (t : datetime) : Z := fst (fst (ord2ymd (toordinal t))).
Definition month (t : datetime) : Z := snd (fst (ord2ymd (toordinal t))).
Definition day (t : datetime) : Z := snd (ord2ymd (toordinal t)).
Definition hour (t : datetime) : Z := ticks t mod us_per_day / us_per_hour.
Definition minute (t : datetime) : Z :=
  ticks t mod us_per_hour / (60 * us_per_second).
Definition second (t : datetime) : Z :=
  ticks t mod (60 * us_per_second) / us_per_second.

(** [a < b] on datetimes. *)
Definition lt (a b : datetime) : bool := ticks a <? ticks b.

(** [t + timedelta(hours=h)]; [OverflowError] when the date leaves
    year 1 .. 9999. *)
Definition add_hours (t : datetime) (h : Z) : result datetime :=
  let t' := mk_datetime (ticks t + h * us_per_hour) in
  if (1 <=? toordinal t') && (toordinal t' <=? max_ordinal)
  then inr t' else inl OverflowError.

Definition digit (d : Z) : ascii := ascii_of_nat (48 + Z.to_nat (d mod 10)).

(** [n] in decimal on exactly [width] digits, zero padded. *)
Fixpoint padded (width : nat) (n : Z) (acc : string) : string :=
  match width with
  | O => acc
  | S k => padded k (n / 10) (String (digit n) acc)
  end.

(** [t.strftime('%Y-%m-%d')]; the year is written on four digits (before
    the year 1000 some platforms drop the leading zeros). *)
Definition strftime_date (t : datetime) : string :=
  padded 4 (year t) ("-" ++ padded 2 (month t) ("-" ++ padded 2 (day t) "")).

(** [t.strftime('%Y-%m-%d %H:%M:%S')] *)
Definition strftime_seconds (t : datetime) : string :=
  strftime_date t
  ++ " " ++ padded 2 (hour t) (":" ++ padded 2 (minute t)
                                (":" ++ padded 2 (second t) "")).

(** [t.strftime('%Y%m%d')] *)
Definition strftime_compact (t : datetime) : string :=
  padded 4 (year t) (padded 2 (month t) (padded 2 (day t) "")).

End Calendar.

Definition dt (y m d H : Z) : datetime :=
  match Calendar.make y m d H 0 0 with
  | inr t => t
  | inl _ => mk_datetime 0
  end.

(** ** Records, files and the state of the run *)

(** One synthetic flow: the dict built in [generate_traffic_data], its keys
    in insertion order. *)
Record TrafficRecord : Set := mk_record {
  timestamp : string;
  source_ip : string;
  dest_ip : string;
  source_port : Z;
  dest_port : Z;
  protocol : string;
  bytes : Z;
  packets : Z;
  duration : float;
  latency : float;
  packet_loss : float
}.

(** [record.keys()] *)
Definition record_keys (_ : TrafficRecord) : list string :=
  ["timestamp"; "source_ip"; "dest_ip"; "source_port"; "dest_port";
   "protocol"; "bytes"; "packets"; "duration"; "latency"; "packet_loss"]%string.

(** A line of a CSV file as [csv.DictWriter] emits it: the header, or the
    cells of one record in header order (the text of a cell is not
    modelled). *)
Inductive csv_line : Set :=
| Header (fieldnames : list string)
| Row (r : TrafficRecord).

(** The global NumPy [RandomState]: every sampling call consumes one cell
    of a tape of outcomes.  Integer cells feed [randint], [choice] and
    [random_sample]; real cells hold what [lognormal] and [beta] return.
    Seeding the generator fixes the tape. *)
Record RandomState : Type := mk_random {
  cursor : nat;
  int_tape : nat -> Z;
  real_tape : nat -> float
}.

(** The file system is the history of the writes made to it, latest last;
    a path holds what was last written to it. *)
Record World : Type := mk_world {
  np_random : RandomState;
  fs : list (string * list csv_line)
}.

Inductive outcome (A : Type) : Type :=
| Ok (a : A) (w : World)
| Raise (e : exn) (w : World).
Arguments Ok {A} a w.
Arguments Raise {A} e w.

(** Computations over the world that may raise. *)
Definition M (A : Type) : Type := World -> outcome A.

Definition ret {A : Type} (a : A) : M A := fun w => Ok a w.

Definition bind {A B : Type} (c : M A) (k : A -> M B) : M B :=
  fun w => match c w with
           | Ok a w' => k a w'
           | Raise e w' => Raise e w'
           end.

Definition raise {A : Type} (e : exn) : M A := fun w => Raise e w.

Definition lift {A : Type} (c : result A) : M A :=
  match c with
  | inl e => raise e
  | inr a => ret a
  end.

Declare Scope py_scope.
Delimit Scope py_scope with py.
Notation "x <- c ;; k" := (bind c (fun x => k))
  (at level 61, c at next level, right associativity) : py_scope.
Notation "c ;;; k" := (bind c (fun _ => k))
  (at level 61, right associativity) : py_scope.
Local Open Scope py_scope.

(** ** The NumPy sampling functions *)

Module Random.

Definition advance (w : World) : World :=
  let r := np_random w in
  mk_world (mk_random (S (cursor r)) (int_tape r) (real_tape r)) (fs w).

Definition next_int : M Z :=
  fun w => Ok (int_tape (np_random w) (cursor (np_random w))) (advance w).

Definition next_real : M float :=
  fun w => Ok (real_tape (np_random w) (cursor (np_random w))) (advance w).

(** [np.random.randint(low, high)]: uniform on [low, high), the upper
    bound excluded; [ValueError] when the range is empty. *)
Definition randint (low high : Z) : M Z :=
  if high <=? low then raise ValueError
  else k <- next_int ;; ret (low + k mod (high - low)).

(** [np.random.random_sample()]: a multiple of 2^-53 in [0, 1). *)
Definition random_sample : M float :=
  k <- next_int ;;
  ret (PyFloat.of_int (k mod 9007199254740992) / 9007199254740992)%float.

(** [np.random.lognormal(mean, sigma)] *)
Definition lognormal (mean sigma : float) : M float :=
  if (sigma <? 0)%float then raise ValueError else next_real.

(** [np.random.beta(a, b)] *)
Definition beta (a b : float) : M float :=
  if (a <=? 0)%float || (b <=? 0)%float then raise ValueError else next_real.

(** [np.random.choice(a)] on a list: a uniformly drawn element. *)
Definition choice {A : Type} (a : list A) : M A :=
  match a with
  | [] => raise ValueError
  | x :: _ =>
      i <- randint 0 (Z.of_nat (List.length a)) ;;
      ret (nth (Z.to_nat i) a x)
  end.

Fixpoint cumsum (acc : float) (p : list float) : list float :=
  match p with
  | [] => []
  | x :: p' => let s := (acc + x)%float in s :: cumsum s p'
  end.

(** Compensated summation, as the probability check of [choice] uses. *)
Fixpoint kahan (sum c : float) (p : list float) : float :=
  match p with
  | [] => sum
  | x :: p' =>
      let y := (x - c)%float in
      let t := (sum + y)%float in
      kahan t ((t - sum) - y)%float p'
  end.

Definition kahan_sum (p : list float) : float :=
  match p with
  | [] => 0%float
  | x :: p' => kahan x 0%float p'
  end.

(** [cdf.searchsorted(u, side='right')] *)
Fixpoint searchsorted_right (cdf : list float) (u : float) : nat :=
  match cdf with
  | [] => O
  | c :: cdf' => if (u <? c)%float then O else S (searchsorted_right cdf' u)
  end.

(** [np.random.choice(a, p=p)]: the element whose slice of the cumulative
    distribution holds a uniform draw; [ValueError] unless [p] is a
    probability vector as long as [a]. *)
Definition choice_p {A : Type} (a : list A) (p : list float) : M A :=
  match a with
  | [] => raise ValueError
  | x :: _ =>
      if negb (Nat.eqb (List.length a) (List.length p)) then raise ValueError
      else if existsb (fun q => (q <? 0)%float) p then raise ValueError
      else if (1.4901161193847656e-08 <? abs (kahan_sum p - 1))%float
      then raise ValueError
      else
        let cdf := cumsum 0%float p in
        let total := last cdf 1%float in
        let cdf := map (fun c => (c / total)%float) cdf in
        u <- random_sample ;;
        ret (nth (searchsorted_right cdf u) a x)
  end.

End Random.

(** ** Python dicts with string keys, in insertion order *)

Definition dict (V : Type) : Type := list (string * V).

Fixpoint dict_get {V : Type} (d : dict V) (k : string) : option V :=
  match d with
  | [] => None
  | (k', v) :: d' => if String.eqb k' k then Some v else dict_get d' k
  end.

(** [d[k]] *)
Definition getitem {V : Type} (d : dict V) (k : string) : result V :=
  match dict_get d k with
  | Some v => inr v
  | None => inl KeyError
  end.

(** [list(d.keys())] and [list(d.values())] *)
Definition keys {V : Type} (d : dict V) : list string := map fst d.
Definition values {V : Type} (d : dict V) : list V := map snd d.

(** ** The [ipaddress] module, IPv4 only *)

Module IPv4.

Record network : Set := mk_network {
  network_address : Z;
  prefixlen : Z
}.

Fixpoint split (sep : ascii) (s : string) : list string :=
  match s with
  | EmptyString => [EmptyString]
  | String c s' =>
      if Ascii.eqb c sep then EmptyString :: split sep s'
      else match split sep s' with
           | [] => [String c EmptyString]
           | h :: t => String c h :: t
           end
  end.

Fixpoint digits_value (s : string) (acc : Z) : option Z :=
  match s with
  | EmptyString => Some acc
  | String c s' =>
      let n := Z.of_nat (nat_of_ascii c) in
      if (48 <=? n) && (n <=? 57) then digits_value s' (10 * acc + (n - 48))
      else None
  end.

Definition parse_decimal (s : string) : option Z :=
  match s with
  | EmptyString => None
  | _ => digits_value s 0
  end.

(** One octet: at most three decimal digits, no leading zero, at most 255. *)
Definition parse_octet (s : string) : option Z :=
  match parse_decimal s with
  | Some n =>
      if (Nat.leb (String.length s) 3) && (n <=? 255)
         && ((String.length s =? 1)%nat || negb (prefix "0" s))
      then Some n else None
  | None => None
  end.

Definition parse_address (s : string) : option Z :=
  match map parse_octet (split "." s) with
  | [Some a; Some b; Some c; Some d] => Some (((a * 256 + b) * 256 + c) * 256 + d)
  | _ => None
  end.

Definition hostmask (n : network) : Z := 2 ^ (32 - prefixlen n) - 1.
Definition broadcast_address (n : network) : Z :=
  Z.lor (network_address n) (hostmask n).
Definition num_addresses (n : network) : Z :=
  broadcast_address n - network_address n + 1.

(** [ipaddress.ip_network(s)] for [s] of the form [a.b.c.d/len];
    [ValueError] on anything else, and when host bits are set. *)
Definition ip_network (s : string) : result network :=
  match split "/" s with
  | [a; p] =>
      match parse_address a, parse_decimal p with
      | Some addr, Some len =>
          if len <=? 32 then
            let n := mk_network addr len in
            if Z.land addr (hostmask n) =? 0 then inr n else inl ValueError
          else inl ValueError
      | _, _ => inl ValueError
      end
  | _ => inl ValueError
  end.

(** [network[n]]: the address at offset [n], counted from the end when
    [n] is negative; [IndexError] outside the block. *)
Definition network_getitem (net : network) (n : Z) : result Z :=
  if 0 <=? n then
    if broadcast_address net <? network_address net + n then inl IndexError
    else inr (network_address net + n)
  else
    if broadcast_address net + (n + 1) <? network_address net then inl IndexError
    else inr (broadcast_address net + (n + 1)).

(** [addr in network]: from the network address to the broadcast address. *)
Definition contains (net : network) (addr : Z) : bool :=
  (network_address net <=? addr) && (addr <=? broadcast_address net).

Definition decimal (n : Z) : string :=
  NilZero.string_of_uint (N.to_uint (Z.to_N n)).

(** [str(address)]: the dotted quad. *)
Definition to_string (addr : Z) : string :=
  decimal (addr / 16777216) ++ "." ++ decimal (addr / 65536 mod 256)
  ++ "." ++ decimal (addr / 256 mod 256) ++ "." ++ decimal (addr mod 256).

End IPv4.

(** ** Event records

    An event is a dict as the scraper and the analyzer leave it; the
    generator reads its ['date_range'] and ['impact_score'] entries. *)

Inductive pyval : Set :=
| PyStr (s : string)
| PyFloat (x : float).

Definition event : Type := dict pyval.

(** [a > b] *)
Definition py_gt (a b : pyval) : result bool :=
  match a, b with
  | PyFloat x, PyFloat y => inr (y <? x)%float
  | PyStr s, PyStr t => inr (String.ltb t s)
  | _, _ => inl TypeError
  end.

(** [max(l, default=d)]: the first item no later item is greater than. *)
Fixpoint py_max_from (cur : pyval) (l : list pyval) : result pyval :=
  match l with
  | [] => inr cur
  | item :: l' =>
      rbind (py_gt item cur) (fun b => py_max_from (if b then item else cur) l')
  end.

Definition py_max (l : list pyval) (default : pyval) : result pyval :=
  match l with
  | [] => inr default
  | x :: l' => py_max_from x l'
  end.

(** [v.startswith(p)] *)
Definition startswith (v : pyval) (p : string) : result bool :=
  match v with
  | PyStr s => inr (prefix p s)
  | PyFloat _ => inl AttributeError
  end.

(** [x * v] for a float [x] *)
Definition float_mul (x : float) (v : pyval) : result float :=
  match v with
  | PyFloat y => inr (x * y)%float
  | PyStr _ => inl TypeError
  end.

(** [n * x] for an int [n] and a float [x] *)
Definition int_mul_float (n : Z) (x : float) : result float :=
  let f := PyFloat.of_int n in
  if is_infinity f then inl OverflowError else inr (f * x)%float.

(** [[e for e in l if p(e)]], the first exception ending the scan. *)
Fixpoint filter_r {A : Type} (p : A -> result bool) (l : list A) : result (list A) :=
  match l with
  | [] => inr []
  | x :: l' =>
      rbind (p x) (fun b =>
      rbind (filter_r p l') (fun t => inr (if b then x :: t else t)))
  end.

(** ** NetworkTrafficGenerator *)

Module NetworkTrafficGenerator.

Definition ip_ranges : dict (list string) :=
  [("qatar_isps", ["178.152.0.0/15"; "37.208.0.0/13"; "82.148.96.0/19"]);
   ("data_centers", ["185.176.0.0/16"; "157.167.0.0/16"]);
   ("cdns", ["104.16.0.0/12"; "199.27.128.0/21"])]%string.

Definition protocols : dict float :=
  [("TCP", 0.75); ("UDP", 0.20); ("ICMP", 0.05)]%string%float.

Definition common_ports : dict Z :=
  [("HTTP", 80); ("HTTPS", 443); ("DNS", 53);
   ("STREAMING", 1935); ("GAMING", 3074)]%string.

Definition generate_ip (ip_range : string) : M string :=
  blocks <- lift (getitem ip_ranges ip_range) ;;
  block <- Random.choice blocks ;;
  network <- lift (IPv4.ip_network block) ;;
  host <- Random.randint 0 (IPv4.num_addresses network - 1) ;;
  addr <- lift (IPv4.network_getitem network host) ;;
  ret (IPv4.to_string addr).

(** The dict [generate_traffic_metrics] returns. *)
Record metrics : Set := mk_metrics {
  m_bytes : Z;
  m_packets : Z;
  m_duration : float;
  m_latency : float;
  m_packet_loss : float
}.

Definition time_multiplier (hour : Z) : float :=
  if (9 <=? hour) && (hour <=? 17) then 1.5%float
  else if (18 <=? hour) && (hour <=? 23) then 1.3%float
  else 0.7%float.

Definition generate_traffic_metrics (timestamp : datetime) (event_impact : pyval)
  : M metrics :=
  x <- Random.lognormal 10 1 ;;
  let base_bytes := (x * 1000)%float in
  n <- lift (PyFloat.to_int (base_bytes / 1460)) ;;
  let base_packets := Z.max 1 n in
  y <- Random.lognormal 2 0.5 ;;
  let base_duration := (y / 1000)%float in
  let hour := Calendar.hour timestamp in
  final_multiplier <- lift (float_mul (time_multiplier hour) event_impact) ;;
  bytes <- lift (PyFloat.to_int (base_bytes * final_multiplier)) ;;
  scaled <- lift (int_mul_float base_packets final_multiplier) ;;
  packets <- lift (PyFloat.to_int scaled) ;;
  let duration := PyFloat.round (base_duration * final_multiplier) 3 in
  z <- Random.lognormal 2 0.5 ;;
  let latency := PyFloat.round z 3 in
  b <- Random.beta 1 30 ;;
  let packet_loss := PyFloat.round (b * 100) 4 in
  ret (mk_metrics bytes packets duration latency packet_loss).

(** [with open(filename, 'w') as f]: the block leaves [lines] in the
    file, however it ends. *)
Definition write_file (filename : string) (lines : list csv_line) : M unit :=
  fun w => Ok tt (mk_world (np_random w) (fs w ++ [(filename, lines)])).

Definition save_batch (records : list TrafficRecord) (batch_id : string) : M unit :=
  let filename := "traffic_data_batch_" ++ batch_id ++ ".csv" in
  match records with
  | [] => write_file filename [] ;;; raise IndexError
  | first :: _ =>
      write_file filename (Header (record_keys first) :: map Row records)
  end.

(** Lines 179-180: the impact of the events of the current day. *)
Definition event_impact (events : list event) (current : datetime) : result pyval :=
  let today := Calendar.strftime_date current in
  rbind (filter_r (fun e => rbind (getitem e "date_range")
                                  (fun d => startswith d today)) events)
        (fun relevant_events =>
  py_max (map (fun e => match dict_get e "impact_score" with
                        | Some v => v
                        | None => PyFloat 1.0
                        end) relevant_events)
         (PyFloat 1.0)).

(** Lines 185-198: one record of the bucket [current]. *)
Definition generate_record (current : datetime) (impact : pyval) : M TrafficRecord :=
  metrics <- generate_traffic_metrics current impact ;;
  src <- generate_ip "qatar_isps" ;;
  dst <- generate_ip "cdns" ;;
  sport <- Random.randint 1024 65535 ;;
  dport <- Random.choice (values common_ports) ;;
  proto <- Random.choice_p (keys protocols) (values protocols) ;;
  ret (mk_record (Calendar.strftime_seconds current) src dst sport dport proto
                 (m_bytes metrics) (m_packets metrics) (m_duration metrics)
                 (m_latency metrics) (m_packet_loss metrics)).

(** [for _ in range(n)]: generate and append. *)
Fixpoint generate_records (n : nat) (current : datetime) (impact : pyval)
         (all_records : list TrafficRecord) : M (list TrafficRecord) :=
  match n with
  | O => ret all_records
  | S k =>
      record <- generate_record current impact ;;
      generate_records k current impact (all_records ++ [record])
  end.

Definition flush_threshold : Z := 50000.

(** One turn of the [while] loop: the bucket [current] is generated, the
    clock moves on, and the batch is saved once it is large enough. *)
Definition bucket (events : list event) (current : datetime)
           (all_records : list TrafficRecord)
  : M (datetime * list TrafficRecord) :=
  impact <- lift (event_impact events current) ;;
  num_records <- Random.randint 300 2000 ;;
  all_records <- generate_records (Z.to_nat num_records) current impact all_records ;;
  current <- lift (Calendar.add_hours current 1) ;;
  if flush_threshold <=? Z.of_nat (List.length all_records) then
    save_batch all_records (Calendar.strftime_compact current) ;;;
    ret (current, [])
  else ret (current, all_records).

(** [while current < end_date], with at most [fuel] turns; [None] when
    the fuel is spent before the loop ends. *)
Fixpoint while_loop (fuel : nat) (events : list event) (end_date current : datetime)
         (all_records : list TrafficRecord) (w : World)
  : option (outcome (list TrafficRecord)) :=
  if Calendar.lt current end_date then
    match fuel with
    | O => None
    | S fuel' =>
        match bucket events current all_records w with
        | Ok (current', all_records') w' =>
            while_loop fuel' events end_date current' all_records' w'
        | Raise e w' => Some (Raise e w')
        end
    end
  else Some (Ok all_records w).

(** The number of hour steps from [current] that stay before [end_date]. *)
Definition turns (current end_date : datetime) : nat :=
  Z.to_nat ((ticks end_date - ticks current + Calendar.us_per_hour - 1)
            / Calendar.us_per_hour).

Definition generate_traffic_data (events : list event) (start_date end_date : datetime)
  : World -> option (outcome (list TrafficRecord)) :=
  while_loop (turns start_date end_date) events end_date start_date [].

End NetworkTrafficGenerator.

(** ** Vocabulary of the statements *)

(** The world after [n] more sampling calls. *)
Definition skip (n : nat) (w : World) : World :=
  mk_world (mk_random (n + cursor (np_random w))
                      (int_tape (np_random w)) (real_tape (np_random w)))
           (fs w).

(** The world an outcome leaves behind, and its value if any. *)
Definition world_of {A : Type} (o : outcome A) : World :=
  match o with
  | Ok _ w => w
  | Raise _ w => w
  end.

(** What [save_batch records batch_id] leaves on disk for a non-empty
    batch. *)
Definition batch_file (records : list TrafficRecord) (batch_id : string)
  : string * list csv_line :=
  ("traffic_data_batch_" ++ batch_id ++ ".csv",
   Header (record_keys (hd (mk_record "" "" "" 0 0 "" 0 0 0 0 0) records))
   :: map Row records).

(** The records of a file, its header left out. *)
Definition data_rows (lines : list csv_line) : list TrafficRecord :=
  flat_map (fun l => match l with Row r => [r] | Header _ => [] end) lines.

(** A generator whose integer cells all hold [k] and real cells [x], over
    the file system [files]. *)
Definition constant_source (k : Z) (x : float) (files : list (string * list csv_line))
  : World :=
  mk_world (mk_random 0 (fun _ => k) (fun _ => x)) files.

(** The events the analyzer produces: a string ['date_range'] and, when
    present, a float ['impact_score']. *)
Definition well_formed (e : event) : Prop :=
  (exists s, dict_get e "date_range" = Some (PyStr s))
  /\ (dict_get e "impact_score" = None
      \/ exists x, dict_get e "impact_score" = Some (PyFloat x)).

(** The score an event contributes, 1.0 when it names none. *)
Definition score (e : event) : float :=
  match dict_get e "impact_score" with
  | Some (PyFloat x) => x
  | _ => 1%float
  end.

(** The event's ['date_range'] starts with the day [today]. *)
Definition starts_on (today : string) (e : event) : bool :=
  match dict_get e "date_range" with
  | Some (PyStr s) => prefix today s
  | _ => false
  end.

Module Spec.

(** Modelled on the specification's wording, for comparison with
    [NetworkTrafficGenerator.event_impact]: a ['date_range'] of the form
    [<start> - <end>] (ISO dates) overlaps the day [today] when [today]
    lies between its two dates; a single date overlaps its own day. *)
Definition date_range_overlaps (date_range today : string) : bool :=
  let first := substring 0 10 date_range in
  let final := if Nat.leb (String.length date_range) 10 then first
               else substring 13 10 date_range in
  String.leb first today && String.leb today final.

Definition overlaps (today : string) (e : event) : bool :=
  match dict_get e "date_range" with
  | Some (PyStr s) => date_range_overlaps s today
  | _ => false
  end.

(** "max impact_score over events whose date_range overlaps the bucket's
    date, else 1.0" *)
Definition event_impact (events : list event) (current : datetime) : result pyval :=
  py_max (map (fun e => PyFloat (score e))
              (filter (overlaps (Calendar.strftime_date current)) events))
         (PyFloat 1).

End Spec.

(** An event spanning three days, scored 2.0. *)
Definition three_day_event : event :=
  [("event_name", PyStr "Festival");
   ("date_range", PyStr "2024-01-01 - 2024-01-03");
   ("impact_score", PyFloat 2)].

(** An event of a single day scored 1.5, and one whose date is free text
    and that carries no score. *)
Definition one_day_event : event :=
  [("date_range", PyStr "2024-01-01"); ("impact_score", PyFloat 1.5)].

Definition undated_event : event := [("date_range", PyStr "next week")].

Definition new_year_events : list event :=
  [three_day_event; one_day_event; undated_event].

(** A computation is quiet when all it does to the world is to consume
    cells of the tapes. *)
Definition quiet {A : Type} (c : M A) : Prop :=
  forall w, exists n, world_of (c w) = skip n w.


(** The [i]-th real cell ahead of the cursor. *)
Definition upcoming_real (w : World) (i : nat) : float :=
  real_tape (np_random w) (i + cursor (np_random w)).

(** A generator whose first real cells are 22026.47, 7.39, 8.1234567 and
    0.03, over an empty file system. *)
Definition sample_source : World :=
  mk_world (mk_random 0 (fun _ => 5)
              (fun i => match i with
                        | O => 22026.47
                        | S O => 7.39
                        | S (S O) => 8.1234567
                        | _ => 0.03
                        end)%float)
           [].

(** The number of records a file holds, and the sum of a list of counts. *)
Definition row_count (f : string * list csv_line) : Z :=
  Z.of_nat (List.length (data_rows (snd f))).

Definition total (l : list Z) : Z := fold_right Z.add 0 l.

(** [t] is the start of a bucket of a run that began at [start]. *)
Definition on_grid (start t : datetime) : Prop :=
  exists k, 0 <= k /\ ticks t = ticks start + k * Calendar.us_per_hour.

(** [f] is what the run from [start] to [end_date] saves at the end of one
    of its buckets [t]: the whole batch, whose last record belongs to [t],
    under the day of [t] plus one hour. *)
Definition flush_of (start end_date : datetime) (f : string * list csv_line) : Prop :=
  exists t t' front r,
    on_grid start t
    /\ ticks t < ticks end_date
    /\ Calendar.add_hours t 1 = inr t'
    /\ f = batch_file (front ++ [r]) (Calendar.strftime_compact t')
    /\ timestamp r = Calendar.strftime_seconds t
    /\ 50000 <= Z.of_nat (List.length (front ++ [r])) <= 51998.

(** The states in which the run from [start] over the world [w0] evaluates
    the condition of its [while] loop. *)
Inductive loop_head (events : list event) (start end_date : datetime) (w0 : World)
  : datetime -> list TrafficRecord -> World -> Prop :=
| head_first : loop_head events start end_date w0 start [] w0
| head_next (t : datetime) (batch : list TrafficRecord) (w : World)
            (t' : datetime) (batch' : list TrafficRecord) (w' : World) :
    loop_head events start end_date w0 t batch w ->
    Calendar.lt t end_date = true ->
    NetworkTrafficGenerator.bucket events t batch w = Ok (t', batch') w' ->
    loop_head events start end_date w0 t' batch' w'.

(** The batches the run holds in memory: [all_records] after [j] turns of
    the [for] loop of one of its buckets. *)
Definition resident (events : list event) (start end_date : datetime) (w0 : World)
           (all_records : list TrafficRecord) : Prop :=
  exists t batch w impact n w1 j w2,
    loop_head events start end_date w0 t batch w
    /\ Calendar.lt t end_date = true
    /\ NetworkTrafficGenerator.event_impact events t = inr impact
    /\ Random.randint 300 2000 w = Ok n w1
    /\ (j <= Z.to_nat n)%nat
    /\ NetworkTrafficGenerator.generate_records j t impact batch w1
       = Ok all_records w2.

(** A generator that draws [k] for every integer and 1.0 for every real. *)
Definition steady (k : Z) (w : World) : Prop :=
  (forall i, int_tape (np_random w) i = k)
  /\ (forall i, real_tape (np_random w) i = 1%float).

(** [t] and the hour after it lie within the years 1 .. 9999. *)
Definition in_calendar (t : datetime) : Prop :=
  0 <= ticks t
  /\ ticks t + Calendar.us_per_hour < Calendar.max_ordinal * Calendar.us_per_day.

(** [t] moved forward by [h] hours, without the range check. *)
Definition hours_later (h : Z) (t : datetime) : datetime :=
  mk_datetime (ticks t + h * Calendar.us_per_hour).

(** * The rest of the pipeline: the analyzer, the scraper and [main] *)

(** [d[k] = v]: the value of an existing key is replaced in place, a new
    key goes to the end. *)
Fixpoint setitem {V : Type} (d : dict V) (k : string) (v : V) : dict V :=
  match d with
  | [] => [(k, v)]
  | (k', v') :: d' =>
      if String.eqb k' k then (k', v) :: d' else (k', v') :: setitem d' k v
  end.

(** ** GroqEventAnalyzer *)

Module GroqEventAnalyzer.

(** [max(a, b)] and [min(a, b)]: the first argument, unless the second is
    greater (smaller) than it. *)
Definition max2 (a b : float) : float := if (a <? b)%float then b else a.

Definition min2 (a b : float) : float := if (b <? a)%float then b else a.

(** [analyze_event_impact(event)].  The request to the service is not part
    of the model: [completion] is what lines 125-130 leave in [score], or
    the exception they raise.  The prompt is built before the [try]. *)
Definition analyze_event_impact (event : event) (completion : result float)
  : result float :=
  rbind (getitem event "event_name") (fun _ =>
  rbind (getitem event "description") (fun _ =>
  rbind (getitem event "location") (fun _ =>
  rbind (getitem event "time_range") (fun _ =>
  match completion with
  | inr score => inr (min2 (max2 score 1.0) 2.0)
  | inl _ => inr 1%float
  end)))).

End GroqEventAnalyzer.

(** ** BeautifulSoup documents *)

Module Soup.

(** A parsed document: strings, and tags with their name, the values of
    their [class] attribute, their other attributes and their contents. *)
#[warnings="-register-all"]
Inductive node : Type :=
| Text (s : string)
| Tag (name : string) (classes : list string) (attrs : dict string)
      (children : list node).

(** The nodes below [n], in document order. *)
Fixpoint descendants (n : node) : list node :=
  match n with
  | Text _ => []
  | Tag _ _ _ children =>
      (fix walk (l : list node) : list node :=
         match l with
         | [] => []
         | c :: l' => c :: descendants c ++ walk l'
         end) children
  end.

(** [n.text]: the strings below [n], joined. *)
Fixpoint text (n : node) : string :=
  match n with
  | Text s => s
  | Tag _ _ _ children =>
      (fix cat (l : list node) : string :=
         match l with
         | [] => ""
         | c :: l' => text c ++ cat l'
         end) children
  end.

(** [tag.get('class', [])] and [tag[key]] *)
Definition classes_of (n : node) : list string :=
  match n with
  | Tag _ classes _ _ => classes
  | Text _ => []
  end.

Definition attr (n : node) (key : string) : result string :=
  match n with
  | Tag _ _ attrs _ => getitem attrs key
  | Text _ => inl KeyError
  end.

(** The filter [class_=c]: [c] is one of the classes of the tag, or the
    whole value of its [class] attribute. *)
Definition has_class (c : string) (classes : list string) : bool :=
  existsb (String.eqb c) classes || String.eqb c (String.concat " " classes).

Definition is_tag (name : string) (n : node) : bool :=
  match n with
  | Tag name' _ _ _ => String.eqb name' name
  | Text _ => false
  end.

(** [n.find_all(name)], [n.find_all(name, class_=c)] and
    [n.find(name, class_=c)] *)
Definition find_all_tags (name : string) (n : node) : list node :=
  filter (is_tag name) (descendants n).

Definition find_all (name c : string) (n : node) : list node :=
  filter (fun d => is_tag name d && has_class c (classes_of d)) (descendants n).

Definition find (name c : string) (n : node) : option node :=
  hd_error (find_all name c n).

(** ASCII white space, as [str.strip()] removes it. *)
Definition is_space (c : ascii) : bool :=
  let n := nat_of_ascii c in
  ((Nat.leb 9 n) && (Nat.leb n 13)) || ((Nat.leb 28 n) && (Nat.leb n 32)).

Fixpoint lstrip (s : string) : string :=
  match s with
  | EmptyString => EmptyString
  | String c s' => if is_space c then lstrip s' else s
  end.

Fixpoint rstrip (s : string) : string :=
  match s with
  | EmptyString => EmptyString
  | String c s' =>
      match rstrip s' with
      | EmptyString => if is_space c then EmptyString else String c EmptyString
      | t => String c t
      end
  end.

Definition strip (s : string) : string := rstrip (lstrip s).

End Soup.

(** ** QatarEventScraper *)

Module QatarEventScraper.

(** The dict [parse_event] starts from. *)
Definition event_data : event :=
  [("event_name", PyStr ""); ("date_range", PyStr ""); ("location", PyStr "");
   ("description", PyStr ""); ("event_type", PyStr ""); ("time_range", PyStr "");
   ("url", PyStr "")].

(** Lines 64-70: the place, the date and the time of the event. *)
Definition read_detail (data : event) (detail : Soup.node) : event :=
  let classes := Soup.classes_of detail in
  let value := PyStr (Soup.strip (Soup.text detail)) in
  if existsb (String.eqb "_place") classes then setitem data "location" value
  else if existsb (String.eqb "_date") classes then setitem data "date_range" value
  else if existsb (String.eqb "_time") classes then setitem data "time_range" value
  else data.

(** [parse_event(event_block)]: [None] when the block raises, that is when
    its title link has no [href]. *)
Definition parse_event (event_block : Soup.node) : option event :=
  let titled :=
    match Soup.find "a" "article-block__title" event_block with
    | Some title_elem =>
        let data := setitem event_data "event_name"
                            (PyStr (Soup.strip (Soup.text title_elem))) in
        rbind (Soup.attr title_elem "href") (fun href =>
        inr (setitem data "url" (PyStr ("https://www.iloveqatar.net" ++ href))))
    | None => inr event_data
    end in
  match titled with
  | inl _ => None
  | inr data =>
      let data :=
        match Soup.find "div" "article-block__text" event_block with
        | Some desc_elem =>
            setitem data "description" (PyStr (Soup.strip (Soup.text desc_elem)))
        | None => data
        end in
      let data :=
        match Soup.find "div" "top-slider-content-event" event_block with
        | Some event_details =>
            fold_left read_detail (Soup.find_all_tags "div" event_details) data
        | None => data
        end in
      Some data
  end.

(** [scrape_events()], over what [fetch_page] and the HTML parser make of
    each page: [None] for a page that cannot be fetched or is empty. *)
Definition scrape_events (pages : Z -> option Soup.node) : list event :=
  flat_map (fun page_num =>
              match pages page_num with
              | None => []
              | Some soup =>
                  flat_map (fun event_block =>
                              match parse_event event_block with
                              | Some data => [data]
                              | None => []
                              end)
                           (Soup.find_all "div" "article-block _events" soup)
              end)
           (map Z.of_nat (seq 1 99)).

End QatarEventScraper.

(** ** [main] *)

(** Lines 229-230: every event gets its score; [completions i] is the
    outcome of the [i]-th request. *)
Fixpoint annotate (events : list event) (completions : nat -> result float)
         (i : nat) : result (list event) :=
  match events with
  | [] => inr []
  | e :: rest =>
      rbind (GroqEventAnalyzer.analyze_event_impact e (completions i)) (fun score =>
      rbind (annotate rest completions (S i)) (fun rest' =>
      inr (setitem e "impact_score" (PyFloat score) :: rest')))
  end.

(** Lines 238-240: the traffic of January 2024; what
    [generate_traffic_data] returns is dropped. *)
Definition main_traffic (events : list event) (w : World) : option (outcome unit) :=
  match NetworkTrafficGenerator.generate_traffic_data
          events (dt 2024 1 1 0) (dt 2024 2 1 0) w with
  | Some (Ok _ w') => Some (Ok tt w')
  | Some (Raise e w') => Some (Raise e w')
  | None => None
  end.

(** ** The dashboard (src/dashboard.py) *)

(** Line 30: the files [load_data] looks for. *)

Definition traffic_files : list string :=
  map (fun i => "traffic_data_batch_202401"
                ++ Calendar.padded 2 (Z.of_nat i) "" ++ ".csv")
      (seq 1 31).

(** The latitudes of [qatar_locations] (lines 18-24) as [str] prints them;
    25.6840 prints as 25.684. *)
Definition qatar_locations : list (string * string) :=
  [("Doha", "25.2854"); ("Al Wakrah", "25.1715"); ("Al Khor", "25.684");
   ("Lusail", "25.4285"); ("West Bay", "25.3287")].

(** Lines 158-160: the rows of the traffic of a location, those whose
    ['dest_ip'] starts with the first six characters of its latitude. *)
Definition location_rows (traffic_data : list TrafficRecord) (latitude : string)
  : list TrafficRecord :=
  filter (fun r => prefix (substring 0 6 latitude) (dest_ip r)) traffic_data.

(** Lines 46-48: the text of an event's date that [load_data] hands to
    [pd.to_datetime], [date_range.split('-')[0].strip()]. *)
Definition event_date_text (date_range : string) : string :=
  Soup.strip (hd "" (IPv4.split "-" date_range)).

(** ** Vocabulary of the further statements *)

(** The uniform sample [random_sample] makes of the [i]-th integer cell
    ahead of the cursor. *)
Definition uniform_ahead (w : World) (i : nat) : float :=
  (PyFloat.of_int (int_tape (np_random w) (i + cursor (np_random w))
                   mod 9007199254740992)
   / 9007199254740992)%float.

(** [s] holds no [sep]. *)
Fixpoint lacks (sep : ascii) (s : string) : bool :=
  match s with
  | EmptyString => true
  | String c s' => negb (Ascii.eqb c sep) && lacks sep s'
  end.

(** The octet [n] is printed without a dot and read back as [n]. *)
Definition octet_ok (n : Z) : bool :=
  lacks "." (IPv4.decimal n)
  && match IPv4.parse_octet (IPv4.decimal n) with
     | Some m => m =? n
     | None => false
     end.

(** [s] is the dotted quad of an address of one of the blocks of [pool]. *)
Definition address_of_pool (pool : string) (s : string) : Prop :=
  exists blocks block net addr,
    dict_get NetworkTrafficGenerator.ip_ranges pool = Some blocks
    /\ In block blocks
    /\ IPv4.ip_network block = inr net
    /\ s = IPv4.to_string addr
    /\ IPv4.parse_address s = Some addr
    /\ IPv4.contains net addr = true
    /\ addr < IPv4.network_address net + (IPv4.num_addresses net - 1).

(** The fields of a record that do not depend on its bucket. *)
Definition valid_fields (r : TrafficRecord) : Prop :=
  address_of_pool "qatar_isps" (source_ip r)
  /\ address_of_pool "cdns" (dest_ip r)
  /\ 1024 <= source_port r <= 65534
  /\ In (dest_port r) [80; 443; 53; 1935; 3074]
  /\ In (protocol r) ["TCP"; "UDP"; "ICMP"]%string.

(** [r] carries the timestamp of a bucket of the run from [start] to
    [end_date]. *)
Definition stamped (start end_date : datetime) (r : TrafficRecord) : Prop :=
  exists t,
    on_grid start t
    /\ ticks t < ticks end_date
    /\ timestamp r = Calendar.strftime_seconds t.

(** [groups] are the records of successive buckets, the first one [t]:
    between 300 and 1999 records each, stamped with their bucket and with
    valid fields. *)
Fixpoint bucketed (t : datetime) (groups : list (list TrafficRecord)) : Prop :=
  match groups with
  | [] => True
  | g :: groups' =>
      300 <= Z.of_nat (List.length g) < 2000
      /\ Forall (fun r => timestamp r = Calendar.strftime_seconds t
                          /\ valid_fields r) g
      /\ bucketed (hours_later 1 t) groups'
  end.

(** The records of a list of files, in order. *)
Definition rows_of (files : list (string * list csv_line)) : list TrafficRecord :=
  flat_map (fun f => data_rows (snd f)) files.

(** The files [saved] are named after hours that lie at least 26 hours
    after [last] and after one another, hence on later and later days,
    none later than [end_date] by a full hour. *)
Fixpoint flushed_apart (end_date last : datetime)
         (saved : list (string * list csv_line)) : Prop :=
  match saved with
  | [] => True
  | f :: saved' =>
      exists t',
        ticks last + 26 * Calendar.us_per_hour <= ticks t'
        /\ Calendar.toordinal last < Calendar.toordinal t'
        /\ ticks t' < ticks end_date + Calendar.us_per_hour
        /\ fst f = ("traffic_data_batch_" ++ Calendar.strftime_compact t' ++ ".csv")%string
        /\ flushed_apart end_date t' saved'
  end.

(** The strings of [l] differ from one another. *)
Fixpoint distinct (l : list string) : bool :=
  match l with
  | [] => true
  | x :: l' => negb (existsb (String.eqb x) l') && distinct l'
  end.

(** The names of the files of the days of January 2024 and of the first
    of February, by day. *)
Definition january_names : list string :=
  traffic_files ++ ["traffic_data_batch_20240201.csv"%string].

(** The first moment of the day [d] days after the first of January 2024. *)
Definition january_day (d : nat) : datetime :=
  hours_later (24 * Z.of_nat d) (dt 2024 1 1 0).

(** The file of each of these days carries its name in [january_names]. *)
Definition january_named : bool :=
  forallb (fun d =>
             String.eqb ("traffic_data_batch_"
                         ++ Calendar.strftime_compact (january_day d) ++ ".csv")
                        (nth d january_names ""))
          (seq 0 32).

(** An event as [parse_event] leaves it: the seven keys of [event_data],
    in their order, with strings as values. *)
Definition scraped (e : event) : Prop :=
  keys e = keys QatarEventScraper.event_data
  /\ Forall (fun kv => exists s, snd kv = PyStr s) e.

(** [s] is made of decimal digits. *)
Fixpoint all_digits (s : string) : bool :=
  match s with
  | EmptyString => true
  | String c s' =>
      Nat.leb 48 (nat_of_ascii c) && Nat.leb (nat_of_ascii c) 57 && all_digits s'
  end.
(** * Examples: the library functions on known values *)

Example to_int_trunc : PyFloat.to_int (2.999)%float = inr 2.
Proof. vm_compute. reflexivity. Qed.
Example to_int_neg : PyFloat.to_int (-2.999)%float = inr (-2).
Proof. vm_compute. reflexivity. Qed.
Example round_half_below : PyFloat.round (2.675)%float 2 = (2.67)%float.
Proof. vm_compute. reflexivity. Qed.
Example round_tie_to_even : PyFloat.round (0.0625)%float 3 = (0.062)%float.
Proof. vm_compute. reflexivity. Qed.
Example round_three_digits : PyFloat.round (7.3890560989306495)%float 3 = (7.389)%float.
Proof. vm_compute. reflexivity. Qed.
Example round_four_digits : PyFloat.round (123456789012.34567)%float 4 = (123456789012.3457)%float.
Proof. vm_compute. reflexivity. Qed.
Example round_to_zero : PyFloat.round (0.00049)%float 3 = 0%float.
Proof. vm_compute. reflexivity. Qed.
Example round_large : PyFloat.round (1e300)%float 3 = (1e300)%float.
Proof. vm_compute. reflexivity. Qed.
Example round_tie_up : PyFloat.round (0.1875)%float 3 = (0.188)%float.
Proof. vm_compute. reflexivity. Qed.
Example round_coarse : PyFloat.round (4503599627370.4975)%float 3 = (4503599627370.4975)%float.
Proof. vm_compute. reflexivity. Qed.
Example strftime_new_year : Calendar.strftime_seconds (dt 2024 1 1 0) = "2024-01-01 00:00:00".
Proof. vm_compute. reflexivity. Qed.
Example strftime_leap_day : Calendar.strftime_seconds (dt 2024 2 29 23) = "2024-02-29 23:00:00".
Proof. vm_compute. reflexivity. Qed.
Example add_hour_over_leap_day : option_map Calendar.strftime_seconds
   (match Calendar.add_hours (dt 2024 2 29 23) 1 with inr t => Some t | _ => None end) = Some "2024-03-01 00:00:00".
Proof. vm_compute. reflexivity. Qed.
Example add_hour_over_new_year : option_map Calendar.strftime_compact
   (match Calendar.add_hours (dt 2023 12 31 23) 1 with inr t => Some t | _ => None end) = Some "20240101".
Proof. vm_compute. reflexivity. Qed.
Example toordinal_new_year : Calendar.toordinal (dt 2024 1 1 0) = 738886.
Proof. vm_compute. reflexivity. Qed.
Example add_hour_overflows : Calendar.add_hours (dt 9999 12 31 23) 1 = inl OverflowError.
Proof. vm_compute. reflexivity. Qed.
Example strftime_2100 : Calendar.strftime_date (dt 2100 3 1 5) = "2100-03-01".
Proof. vm_compute. reflexivity. Qed.
Example strftime_2000 : Calendar.strftime_date (dt 2000 12 31 5) = "2000-12-31".
Proof. vm_compute. reflexivity. Qed.
Example no_leap_day_2023 : Calendar.make 2023 2 29 0 0 0 = inl ValueError.
Proof. vm_compute. reflexivity. Qed.
Example toordinal_1900 : Calendar.toordinal (dt 1900 3 1 5) = 693655.
Proof. vm_compute. reflexivity. Qed.
Example toordinal_2400 : Calendar.toordinal (dt 2400 2 29 1) = 876276.
Proof. vm_compute. reflexivity. Qed.
Example strftime_1900 : Calendar.strftime_seconds (dt 1900 3 1 5) = "1900-03-01 05:00:00".
Proof. vm_compute. reflexivity. Qed.
Example strftime_2400 : Calendar.strftime_seconds (dt 2400 2 29 1) = "2400-02-29 01:00:00".
Proof. vm_compute. reflexivity. Qed.
Example strftime_last_day : Calendar.strftime_seconds (dt 9999 12 31 22) = "9999-12-31 22:00:00".
Proof. vm_compute. reflexivity. Qed.
Example add_hour_end_of_2024 : option_map Calendar.strftime_compact
   (match Calendar.add_hours (dt 2024 12 31 23) 1 with inr t => Some t | _ => None end) = Some "20250101".
Proof. vm_compute. reflexivity. Qed.
Example ip_network_parses : IPv4.ip_network "178.152.0.0/15" = inr (IPv4.mk_network 2996305920 15).
Proof. vm_compute. reflexivity. Qed.
Example ip_network_host_bits : IPv4.ip_network "178.153.0.0/15" = inl ValueError.
Proof. vm_compute. reflexivity. Qed.
Example address_to_string : IPv4.to_string 2996305921 = "178.152.0.1".
Proof. vm_compute. reflexivity. Qed.
Example ip_network_size : option_map IPv4.num_addresses
  (match IPv4.ip_network "82.148.96.0/19" with inr n => Some n | _ => None end) = Some 8192.
Proof. vm_compute. reflexivity. Qed.

(** * Properties *)

Local Open Scope list_scope.

Ltac cmp_cases :=
  repeat match goal with
    | |- context [Z.compare ?x ?y] => destruct (Z.compare_spec x y)
    | |- context [Pos.compare ?x ?y] => destruct (Pos.compare_spec x y)
    end.

(** ** The order of floats *)

Section FloatOrder.

Lemma SFltb_trans (a b c : spec_float) :
  SFltb a b = true -> SFltb b c = true -> SFltb a c = true.
Proof.
  unfold SFltb, SFcompare.
  destruct a as [[]|[]| |[] ma ea], b as [[]|[]| |[] mb eb], c as [[]|[]| |[] mc ec];
    try reflexivity; try (intros; discriminate);
    change (Pos.compare_cont Eq) with Pos.compare;
    cmp_cases; simpl; intros; subst; try reflexivity; try discriminate; lia.
Qed.

Lemma SFltb_irrefl (a : spec_float) : SFltb a a = false.
Proof.
  unfold SFltb, SFcompare.
  destruct a as [[]|[]| |[] m e]; try reflexivity;
    change (Pos.compare_cont Eq) with Pos.compare;
    rewrite Z.compare_refl, Pos.compare_refl; reflexivity.
Qed.

Lemma ltb_trans (x y z : float) :
  (x <? y)%float = true -> (y <? z)%float = true -> (x <? z)%float = true.
Proof. rewrite !ltb_spec. apply SFltb_trans. Qed.

Lemma ltb_irrefl (x : float) : (x <? x)%float = false.
Proof. rewrite ltb_spec. apply SFltb_irrefl. Qed.

End FloatOrder.

(** ** The impact of a bucket *)

Section Impact.

Import NetworkTrafficGenerator.

Lemma py_max_from_floats (l : list float) : forall c,
  exists x, py_max_from (PyFloat c) (map PyFloat l) = inr (PyFloat x)
            /\ (x = c \/ (c <? x)%float = true)
            /\ In x (c :: l)
            /\ forall s, In s (c :: l) -> (x <? s)%float = false.
Proof.
  induction l as [|a l IH]; intros c.
  - exists c. repeat split; [now left | now left |].
    intros s [<-|[]]. apply ltb_irrefl.
  - cbn [map py_max_from py_gt rbind].
    destruct (c <? a)%float eqn:Hca.
    + destruct (IH a) as (x & Hx & Hchain & Hin & Hmax).
      exists x. split; [exact Hx|]. split; [|split].
      * right. destruct Hchain as [->|Hax]; [exact Hca|].
        eapply ltb_trans; eassumption.
      * right. exact Hin.
      * intros s [<-|Hs]; [|now apply Hmax].
        destruct (x <? c)%float eqn:Hxc; [|reflexivity].
        assert (Hxa : (x <? a)%float = true) by (eapply ltb_trans; eassumption).
        rewrite (Hmax a (or_introl eq_refl)) in Hxa. discriminate.
    + destruct (IH c) as (x & Hx & Hchain & Hin & Hmax).
      exists x. split; [exact Hx|]. split; [exact Hchain|]. split.
      * destruct Hin as [<-|Hin]; [now left | now right; right].
      * intros s [<-|[<-|Hs]].
        -- apply Hmax. now left.
        -- destruct Hchain as [->|Hcx]; [exact Hca|].
           destruct (x <? a)%float eqn:Hxs; [|reflexivity].
           rewrite (ltb_trans _ _ _ Hcx Hxs) in Hca. discriminate.
        -- apply Hmax. now right.
Qed.

Lemma filter_r_well_formed (today : string) (events : list event) :
  Forall well_formed events ->
  filter_r (fun e => rbind (getitem e "date_range")
                           (fun d => startswith d today)) events
  = inr (filter (starts_on today) events).
Proof.
  induction 1 as [|e events Hwf _ IH]; [reflexivity|].
  destruct Hwf as [[s Hs] _].
  cbn [filter_r filter]. rewrite IH.
  assert (Hst : starts_on today e = prefix today s)
    by (unfold starts_on; rewrite Hs; reflexivity).
  unfold getitem. rewrite Hs, Hst. reflexivity.
Qed.

Lemma scores_well_formed (events : list event) :
  Forall well_formed events ->
  map (fun e => match dict_get e "impact_score" with
                | Some v => v
                | None => PyFloat 1.0
                end) events
  = map PyFloat (map score events).
Proof.
  induction 1 as [|e events Hwf _ IH]; [reflexivity|].
  destruct Hwf as [_ [Hn|[x Hx]]];
    cbn [map]; unfold score; rewrite IH; [rewrite Hn | rewrite Hx]; reflexivity.
Qed.

Lemma Forall_filter {A : Type} (P : A -> Prop) (f : A -> bool) (l : list A) :
  Forall P l -> Forall P (filter f l).
Proof.
  induction 1 as [|a l Ha _ IH]; cbn; [constructor|].
  destruct (f a); [constructor|]; assumption.
Qed.

(** C3, as the code has it: the impact of a bucket is the greatest score
    among the events whose date_range starts with the bucket's day
    (YYYY-MM-DD), an event without a score counting for 1.0; it is 1.0
    when no event starts on that day; and on well-formed events the
    computation raises nothing. *)
Theorem event_impact_is_prefix_max (events : list event) (current : datetime) :
  Forall well_formed events ->
  exists x,
    event_impact events current = inr (PyFloat x)
    /\ (filter (starts_on (Calendar.strftime_date current)) events = [] -> x = 1%float)
    /\ (filter (starts_on (Calendar.strftime_date current)) events <> [] ->
        In x (map score (filter (starts_on (Calendar.strftime_date current)) events)))
    /\ forall e, In e events ->
                 starts_on (Calendar.strftime_date current) e = true ->
                 (x <? score e)%float = false.
Proof.
  intros Hwf. unfold event_impact.
  rewrite (filter_r_well_formed _ _ Hwf). cbn [rbind].
  set (relevant := filter _ events).
  assert (Hrel : Forall well_formed relevant) by now apply Forall_filter.
  rewrite (scores_well_formed _ Hrel).
  assert (Hmem : forall e, In e events ->
                           starts_on (Calendar.strftime_date current) e = true ->
                           In (score e) (map score relevant)).
  { intros e He Hs. apply in_map. apply filter_In. now split. }
  clearbody relevant.
  destruct relevant as [|e0 rest]; cbn [map py_max].
  - exists 1%float. repeat split; try reflexivity; try congruence.
    intros e He Hs. destruct (Hmem e He Hs).
  - destruct (py_max_from_floats (map score rest) (score e0))
      as (x & Hx & _ & Hin & Hmax).
    exists x. split; [exact Hx|]. split; [discriminate|]. split.
    + intros _. exact Hin.
    + intros e He Hs. apply Hmax. exact (Hmem e He Hs).
Qed.

Lemma event_impact_is_prefix_max_witness :
  exists x,
    event_impact new_year_events (dt 2024 1 1 7) = inr (PyFloat x)
    /\ (x <? 1.5)%float = false.
Proof.
  destruct (event_impact_is_prefix_max new_year_events (dt 2024 1 1 7))
    as (x & Hx & _ & _ & Hmax).
  - repeat (constructor;
            [split; [eexists; reflexivity
                    | first [left; reflexivity | right; eexists; reflexivity]]|]).
    constructor.
  - exists x. split; [exact Hx|].
    apply (Hmax one_day_event).
    + right; left; reflexivity.
    + vm_compute. reflexivity.
Defined.

(** C3 as stated fails: an event spanning 2024-01-01 to 2024-01-03 with
    score 2.0 overlaps 2024-01-02, yet the bucket of that day gets 1.0. *)
Lemma event_impact_misses_overlap :
  Spec.overlaps (Calendar.strftime_date (dt 2024 1 2 0)) three_day_event = true
  /\ Spec.event_impact [three_day_event] (dt 2024 1 2 0) = inr (PyFloat 2)
  /\ event_impact [three_day_event] (dt 2024 1 2 0) = inr (PyFloat 1).
Proof. vm_compute. repeat split. Qed.

(** An event dict without a ['date_range'] entry aborts the computation. *)
Lemma event_impact_key_error :
  event_impact [[("impact_score", PyFloat 2)]] (dt 2024 1 1 0) = inl KeyError.
Proof. vm_compute. reflexivity. Qed.

End Impact.

(** ** Computations over the world *)

Section Monad.

Context {A B : Type}.

Lemma bind_ok (c : M A) (k : A -> M B) (w : World) (b : B) (w' : World) :
  bind c k w = Ok b w' ->
  exists a w1, c w = Ok a w1 /\ k a w1 = Ok b w'.
Proof.
  unfold bind. destruct (c w) as [a w1|e w1]; [|discriminate].
  intros H. now exists a, w1.
Qed.

End Monad.

Ltac inv_ok H :=
  let a := fresh "a" in
  let w := fresh "w" in
  let H1 := fresh "Hc" in
  apply bind_ok in H; destruct H as (a & w & H1 & H).

(** *** Sampling leaves the tapes and the files alone *)

Lemma skip_skip (a b : nat) (w : World) : skip a (skip b w) = skip (a + b) w.
Proof. unfold skip; cbn. now rewrite Nat.add_assoc. Qed.

Lemma skip_zero (w : World) : skip 0 w = w.
Proof. destruct w as [[c i r] f]. reflexivity. Qed.

Section Quiet.

Context {A B : Type}.

Lemma quiet_ret (a : A) : quiet (ret a).
Proof. intros w. exists 0%nat. symmetry. apply skip_zero. Qed.

Lemma quiet_raise (e : exn) : quiet (@raise A e).
Proof. intros w. exists 0%nat. symmetry. apply skip_zero. Qed.

Lemma quiet_lift (c : result A) : quiet (lift c).
Proof. destruct c; [apply quiet_raise | apply quiet_ret]. Qed.

Lemma quiet_bind (c : M A) (k : A -> M B) :
  quiet c -> (forall a, quiet (k a)) -> quiet (bind c k).
Proof.
  intros Hc Hk w. unfold bind. destruct (Hc w) as [n Hn].
  destruct (c w) as [a w1|e w1]; cbn in Hn; subst w1.
  - destruct (Hk a (skip n w)) as [m Hm]. exists (m + n)%nat.
    now rewrite Hm, skip_skip.
  - now exists n.
Qed.

End Quiet.

Lemma quiet_next_int : quiet Random.next_int.
Proof. intros w. now exists 1%nat. Qed.

Lemma quiet_next_real : quiet Random.next_real.
Proof. intros w. now exists 1%nat. Qed.

Ltac quiet_step :=
  first
    [ apply quiet_ret | apply quiet_raise | apply quiet_lift
    | apply quiet_next_int | apply quiet_next_real
    | assumption
    | apply quiet_bind; [|intros ?]
    | match goal with
      | |- quiet (if ?b then _ else _) => destruct b
      | |- quiet (match ?x with _ => _ end) => destruct x
      end ].

Lemma quiet_randint (low high : Z) : quiet (Random.randint low high).
Proof. unfold Random.randint. repeat quiet_step. Qed.

Lemma quiet_random_sample : quiet Random.random_sample.
Proof. unfold Random.random_sample. repeat quiet_step. Qed.

Lemma quiet_lognormal (mean sigma : float) : quiet (Random.lognormal mean sigma).
Proof. unfold Random.lognormal. repeat quiet_step. Qed.

Lemma quiet_beta (a b : float) : quiet (Random.beta a b).
Proof. unfold Random.beta. repeat quiet_step. Qed.

Lemma quiet_choice {A : Type} (a : list A) : quiet (Random.choice a).
Proof.
  unfold Random.choice. destruct a; [apply quiet_raise|].
  apply quiet_bind; [apply quiet_randint | intros; apply quiet_ret].
Qed.

Lemma quiet_choice_p {A : Type} (a : list A) (p : list float) :
  quiet (Random.choice_p a p).
Proof.
  unfold Random.choice_p. destruct a; [apply quiet_raise|].
  repeat first [ apply quiet_random_sample | quiet_step ].
Qed.

Section QuietGenerator.

Import NetworkTrafficGenerator.

Lemma quiet_generate_ip (pool : string) : quiet (generate_ip pool).
Proof.
  unfold generate_ip.
  repeat first [ apply quiet_choice | apply quiet_randint | quiet_step ].
Qed.

Lemma quiet_generate_traffic_metrics (t : datetime) (impact : pyval) :
  quiet (generate_traffic_metrics t impact).
Proof.
  unfold generate_traffic_metrics.
  repeat first [ apply quiet_lognormal | apply quiet_beta | quiet_step ].
Qed.

Lemma quiet_generate_record (t : datetime) (impact : pyval) :
  quiet (generate_record t impact).
Proof.
  unfold generate_record.
  repeat first [ apply quiet_generate_traffic_metrics | apply quiet_generate_ip
               | apply quiet_randint | apply quiet_choice | apply quiet_choice_p
               | quiet_step ].
Qed.

Lemma quiet_generate_records (n : nat) (t : datetime) (impact : pyval) :
  forall batch, quiet (generate_records n t impact batch).
Proof.
  induction n as [|n IH]; intros batch; cbn [generate_records].
  - apply quiet_ret.
  - apply quiet_bind; [apply quiet_generate_record | intros r; apply IH].
Qed.

End QuietGenerator.

(** ** The sampling functions *)

Lemma randint_run (low high : Z) (w : World) :
  low < high ->
  Random.randint low high w
  = Ok (low + int_tape (np_random w) (cursor (np_random w)) mod (high - low))
       (skip 1 w).
Proof.
  intros H. unfold Random.randint.
  destruct (Z.leb_spec high low); [lia|]. reflexivity.
Qed.

Lemma randint_ok (low high : Z) (w : World) (v : Z) (w' : World) :
  Random.randint low high w = Ok v w' ->
  low <= v < high
  /\ v = low + int_tape (np_random w) (cursor (np_random w)) mod (high - low)
  /\ w' = skip 1 w.
Proof.
  unfold Random.randint. destruct (Z.leb_spec high low) as [Hle|Hlt].
  - discriminate.
  - intros H. inversion H; subst. split; [|now split].
    pose proof (Z.mod_pos_bound (int_tape (np_random w) (cursor (np_random w)))
                                (high - low)). lia.
Qed.

Lemma choice_run {A : Type} (a : list A) (d : A) (w : World) :
  a <> [] ->
  exists i, (i < List.length a)%nat
            /\ Random.choice a w = Ok (nth i a d) (skip 1 w).
Proof.
  intros Ha. destruct a as [|x a']; [congruence|].
  unfold Random.choice. set (a := x :: a').
  set (n := Z.of_nat (List.length a)).
  assert (Hn : 0 < n) by (unfold n, a; cbn [List.length]; lia).
  unfold bind. rewrite (randint_run 0 n w Hn). cbn [ret].
  set (i := 0 + _ mod (n - 0)).
  assert (Hi : 0 <= i < n).
  { unfold i. pose proof (Z.mod_pos_bound
                            (int_tape (np_random w) (cursor (np_random w))) (n - 0)).
    lia. }
  exists (Z.to_nat i). split; [unfold n in Hi; lia|].
  rewrite (nth_indep a x d) by (unfold n in Hi; lia). reflexivity.
Qed.

(** ** Addresses *)

Section Addresses.

Import NetworkTrafficGenerator.

(** Drawing the host offset and indexing the block, lines 152-153. *)
Lemma host_in_block (net : IPv4.network) (w : World) :
  1 < IPv4.num_addresses net ->
  exists host,
    0 <= host < IPv4.num_addresses net - 1
    /\ bind (Random.randint 0 (IPv4.num_addresses net - 1))
            (fun host => bind (lift (IPv4.network_getitem net host))
                              (fun addr => ret (IPv4.to_string addr))) w
       = Ok (IPv4.to_string (IPv4.network_address net + host)) (skip 1 w)
    /\ IPv4.contains net (IPv4.network_address net + host) = true.
Proof.
  intros Hnum. unfold bind at 1.
  rewrite randint_run by lia.
  set (host := 0 + _ mod _).
  assert (Hhost : 0 <= host < IPv4.num_addresses net - 1).
  { unfold host.
    pose proof (Z.mod_pos_bound (int_tape (np_random w) (cursor (np_random w)))
                                (IPv4.num_addresses net - 1 - 0)). lia. }
  exists host. split; [exact Hhost|].
  unfold IPv4.num_addresses in Hhost, Hnum.
  unfold IPv4.network_getitem, IPv4.contains.
  destruct (Z.leb_spec 0 host); [|lia].
  destruct (Z.ltb_spec (IPv4.broadcast_address net) (IPv4.network_address net + host));
    [lia|].
  split; [reflexivity|].
  apply andb_true_iff. split; apply Z.leb_le; lia.
Qed.

Lemma generate_ip_run (pool : string) (blocks : list string) (w : World) :
  dict_get ip_ranges pool = Some blocks ->
  blocks <> [] ->
  (forall b, In b blocks ->
             exists net, IPv4.ip_network b = inr net /\ 1 < IPv4.num_addresses net) ->
  exists block net host,
    In block blocks
    /\ IPv4.ip_network block = inr net
    /\ 0 <= host < IPv4.num_addresses net - 1
    /\ generate_ip pool w
       = Ok (IPv4.to_string (IPv4.network_address net + host)) (skip 2 w)
    /\ IPv4.contains net (IPv4.network_address net + host) = true.
Proof.
  intros Hpool Hne Hall. unfold generate_ip, getitem. rewrite Hpool.
  cbn [lift]. unfold bind at 1. cbn [ret]. unfold bind at 1.
  destruct (choice_run blocks ""%string w Hne) as (i & Hi & Hchoice).
  rewrite Hchoice. set (block := nth i blocks ""%string).
  assert (Hin : In block blocks) by (apply nth_In; exact Hi).
  destruct (Hall block Hin) as (net & Hnet & Hnum).
  unfold bind at 1. rewrite Hnet. cbn [lift ret].
  destruct (host_in_block net (skip 1 w) Hnum) as (host & Hhost & Hrun & Hcont).
  exists block, net, host. rewrite Hrun, skip_skip.
  repeat split; assumption || lia.
Qed.

Lemma configured_blocks (pool : string) (blocks : list string) :
  dict_get ip_ranges pool = Some blocks ->
  blocks <> []
  /\ forall b, In b blocks ->
               exists net, IPv4.ip_network b = inr net /\ 1 < IPv4.num_addresses net.
Proof.
  unfold ip_ranges. cbn [dict_get].
  repeat match goal with
         | |- context [String.eqb ?a pool] => destruct (String.eqb a pool)
         end;
    intros H; inversion H; subst; (split; [discriminate|]);
    intros b Hb; cbn [In] in Hb;
    repeat match goal with
           | H : _ \/ _ |- _ => destruct H
           | H : False |- _ => destruct H
           end; subst b;
    eexists; (split; [vm_compute; reflexivity | vm_compute; reflexivity]).
Qed.

(** C7: for every pool of [ip_ranges], the sampler returns the dotted quad
    of an address inside one of the pool's blocks, and never the block's
    last address (offset [num_addresses - 1]). *)
Theorem generate_ip_within_block (pool : string) (blocks : list string) (w : World) :
  dict_get ip_ranges pool = Some blocks ->
  exists block net addr w',
    generate_ip pool w = Ok (IPv4.to_string addr) w'
    /\ In block blocks
    /\ IPv4.ip_network block = inr net
    /\ IPv4.contains net addr = true
    /\ addr < IPv4.network_address net + (IPv4.num_addresses net - 1).
Proof.
  intros Hpool. destruct (configured_blocks pool blocks Hpool) as [Hne Hall].
  destruct (generate_ip_run pool blocks w Hpool Hne Hall)
    as (block & net & host & Hin & Hnet & Hhost & Hrun & Hcont).
  exists block, net, (IPv4.network_address net + host), (skip 2 w).
  repeat split; try assumption. lia.
Qed.

Lemma generate_ip_within_block_witness :
  exists block net addr w',
    generate_ip "qatar_isps" (constant_source 7 1 []) = Ok (IPv4.to_string addr) w'
    /\ In block ["178.152.0.0/15"; "37.208.0.0/13"; "82.148.96.0/19"]%string
    /\ IPv4.ip_network block = inr net
    /\ IPv4.contains net addr = true
    /\ addr < IPv4.network_address net + (IPv4.num_addresses net - 1).
Proof.
  apply (generate_ip_within_block "qatar_isps"). reflexivity.
Defined.

Example generate_ip_sample :
  generate_ip "qatar_isps" (constant_source 7 1 [])
  = Ok "37.208.0.7"%string (skip 2 (constant_source 7 1 [])).
Proof. vm_compute. reflexivity. Qed.

Example generate_ip_unknown_pool :
  generate_ip "residential" (constant_source 7 1 [])
  = Raise KeyError (constant_source 7 1 []).
Proof. vm_compute. reflexivity. Qed.

End Addresses.

(** ** Traffic metrics *)

Lemma bind_lift_ok {A B : Type} (c : result A) (k : A -> M B)
      (w : World) (b : B) (w' : World) :
  bind (lift c) k w = Ok b w' -> exists a, c = inr a /\ k a w = Ok b w'.
Proof.
  destruct c as [e|a]; cbn; [discriminate|]. intros H. now exists a.
Qed.

Lemma lognormal_run (mean sigma : float) (w : World) :
  (sigma <? 0)%float = false ->
  Random.lognormal mean sigma w
  = Ok (real_tape (np_random w) (cursor (np_random w))) (skip 1 w).
Proof. intros H. unfold Random.lognormal. rewrite H. reflexivity. Qed.

Lemma beta_run (a b : float) (w : World) :
  ((a <=? 0)%float || (b <=? 0)%float) = false ->
  Random.beta a b w
  = Ok (real_tape (np_random w) (cursor (np_random w))) (skip 1 w).
Proof. intros H. unfold Random.beta. rewrite H. reflexivity. Qed.

Section Metrics.

Import NetworkTrafficGenerator.

(** What a successful call of [generate_traffic_metrics] returns, in terms
    of the four cells it reads. *)
Lemma generate_traffic_metrics_ok (t : datetime) (impact : pyval)
      (w : World) (m : metrics) (w' : World) :
  generate_traffic_metrics t impact w = Ok m w' ->
  exists n fm scaled,
    PyFloat.to_int (upcoming_real w 0 * 1000 / 1460) = inr n
    /\ float_mul (time_multiplier (Calendar.hour t)) impact = inr fm
    /\ PyFloat.to_int (upcoming_real w 0 * 1000 * fm) = inr (m_bytes m)
    /\ int_mul_float (Z.max 1 n) fm = inr scaled
    /\ PyFloat.to_int scaled = inr (m_packets m)
    /\ m_duration m = PyFloat.round (upcoming_real w 1 / 1000 * fm) 3
    /\ m_latency m = PyFloat.round (upcoming_real w 2) 3
    /\ m_packet_loss m = PyFloat.round (upcoming_real w 3 * 100) 4
    /\ w' = skip 4 w.
Proof.
  unfold generate_traffic_metrics. intros H.
  unfold bind at 1 in H. rewrite lognormal_run in H by reflexivity.
  apply bind_lift_ok in H. destruct H as (n & Hn & H).
  unfold bind at 1 in H. rewrite lognormal_run in H by reflexivity.
  apply bind_lift_ok in H. destruct H as (fm & Hfm & H).
  apply bind_lift_ok in H. destruct H as (b & Hb & H).
  apply bind_lift_ok in H. destruct H as (scaled & Hscaled & H).
  apply bind_lift_ok in H. destruct H as (p & Hp & H).
  unfold bind at 1 in H. rewrite lognormal_run in H by reflexivity.
  unfold bind at 1 in H. rewrite beta_run in H by reflexivity.
  cbn [ret] in H. inversion H; subst m w'; clear H. cbn [m_bytes m_packets
    m_duration m_latency m_packet_loss].
  exists n, fm, scaled. rewrite !skip_skip. unfold upcoming_real. cbn.
  repeat split; assumption.
Qed.

(** C8: the latency of a record is [round(lognormal(2, 0.5), 3)], the third
    draw of the call, whatever the hour and the impact; bytes, packets and
    duration are the base values scaled by [final_multiplier]. *)
Theorem latency_not_scaled (t1 t2 : datetime) (impact1 impact2 : pyval)
        (w : World) (m1 m2 : metrics) (w1 w2 : World) :
  generate_traffic_metrics t1 impact1 w = Ok m1 w1 ->
  generate_traffic_metrics t2 impact2 w = Ok m2 w2 ->
  m_latency m1 = PyFloat.round (upcoming_real w 2) 3
  /\ m_latency m2 = m_latency m1
  /\ exists fm n scaled,
       float_mul (time_multiplier (Calendar.hour t1)) impact1 = inr fm
       /\ PyFloat.to_int (upcoming_real w 0 * 1000 * fm) = inr (m_bytes m1)
       /\ PyFloat.to_int (upcoming_real w 0 * 1000 / 1460) = inr n
       /\ int_mul_float (Z.max 1 n) fm = inr scaled
       /\ PyFloat.to_int scaled = inr (m_packets m1)
       /\ m_duration m1 = PyFloat.round (upcoming_real w 1 / 1000 * fm) 3.
Proof.
  intros H1 H2.
  apply generate_traffic_metrics_ok in H1.
  destruct H1 as (n & fm & scaled & Hn & Hfm & Hb & Hs & Hp & Hd & Hl & _).
  apply generate_traffic_metrics_ok in H2.
  destruct H2 as (_ & _ & _ & _ & _ & _ & _ & _ & _ & Hl2 & _).
  split; [exact Hl|]. split; [now rewrite Hl, Hl2|].
  exists fm, n, scaled. repeat split; assumption.
Qed.

Example metrics_at_night :
  generate_traffic_metrics (dt 2024 1 1 3) (PyFloat 1) sample_source
  = Ok (mk_metrics 15418528 10560 0.005 8.123 3) (skip 4 sample_source).
Proof. vm_compute. reflexivity. Qed.

Example metrics_at_noon :
  generate_traffic_metrics (dt 2024 1 1 12) (PyFloat 2) sample_source
  = Ok (mk_metrics 66079410 45258 0.022 8.123 3) (skip 4 sample_source).
Proof. vm_compute. reflexivity. Qed.

Lemma latency_not_scaled_witness :
  m_latency (mk_metrics 15418528 10560 0.005 8.123 3)
  = PyFloat.round (upcoming_real sample_source 2) 3
  /\ m_latency (mk_metrics 66079410 45258 0.022 8.123 3)
     = m_latency (mk_metrics 15418528 10560 0.005 8.123 3).
Proof.
  destruct (latency_not_scaled (dt 2024 1 1 3) (dt 2024 1 1 12)
              (PyFloat 1) (PyFloat 2) sample_source
              (mk_metrics 15418528 10560 0.005 8.123 3)
              (mk_metrics 66079410 45258 0.022 8.123 3)
              (skip 4 sample_source) (skip 4 sample_source))
    as (Hl & Heq & _).
  - vm_compute. reflexivity.
  - vm_compute. reflexivity.
  - split; assumption.
Defined.

(** C1 fails on the code: after midnight (multiplier 0.7), with impact 1.0
    and a first draw of 1.0 (1000 bytes), the packet count is floored to 1
    and then scaled to [int(0.7) = 0]. *)
Theorem packets_zero_at_night :
  generate_traffic_metrics (dt 2024 1 1 0) (PyFloat 1) (constant_source 0 1 [])
  = Ok (mk_metrics 700 0 0.001 1 100) (skip 4 (constant_source 0 1 [])).
Proof. vm_compute. reflexivity. Qed.

(** The same without the guard coming into play: 2000 bytes make one
    packet, scaled to none. *)
Example packets_zero_of_one_packet :
  generate_traffic_metrics (dt 2024 1 1 8) (PyFloat 1) (constant_source 0 2 [])
  = Ok (mk_metrics 1400 0 0.001 2 200) (skip 4 (constant_source 0 2 [])).
Proof. vm_compute. reflexivity. Qed.

(** From nine o'clock the same flow keeps its packet. *)
Example packets_kept_by_day :
  generate_traffic_metrics (dt 2024 1 1 9) (PyFloat 1) (constant_source 0 1 [])
  = Ok (mk_metrics 1500 1 0.002 1 100) (skip 4 (constant_source 0 1 [])).
Proof. vm_compute. reflexivity. Qed.

End Metrics.

(** ** Records and batches *)

Section Records.

Import NetworkTrafficGenerator.

Lemma quiet_ok {A : Type} (c : M A) (w : World) (a : A) (w' : World) :
  quiet c -> c w = Ok a w' -> exists n, w' = skip n w.
Proof. intros Hq H. destruct (Hq w) as [n Hn]. rewrite H in Hn. now exists n. Qed.

Lemma quiet_raised {A : Type} (c : M A) (w : World) (e : exn) (w' : World) :
  quiet c -> c w = Raise e w' -> exists n, w' = skip n w.
Proof. intros Hq H. destruct (Hq w) as [n Hn]. rewrite H in Hn. now exists n. Qed.

(** A record carries the timestamp of its bucket, and a source port drawn
    by [randint(1024, 65535)]. *)
Lemma generate_record_ok (t : datetime) (impact : pyval)
      (w : World) (r : TrafficRecord) (w' : World) :
  generate_record t impact w = Ok r w' ->
  timestamp r = Calendar.strftime_seconds t
  /\ 1024 <= source_port r < 65535
  /\ exists n, w' = skip n w.
Proof.
  intros H. split; [|split].
  - unfold generate_record in H. do 6 inv_ok H.
    inversion H. reflexivity.
  - unfold generate_record in H. do 6 inv_ok H.
    inversion H; subst; cbn [source_port].
    match goal with
    | Hr : Random.randint 1024 65535 _ = Ok _ _ |- _ =>
        apply randint_ok in Hr; destruct Hr as (Hb & _)
    end.
    exact Hb.
  - eapply quiet_ok; [apply quiet_generate_record | exact H].
Qed.

Lemma generate_records_ok (n : nat) (t : datetime) (impact : pyval) :
  forall (batch : list TrafficRecord) (w : World)
         (recs : list TrafficRecord) (w' : World),
    generate_records n t impact batch w = Ok recs w' ->
    exists new,
      recs = batch ++ new
      /\ List.length new = n
      /\ Forall (fun r => timestamp r = Calendar.strftime_seconds t) new
      /\ exists m, w' = skip m w.
Proof.
  induction n as [|n IH]; intros batch w recs w' H.
  - cbn in H. inversion H; subst. exists []. rewrite app_nil_r.
    repeat split; [constructor|]. exists 0%nat. now rewrite skip_zero.
  - cbn [generate_records] in H. inv_ok H.
    apply generate_record_ok in Hc. destruct Hc as (Hts & _ & k & ->).
    apply IH in H. destruct H as (new & -> & Hlen & Hall & m & ->).
    exists (a :: new). rewrite <- app_assoc. cbn [app List.length].
    repeat split; [now rewrite Hlen | now constructor |].
    exists (m + k)%nat. now rewrite skip_skip.
Qed.

Lemma save_batch_nonempty (r : TrafficRecord) (recs : list TrafficRecord)
      (batch_id : string) (w : World) :
  save_batch (r :: recs) batch_id w
  = Ok tt (mk_world (np_random w) (fs w ++ [batch_file (r :: recs) batch_id])).
Proof. reflexivity. Qed.

Lemma data_rows_map_Row (recs : list TrafficRecord) :
  data_rows (map Row recs) = recs.
Proof.
  induction recs as [|r recs IH]; [reflexivity|].
  cbn. unfold data_rows in IH. now rewrite IH.
Qed.

Lemma data_rows_batch_file (recs : list TrafficRecord) (batch_id : string) :
  data_rows (snd (batch_file recs batch_id)) = recs.
Proof. unfold batch_file. cbn [snd]. apply data_rows_map_Row. Qed.

Lemma add_hours_ok (t t' : datetime) :
  Calendar.add_hours t 1 = inr t' ->
  ticks t' = ticks t + Calendar.us_per_hour.
Proof.
  unfold Calendar.add_hours.
  destruct (_ && _); intros H; inversion H. cbn. lia.
Qed.

(** One turn of the loop either raises without touching the files, or
    appends the [n] records of the bucket, [300 <= n < 2000], moves the
    clock by an hour, and saves and empties the batch when it holds 50000
    records or more. *)
Lemma bucket_cases (events : list event) (t : datetime)
      (batch : list TrafficRecord) (w : World) :
  (exists e m, bucket events t batch w = Raise e (skip m w))
  \/ exists impact n new m t',
      event_impact events t = inr impact
      /\ Random.randint 300 2000 w = Ok n (skip 1 w)
      /\ 300 <= n < 2000
      /\ generate_records (Z.to_nat n) t impact batch (skip 1 w)
         = Ok (batch ++ new) (skip m w)
      /\ List.length new = Z.to_nat n
      /\ Forall (fun r => timestamp r = Calendar.strftime_seconds t) new
      /\ Calendar.add_hours t 1 = inr t'
      /\ bucket events t batch w
         = if flush_threshold <=? Z.of_nat (List.length (batch ++ new))
           then Ok (t', [])
                   (mk_world (np_random (skip m w))
                      (fs w ++ [batch_file (batch ++ new)
                                           (Calendar.strftime_compact t')]))
           else Ok (t', batch ++ new) (skip m w).
Proof.
  remember (bucket events t batch w) as o eqn:Ho. unfold bucket in Ho.
  destruct (event_impact events t) as [e|impact] eqn:Himpact.
  { left. exists e, 0%nat. subst o. cbn. now rewrite skip_zero. }
  cbn [lift] in Ho. unfold bind at 1 in Ho. cbn [ret] in Ho.
  unfold bind at 1 in Ho. rewrite (randint_run 300 2000 w) in Ho by lia.
  set (n := 300 + _ mod _) in Ho.
  assert (Hn : 300 <= n < 2000).
  { unfold n. pose proof (Z.mod_pos_bound
      (int_tape (np_random w) (cursor (np_random w))) (2000 - 300)). lia. }
  unfold bind at 1 in Ho.
  destruct (generate_records (Z.to_nat n) t impact batch (skip 1 w))
    as [recs w2|e w2] eqn:Hrecs.
  2:{ left. apply quiet_raised in Hrecs; [|apply quiet_generate_records].
      destruct Hrecs as [k ->]. exists e, (k + 1)%nat. subst o.
      now rewrite skip_skip. }
  destruct (generate_records_ok _ _ _ _ _ _ _ Hrecs)
    as (new & -> & Hlen & Hall & k & ->).
  rewrite skip_skip in *.
  destruct (Calendar.add_hours t 1) as [e|t'] eqn:Hadd.
  { left. exists e, (k + 1)%nat. subst o. reflexivity. }
  right. exists impact, n, new, (k + 1)%nat, t'.
  cbn [lift] in Ho. unfold bind at 1 in Ho. cbn [ret] in Ho.
  repeat split; try assumption; try lia.
  subst o.
  destruct (flush_threshold <=? Z.of_nat (List.length (batch ++ new))) eqn:Hfull;
    [|reflexivity].
  destruct (batch ++ new) as [|r recs] eqn:Hall_records.
  - cbn in Hfull. discriminate.
  - unfold bind. rewrite save_batch_nonempty. reflexivity.
Qed.

End Records.

(** ** The generation loop *)

Section Loop.

Import NetworkTrafficGenerator.

Lemma while_loop_done (fuel : nat) (events : list event) (end_date t : datetime)
      (batch : list TrafficRecord) (w : World) :
  Calendar.lt t end_date = false ->
  while_loop fuel events end_date t batch w = Some (Ok batch w).
Proof. intros H. destruct fuel; cbn; now rewrite H. Qed.

Lemma while_loop_step (fuel : nat) (events : list event) (end_date t : datetime)
      (batch : list TrafficRecord) (w : World) :
  Calendar.lt t end_date = true ->
  while_loop (S fuel) events end_date t batch w
  = match bucket events t batch w with
    | Ok (t', batch') w' => while_loop fuel events end_date t' batch' w'
    | Raise e w' => Some (Raise e w')
    end.
Proof. intros H. cbn. now rewrite H. Qed.

Lemma while_loop_spent (events : list event) (end_date t : datetime)
      (batch : list TrafficRecord) (w : World) :
  Calendar.lt t end_date = true ->
  while_loop 0 events end_date t batch w = None.
Proof. intros H. cbn. now rewrite H. Qed.

Lemma turns_done (t end_date : datetime) :
  Calendar.lt t end_date = false -> turns t end_date = 0%nat.
Proof.
  unfold Calendar.lt, turns. intros H. apply Z.ltb_ge in H.
  assert ((ticks end_date - ticks t + Calendar.us_per_hour - 1)
          / Calendar.us_per_hour <= 0); [|lia].
  apply Z.lt_succ_r. apply Z.div_lt_upper_bound; unfold Calendar.us_per_hour,
    Calendar.us_per_second; lia.
Qed.

Lemma turns_step (t t' end_date : datetime) :
  Calendar.lt t end_date = true ->
  ticks t' = ticks t + Calendar.us_per_hour ->
  turns t end_date = S (turns t' end_date).
Proof.
  unfold Calendar.lt, turns. intros H Ht'. apply Z.ltb_lt in H. rewrite Ht'.
  set (h := Calendar.us_per_hour).
  assert (Hh : 0 < h) by (unfold h, Calendar.us_per_hour, Calendar.us_per_second; lia).
  replace (ticks end_date - ticks t + h - 1)
    with (ticks end_date - (ticks t + h) + h - 1 + 1 * h) by lia.
  rewrite Z.div_add by lia.
  assert (0 <= (ticks end_date - (ticks t + h) + h - 1) / h)
    by (apply Z.div_pos; lia).
  lia.
Qed.

Lemma world_eta (w : World) : mk_world (np_random w) (fs w) = w.
Proof. now destruct w. Qed.

Lemma on_grid_next (start t t' : datetime) :
  on_grid start t -> ticks t' = ticks t + Calendar.us_per_hour -> on_grid start t'.
Proof. intros (k & Hk & Ht) Ht'. exists (k + 1). split; [lia|]. rewrite Ht', Ht. ring. Qed.

(** What the saved batch of a turn looks like. *)
Lemma flush_of_turn (start end_date t t' : datetime)
      (batch new : list TrafficRecord) (n : Z) :
  on_grid start t ->
  Calendar.lt t end_date = true ->
  Calendar.add_hours t 1 = inr t' ->
  Z.of_nat (List.length batch) < 50000 ->
  300 <= n < 2000 ->
  List.length new = Z.to_nat n ->
  Forall (fun r => timestamp r = Calendar.strftime_seconds t) new ->
  50000 <= Z.of_nat (List.length (batch ++ new)) ->
  flush_of start end_date (batch_file (batch ++ new) (Calendar.strftime_compact t')).
Proof.
  intros Hgrid Hlt Hadd Hbatch Hn Hlen Hall Hfull.
  destruct (exists_last (l := new)) as (front & r & ->).
  { intros ->. cbn in Hlen. lia. }
  exists t, t', (batch ++ front), r.
  rewrite <- app_assoc.
  repeat split; try assumption.
  - now apply Z.ltb_lt.
  - apply Forall_app in Hall. destruct Hall as [_ Hr]. now inversion Hr.
  - rewrite !length_app in *. cbn [List.length] in *. lia.
Qed.

(** The invariant of the loop: whatever the fuel, a finished run has only
    added saved batches to the file system; when it returns, fewer than
    50000 records remain, and the records of its buckets are those of the
    saved batches and of the remainder. *)
Lemma while_loop_inv (events : list event) (start end_date : datetime) :
  forall (fuel : nat) (t : datetime) (batch : list TrafficRecord)
         (w : World) (o : outcome (list TrafficRecord)),
    on_grid start t ->
    Z.of_nat (List.length batch) < 50000 ->
    while_loop fuel events end_date t batch w = Some o ->
    exists m F,
      world_of o = mk_world (np_random (skip m w)) (fs w ++ F)
      /\ Forall (flush_of start end_date) F
      /\ forall recs w', o = Ok recs w' ->
           Z.of_nat (List.length recs) < 50000
           /\ exists ns,
               List.length ns = turns t end_date
               /\ Forall (fun n => 300 <= n < 2000) ns
               /\ Z.of_nat (List.length batch) + total ns
                  = total (map row_count F) + Z.of_nat (List.length recs).
Proof.
  induction fuel as [|fuel IH]; intros t batch w o Hgrid Hbatch Hrun;
    destruct (Calendar.lt t end_date) eqn:Hlt.
  - rewrite while_loop_spent in Hrun by assumption. discriminate.
  - rewrite while_loop_done in Hrun by assumption. inversion Hrun; subst o.
    exists 0%nat, []. rewrite skip_zero, app_nil_r, world_eta.
    repeat split; [constructor|..]; inversion H; subst; [assumption|].
    exists []. rewrite turns_done by assumption. cbn. repeat split; [constructor|lia].
  - rewrite while_loop_step in Hrun by assumption.
    destruct (bucket_cases events t batch w)
      as [(e & m & Hb)|(impact & n & new & m & t' & _ & _ & Hn & _ & Hlen & Hall
                        & Hadd & Hb)];
      rewrite Hb in Hrun.
    + inversion Hrun; subst o. exists m, []. cbn [world_of].
      rewrite app_nil_r. cbn. repeat split; [constructor|discriminate..].
    + pose proof (add_hours_ok _ _ Hadd) as Ht'.
      pose proof (on_grid_next _ _ _ Hgrid Ht') as Hgrid'.
      unfold flush_threshold in Hrun.
      destruct (Z.leb_spec 50000 (Z.of_nat (List.length (batch ++ new)))) as [Hfull|Hroom].
      * apply IH in Hrun; [|assumption|cbn; lia].
        destruct Hrun as (m' & F & Hw & HF & Hret).
        exists (m' + m)%nat,
          (batch_file (batch ++ new) (Calendar.strftime_compact t') :: F).
        split; [|split].
        -- rewrite Hw. cbn. rewrite <- app_assoc. cbn.
           now rewrite Nat.add_assoc.
        -- constructor; [|exact HF].
           apply (flush_of_turn start end_date t t' batch new n); assumption.
        -- intros recs w' Ho. destruct (Hret recs w' Ho) as (Hrem & ns & Hns & Hrange & Hsum).
           split; [exact Hrem|]. exists (n :: ns).
           rewrite (turns_step t t' end_date Hlt Ht'). cbn [List.length map total fold_right].
           repeat split; [now rewrite Hns | now constructor |].
           unfold row_count at 1. rewrite data_rows_batch_file.
           fold (total ns). fold (total (map row_count F)).
           cbn [List.length] in Hsum. rewrite length_app. lia.
      * apply IH in Hrun; [|assumption|lia].
        destruct Hrun as (m' & F & Hw & HF & Hret).
        exists (m' + m)%nat, F. split; [|split].
        -- rewrite Hw, skip_skip. reflexivity.
        -- exact HF.
        -- intros recs w' Ho. destruct (Hret recs w' Ho) as (Hrem & ns & Hns & Hrange & Hsum).
           split; [exact Hrem|]. exists (n :: ns).
           rewrite (turns_step t t' end_date Hlt Ht'). cbn [List.length total fold_right].
           repeat split; [now rewrite Hns | now constructor |].
           fold (total ns). rewrite length_app in Hsum. lia.
  - rewrite while_loop_done in Hrun by assumption. inversion Hrun; subst o.
    exists 0%nat, []. rewrite skip_zero, app_nil_r, world_eta.
    repeat split; [constructor|..]; inversion H; subst; [assumption|].
    exists []. rewrite turns_done by assumption. cbn. repeat split; [constructor|lia].
Qed.

(** The loop ends within [turns] turns: the model never runs out of fuel. *)
Lemma while_loop_terminates (events : list event) (end_date : datetime) :
  forall (fuel : nat) (t : datetime) (batch : list TrafficRecord) (w : World),
    (turns t end_date <= fuel)%nat ->
    exists o, while_loop fuel events end_date t batch w = Some o.
Proof.
  induction fuel as [|fuel IH]; intros t batch w Hfuel;
    destruct (Calendar.lt t end_date) eqn:Hlt;
    try (rewrite while_loop_done by assumption; eauto; fail).
  - exfalso. unfold Calendar.lt, turns in *. apply Z.ltb_lt in Hlt.
    assert (1 <= (ticks end_date - ticks t + Calendar.us_per_hour - 1)
                 / Calendar.us_per_hour); [|lia].
    apply Z.div_le_lower_bound; unfold Calendar.us_per_hour,
      Calendar.us_per_second; lia.
  - rewrite while_loop_step by assumption.
    destruct (bucket_cases events t batch w)
      as [(e & m & Hb)|(impact & n & new & m & t' & _ & _ & _ & _ & _ & _ & Hadd & Hb)];
      rewrite Hb; [eauto|].
    pose proof (turns_step t t' end_date Hlt (add_hours_ok _ _ Hadd)) as Hturns.
    destruct (flush_threshold <=? _); apply IH; lia.
Qed.

Theorem generate_traffic_data_terminates (events : list event)
        (start_date end_date : datetime) (w : World) :
  exists o, generate_traffic_data events start_date end_date w = Some o.
Proof. apply while_loop_terminates. apply Nat.le_refl. Qed.

Lemma on_grid_start (start : datetime) : on_grid start start.
Proof. exists 0. split; lia. Qed.

(** The invariant, for a whole run. *)
Lemma generate_traffic_data_inv (events : list event) (start end_date : datetime)
      (w : World) (o : outcome (list TrafficRecord)) :
  generate_traffic_data events start end_date w = Some o ->
  exists m F,
    world_of o = mk_world (np_random (skip m w)) (fs w ++ F)
    /\ Forall (flush_of start end_date) F
    /\ forall recs w', o = Ok recs w' ->
         Z.of_nat (List.length recs) < 50000
         /\ exists ns,
             List.length ns = turns start end_date
             /\ Forall (fun n => 300 <= n < 2000) ns
             /\ total ns = total (map row_count F) + Z.of_nat (List.length recs).
Proof.
  intros Hrun. unfold generate_traffic_data in Hrun.
  apply (while_loop_inv events start end_date) in Hrun;
    [|apply on_grid_start|cbn; lia].
  destruct Hrun as (m & F & Hw & HF & Hret). exists m, F.
  repeat split; try assumption; destruct (Hret recs w' H) as (Hrem & ns & Hns).
  - exact Hrem.
  - exists ns. cbn in Hns. exact Hns.
Qed.

End Loop.

(** ** Runs over a steady generator

    With every real draw equal to 1.0 and no event, nothing raises: such
    runs are the concrete inputs of the examples below. *)

Section Steady.

Import NetworkTrafficGenerator.

Lemma steady_skip (k : Z) (n : nat) (w : World) : steady k w -> steady k (skip n w).
Proof. intros [Hi Hr]. split; intros i; cbn; [apply Hi | apply Hr]. Qed.

Lemma steady_write (k : Z) (w : World) (f : list (string * list csv_line)) :
  steady k w -> steady k (mk_world (np_random w) f).
Proof. intros [Hi Hr]. split; intros i; cbn; [apply Hi | apply Hr]. Qed.

Lemma steady_constant_source (k : Z) (f : list (string * list csv_line)) :
  steady k (constant_source k 1 f).
Proof. split; intros i; reflexivity. Qed.

Lemma choice_p_run {A : Type} (x : A) (a : list A) (p : list float) (w : World) :
  Nat.eqb (List.length (x :: a)) (List.length p) = true ->
  existsb (fun q => (q <? 0)%float) p = false ->
  (1.4901161193847656e-08 <? abs (Random.kahan_sum p - 1))%float = false ->
  exists v, Random.choice_p (x :: a) p w = Ok v (skip 1 w).
Proof.
  intros Hlen Hneg Hsum. unfold Random.choice_p. rewrite Hlen, Hneg, Hsum.
  cbn [negb]. unfold bind, Random.random_sample, bind, Random.next_int, ret.
  eexists. reflexivity.
Qed.

Lemma time_multiplier_cases (hour : Z) :
  time_multiplier hour = 1.5%float
  \/ time_multiplier hour = 1.3%float
  \/ time_multiplier hour = 0.7%float.
Proof.
  unfold time_multiplier.
  destruct (_ && _); [now left|]. destruct (_ && _); [right; now left|right; now right].
Qed.

Lemma generate_traffic_metrics_run (t : datetime) (impact : pyval) (w : World)
      (n b p : Z) (fm scaled : float) :
  PyFloat.to_int (upcoming_real w 0 * 1000 / 1460) = inr n ->
  float_mul (time_multiplier (Calendar.hour t)) impact = inr fm ->
  PyFloat.to_int (upcoming_real w 0 * 1000 * fm) = inr b ->
  int_mul_float (Z.max 1 n) fm = inr scaled ->
  PyFloat.to_int scaled = inr p ->
  generate_traffic_metrics t impact w
  = Ok (mk_metrics b p
          (PyFloat.round (upcoming_real w 1 / 1000 * fm) 3)
          (PyFloat.round (upcoming_real w 2) 3)
          (PyFloat.round (upcoming_real w 3 * 100) 4))
       (skip 4 w).
Proof.
  unfold upcoming_real. cbn [Nat.add]. intros Hn Hfm Hb Hs Hp.
  unfold generate_traffic_metrics.
  unfold bind at 1. rewrite lognormal_run by reflexivity.
  rewrite Hn. cbn [lift]. unfold bind at 1. cbn [ret].
  unfold bind at 1. rewrite lognormal_run by reflexivity.
  rewrite Hfm. cbn [lift]. unfold bind at 1. cbn [ret].
  rewrite Hb. cbn [lift]. unfold bind at 1. cbn [ret].
  rewrite Hs. cbn [lift]. unfold bind at 1. cbn [ret].
  rewrite Hp. cbn [lift]. unfold bind at 1. cbn [ret].
  unfold bind at 1. rewrite lognormal_run by reflexivity.
  unfold bind at 1. rewrite beta_run by reflexivity.
  rewrite !skip_skip. reflexivity.
Qed.

Lemma generate_traffic_metrics_steady (k : Z) (t : datetime) (w : World) :
  steady k w ->
  exists m, generate_traffic_metrics t (PyFloat 1) w = Ok m (skip 4 w).
Proof.
  intros [_ Hr].
  destruct (time_multiplier_cases (Calendar.hour t)) as [E|[E|E]];
    eexists; eapply generate_traffic_metrics_run;
    unfold upcoming_real; rewrite ?Hr, ?E; reflexivity.
Qed.

Lemma generate_ip_total (pool : string) (blocks : list string) (w : World) :
  dict_get ip_ranges pool = Some blocks ->
  exists s, generate_ip pool w = Ok s (skip 2 w).
Proof.
  intros Hpool. destruct (configured_blocks pool blocks Hpool) as [Hne Hall].
  destruct (generate_ip_run pool blocks w Hpool Hne Hall)
    as (block & net & host & _ & _ & _ & Hrun & _).
  eexists. exact Hrun.
Qed.

Lemma generate_record_steady (k : Z) (t : datetime) (w : World) :
  steady k w ->
  exists r, generate_record t (PyFloat 1) w = Ok r (skip 11 w).
Proof.
  intros Hw. unfold generate_record.
  destruct (generate_traffic_metrics_steady k t w Hw) as [m Hm].
  unfold bind at 1. rewrite Hm.
  destruct (generate_ip_total "qatar_isps" _ (skip 4 w) eq_refl) as [src Hsrc].
  unfold bind at 1. rewrite Hsrc.
  destruct (generate_ip_total "cdns" _ (skip 2 (skip 4 w)) eq_refl) as [dst Hdst].
  unfold bind at 1. rewrite Hdst.
  unfold bind at 1. rewrite randint_run by lia.
  destruct (choice_run (values common_ports) 0 (skip 1 (skip 2 (skip 2 (skip 4 w)))))
    as (i & _ & Hport); [discriminate|].
  unfold bind at 1. rewrite Hport.
  destruct (choice_p_run "TCP"%string ["UDP"; "ICMP"]%string (values protocols)
              (skip 1 (skip 1 (skip 2 (skip 2 (skip 4 w))))))
    as (proto & Hproto); [reflexivity..|].
  unfold bind at 1. change (keys protocols) with ["TCP"; "UDP"; "ICMP"]%string.
  rewrite Hproto. rewrite !skip_skip. eexists. reflexivity.
Qed.

Lemma generate_records_steady (k : Z) (t : datetime) (n : nat) :
  forall (batch : list TrafficRecord) (w : World),
    steady k w ->
    exists new m,
      generate_records n t (PyFloat 1) batch w = Ok (batch ++ new) (skip m w)
      /\ List.length new = n.
Proof.
  induction n as [|n IH]; intros batch w Hw.
  - exists [], 0%nat. cbn. now rewrite app_nil_r, skip_zero.
  - destruct (generate_record_steady k t w Hw) as [r Hr].
    destruct (IH (batch ++ [r]) (skip 11 w) (steady_skip _ _ _ Hw))
      as (new & m & Hrun & Hlen).
    exists (r :: new), (m + 11)%nat. cbn [generate_records].
    unfold bind. rewrite Hr, Hrun, skip_skip, <- app_assoc.
    split; [reflexivity | cbn; now rewrite Hlen].
Qed.

Lemma add_hours_run (t : datetime) :
  in_calendar t -> Calendar.add_hours t 1 = inr (hours_later 1 t).
Proof.
  intros [Hlo Hhi]. unfold Calendar.add_hours, hours_later, Calendar.toordinal.
  cbn [ticks]. set (t' := ticks t + 1 * Calendar.us_per_hour).
  assert (Hd : 0 < Calendar.us_per_day) by (vm_compute; reflexivity).
  assert (Hh : 0 < Calendar.us_per_hour) by (vm_compute; reflexivity).
  assert (H0 : 0 <= t' / Calendar.us_per_day) by (apply Z.div_pos; lia).
  assert (H1 : t' / Calendar.us_per_day < Calendar.max_ordinal)
    by (apply Z.div_lt_upper_bound; lia).
  destruct (Z.leb_spec 1 (t' / Calendar.us_per_day + 1)); [|lia].
  destruct (Z.leb_spec (t' / Calendar.us_per_day + 1) Calendar.max_ordinal); [|lia].
  reflexivity.
Qed.

(** A turn of the loop over a steady generator, with no event. *)
Lemma bucket_steady (k : Z) (t : datetime) (batch : list TrafficRecord) (w : World) :
  steady k w ->
  in_calendar t ->
  exists new m,
    List.length new = Z.to_nat (300 + k mod 1700)
    /\ Forall (fun r => timestamp r = Calendar.strftime_seconds t) new
    /\ bucket [] t batch w
       = if flush_threshold <=? Z.of_nat (List.length (batch ++ new))
         then Ok (hours_later 1 t, [])
                 (mk_world (np_random (skip m w))
                    (fs w ++ [batch_file (batch ++ new)
                                (Calendar.strftime_compact (hours_later 1 t))]))
         else Ok (hours_later 1 t, batch ++ new) (skip m w).
Proof.
  intros Hw Ht.
  destruct (bucket_cases [] t batch w)
    as [(e & m & Hb)|(impact & n & new & m & t' & Himpact & Hn & _ & Hrecs & Hlen
                      & Hall & Hadd & Hb)].
  - exfalso. unfold bucket in Hb.
    change (event_impact [] t) with (@inr exn pyval (PyFloat 1)) in Hb.
    cbn [lift] in Hb. unfold bind at 1 in Hb. cbn [ret] in Hb.
    unfold bind at 1 in Hb. rewrite randint_run in Hb by lia.
    set (n := 300 + _ mod _) in Hb.
    destruct (generate_records_steady k t (Z.to_nat n) batch (skip 1 w)
                (steady_skip _ _ _ Hw)) as (new & j & Hrun & Hlen).
    unfold bind at 1 in Hb. rewrite Hrun in Hb.
    rewrite (add_hours_run t Ht) in Hb. cbn [lift] in Hb.
    unfold bind at 1 in Hb. cbn [ret] in Hb.
    destruct (flush_threshold <=? Z.of_nat (List.length (batch ++ new))) eqn:Hfull;
      [|discriminate].
    destruct (batch ++ new) as [|r recs]; [cbn in Hfull; discriminate|].
    unfold bind in Hb. rewrite save_batch_nonempty in Hb. discriminate.
  - rewrite (add_hours_run t Ht) in Hadd. inversion Hadd; subst t'.
    apply randint_ok in Hn. destruct Hn as (_ & Hn' & _).
    destruct Hw as [Hi _]. rewrite Hi in Hn'.
    change (2000 - 300) with 1700 in Hn'. subst n.
    exists new, m. repeat split; assumption.
Qed.

Lemma in_calendar_later (t end_date : datetime) (j : Z) :
  0 <= ticks t -> 0 <= j ->
  ticks t + (j + 1) * Calendar.us_per_hour <= ticks end_date ->
  ticks end_date < Calendar.max_ordinal * Calendar.us_per_day ->
  in_calendar (hours_later j t).
Proof.
  intros H0 Hj Hend Hmax. unfold in_calendar, hours_later. cbn [ticks].
  assert (Hh : 0 < Calendar.us_per_hour) by (vm_compute; reflexivity).
  split; nia.
Qed.

Lemma hours_later_add (a b : Z) (t : datetime) :
  hours_later a (hours_later b t) = hours_later (b + a) t.
Proof. unfold hours_later. cbn [ticks]. f_equal. ring. Qed.

Lemma hours_later_zero (t : datetime) : hours_later 0 t = t.
Proof. destruct t as [x]. unfold hours_later. cbn. f_equal. lia. Qed.

(** [j] turns that fill the batch without reaching the threshold. *)
Lemma steady_turns (k : Z) (end_date : datetime) :
  forall (j fuel : nat) (t : datetime) (batch : list TrafficRecord) (w : World),
    steady k w ->
    0 <= ticks t ->
    ticks t + Z.of_nat j * Calendar.us_per_hour <= ticks end_date ->
    ticks end_date < Calendar.max_ordinal * Calendar.us_per_day ->
    Z.of_nat (List.length batch) + Z.of_nat j * (300 + k mod 1700) < 50000 ->
    exists new w2,
      while_loop (j + fuel) [] end_date t batch w
      = while_loop fuel [] end_date (hours_later (Z.of_nat j) t) (batch ++ new) w2
      /\ Z.of_nat (List.length new) = Z.of_nat j * (300 + k mod 1700)
      /\ steady k w2
      /\ fs w2 = fs w.
Proof.
  assert (Hh : 0 < Calendar.us_per_hour) by (vm_compute; reflexivity).
  assert (Hk : 0 <= k mod 1700 < 1700) by (apply Z.mod_pos_bound; lia).
  induction j as [|j IH]; intros fuel t batch w Hw H0 Hend Hmax Hroom.
  - exists [], w. rewrite app_nil_r, hours_later_zero.
    split; [reflexivity|]. split; [reflexivity|]. now split.
  - assert (Hlt : Calendar.lt t end_date = true) by (apply Z.ltb_lt; nia).
    assert (Hcal : in_calendar t).
    { replace t with (hours_later 0 t) by apply hours_later_zero.
      apply (in_calendar_later t end_date 0); lia || nia. }
    cbn [Nat.add]. rewrite while_loop_step by assumption.
    destruct (bucket_steady k t batch w Hw Hcal) as (new & m & Hlen & _ & Hb).
    rewrite Hb. unfold flush_threshold.
    destruct (Z.leb_spec 50000 (Z.of_nat (List.length (batch ++ new)))) as [Hfull|_].
    { rewrite length_app in Hfull. nia. }
    destruct (IH fuel (hours_later 1 t) (batch ++ new) (skip m w))
      as (new' & w2 & Hrun & Hlen' & Hw2 & Hfs).
    + now apply steady_skip.
    + unfold hours_later. cbn [ticks]. lia.
    + unfold hours_later. cbn [ticks]. nia.
    + assumption.
    + rewrite length_app. nia.
    + exists (new ++ new'), w2. rewrite Hrun, hours_later_add, app_assoc.
      replace (1 + Z.of_nat j) with (Z.of_nat (S j)) by lia.
      split; [reflexivity|]. split; [rewrite length_app; nia|]. now split.
Qed.

(** The turn that reaches the threshold saves the batch and empties it. *)
Lemma steady_flush (k : Z) (end_date t : datetime) (fuel : nat)
      (batch : list TrafficRecord) (w : World) :
  steady k w ->
  in_calendar t ->
  Calendar.lt t end_date = true ->
  50000 <= Z.of_nat (List.length batch) + (300 + k mod 1700) ->
  exists front r w2,
    while_loop (S fuel) [] end_date t batch w
    = while_loop fuel [] end_date (hours_later 1 t) [] w2
    /\ fs w2 = fs w ++ [batch_file (front ++ [r])
                          (Calendar.strftime_compact (hours_later 1 t))]
    /\ Z.of_nat (List.length (front ++ [r]))
       = Z.of_nat (List.length batch) + (300 + k mod 1700)
    /\ timestamp r = Calendar.strftime_seconds t
    /\ steady k w2.
Proof.
  assert (Hk : 0 <= k mod 1700 < 1700) by (apply Z.mod_pos_bound; lia).
  intros Hw Hcal Hlt Hfull. rewrite while_loop_step by assumption.
  destruct (bucket_steady k t batch w Hw Hcal) as (new & m & Hlen & Hall & Hb).
  rewrite Hb. unfold flush_threshold.
  destruct (Z.leb_spec 50000 (Z.of_nat (List.length (batch ++ new)))) as [_|Hroom].
  2:{ rewrite length_app in Hroom. lia. }
  destruct (exists_last (l := new)) as (front & r & ->).
  { intros ->. cbn [List.length] in Hlen. lia. }
  exists (batch ++ front), r, (mk_world (np_random (skip m w))
    (fs w ++ [batch_file (batch ++ front ++ [r])
                (Calendar.strftime_compact (hours_later 1 t))])).
  rewrite <- app_assoc.
  split; [reflexivity|]. split; [reflexivity|]. split; [|split].
  - rewrite !length_app in *. cbn [List.length] in *. lia.
  - apply Forall_app in Hall. destruct Hall as [_ Hr]. now inversion Hr.
  - now apply steady_write, steady_skip.
Qed.

End Steady.

(** ** Record counts and source ports *)

Section Counts.

Import NetworkTrafficGenerator.

(** A turn that succeeds leaves either the batch extended by the records
    of the bucket, or the empty batch. *)
Lemma bucket_ok (events : list event) (t t' : datetime)
      (batch batch' : list TrafficRecord) (w w' : World) :
  bucket events t batch w = Ok (t', batch') w' ->
  exists new,
    300 <= Z.of_nat (List.length new) < 2000
    /\ Z.of_nat (List.length new)
       = 300 + int_tape (np_random w) (cursor (np_random w)) mod 1700
    /\ Forall (fun r => timestamp r = Calendar.strftime_seconds t) new
    /\ ((Z.of_nat (List.length (batch ++ new)) < 50000 /\ batch' = batch ++ new)
        \/ (50000 <= Z.of_nat (List.length (batch ++ new)) /\ batch' = [])).
Proof.
  intros H.
  destruct (bucket_cases events t batch w)
    as [(e & m & Hb)|(impact & n & new & m & t1 & _ & Hrand & Hn & _ & Hlen & Hall
                      & _ & Hb)];
    rewrite Hb in H; [discriminate|].
  apply randint_ok in Hrand. destruct Hrand as (_ & Hval & _).
  change (2000 - 300) with 1700 in Hval.
  exists new. split; [lia|]. split; [lia|]. split; [exact Hall|].
  unfold flush_threshold in H.
  destruct (Z.leb_spec 50000 (Z.of_nat (List.length (batch ++ new))));
    inversion H; subst; [right | left]; now split.
Qed.

(** C5, as the code has it: a bucket gets [300 + k mod 1700] records for
    the integer [k] drawn, that is between 300 and 1999, the upper bound
    2000 of [randint] being excluded; each of these counts is drawn by
    some generator; and a run of two buckets returns between 600 and 3998
    records, none of them saved. *)
Theorem records_per_bucket :
  (forall events t batch w t' batch' w',
      bucket events t batch w = Ok (t', batch') w' ->
      exists new,
        Z.of_nat (List.length new)
        = 300 + int_tape (np_random w) (cursor (np_random w)) mod 1700
        /\ 300 <= Z.of_nat (List.length new) <= 1999
        /\ (batch' = batch ++ new \/ batch' = []))
  /\ (forall n, 300 <= n <= 1999 ->
        exists w t' recs w',
          bucket [] (dt 2024 1 1 0) [] w = Ok (t', recs) w'
          /\ Z.of_nat (List.length recs) = n)
  /\ (forall events start_date end_date w recs w',
        turns start_date end_date = 2%nat ->
        generate_traffic_data events start_date end_date w = Some (Ok recs w') ->
        600 <= Z.of_nat (List.length recs) <= 3998 /\ fs w' = fs w).
Proof.
  split; [|split].
  - intros events t batch w t' batch' w' H.
    apply bucket_ok in H. destruct H as (new & Hn & Hval & _ & [[_ ->]|[_ ->]]);
      exists new; (split; [exact Hval|]); (split; [lia|]); [now left | now right].
  - intros n Hn.
    destruct (bucket_steady (n - 300) (dt 2024 1 1 0) []
                (constant_source (n - 300) 1 []))
      as (new & m & Hlen & _ & Hb).
    + apply steady_constant_source.
    + split; vm_compute; [discriminate | reflexivity].
    + rewrite Z.mod_small in Hlen by lia.
      replace (300 + (n - 300)) with n in Hlen by lia.
      unfold flush_threshold in Hb. cbn [app] in Hb.
      destruct (Z.leb_spec 50000 (Z.of_nat (List.length new))); [lia|].
      eexists _, _, new, _. split; [exact Hb | lia].
  - intros events start_date end_date w recs w' Hturns Hrun.
    apply generate_traffic_data_inv in Hrun.
    destruct Hrun as (m & F & Hw & HF & Hret). cbn [world_of] in Hw.
    destruct (Hret recs w' eq_refl) as (_ & ns & Hlen & Hrange & Hsum).
    rewrite Hturns in Hlen.
    destruct ns as [|n1 [|n2 [|n3 ns]]]; try discriminate.
    pose proof (Forall_inv Hrange) as H1.
    pose proof (Forall_inv (Forall_inv_tail Hrange)) as H2.
    cbn beta in H1, H2.
    cbn [total fold_right] in Hsum.
    destruct F as [|f F].
    + cbn [map total fold_right] in Hsum. rewrite app_nil_r in Hw.
      split; [lia | now rewrite Hw].
    + exfalso. pose proof (Forall_inv HF) as Hf.
      destruct Hf as (t & t' & front & r & _ & _ & _ & -> & _ & Hsize).
      cbn [map total fold_right] in Hsum. unfold row_count at 1 in Hsum.
      rewrite data_rows_batch_file in Hsum.
      assert (0 <= fold_right Z.add 0 (map row_count F)).
      { clear. induction F as [|f F IH]; cbn; [lia|]. unfold row_count at 1. lia. }
      lia.
Qed.

Lemma bucket_of_1999 :
  exists w t' recs w',
    bucket [] (dt 2024 1 1 0) [] w = Ok (t', recs) w'
    /\ Z.of_nat (List.length recs) = 1999.
Proof.
  destruct records_per_bucket as (_ & Hdrawn & _).
  apply (Hdrawn 1999). lia.
Qed.

(** C5 as stated fails: no bucket ever gets 2000 records. *)
Lemma no_bucket_of_2000 :
  ~ exists events t w t' recs w',
      bucket events t [] w = Ok (t', recs) w'
      /\ Z.of_nat (List.length recs) = 2000.
Proof.
  intros (events & t & w & t' & recs & w' & H & Hlen).
  apply bucket_ok in H. destruct H as (new & Hn & _ & _ & [[_ ->]|[_ ->]]).
  - cbn [app] in Hlen. lia.
  - cbn in Hlen. lia.
Qed.

(** C6 fails on the code: the source port of a record is drawn by
    [randint(1024, 65535)], whose upper bound is excluded, so that it lies
    between 1024 and 65534 and is never 65535. *)
Theorem source_port_never_65535 (t : datetime) (impact : pyval)
        (w : World) (r : TrafficRecord) (w' : World) :
  generate_record t impact w = Ok r w' ->
  1024 <= source_port r <= 65534.
Proof.
  intros H. apply generate_record_ok in H. destruct H as (_ & Hport & _). lia.
Qed.

Lemma source_port_never_65535_witness :
  exists r w',
    generate_record (dt 2024 1 1 0) (PyFloat 1) (constant_source 64510 1 []) = Ok r w'
    /\ 1024 <= source_port r <= 65534.
Proof.
  destruct (generate_record_steady 64510 (dt 2024 1 1 0) (constant_source 64510 1 []))
    as [r Hr]; [apply steady_constant_source|].
  exists r, (skip 11 (constant_source 64510 1 [])). split; [exact Hr|].
  exact (source_port_never_65535 _ _ _ _ _ Hr).
Defined.

Example source_port_largest :
  Random.randint 1024 65535 (constant_source 64510 1 [])
  = Ok 65534 (skip 1 (constant_source 64510 1 [])).
Proof. vm_compute. reflexivity. Qed.

Example source_port_wraps :
  Random.randint 1024 65535 (constant_source 64511 1 [])
  = Ok 1024 (skip 1 (constant_source 64511 1 [])).
Proof. vm_compute. reflexivity. Qed.

End Counts.

(** ** Saved batches *)

Section Batches.

Import NetworkTrafficGenerator.

Lemma loop_head_small (events : list event) (start end_date : datetime) (w0 : World)
      (t : datetime) (batch : list TrafficRecord) (w : World) :
  loop_head events start end_date w0 t batch w ->
  Z.of_nat (List.length batch) < 50000.
Proof.
  induction 1 as [|t batch w t' batch' w' _ IH _ Hb]; [cbn; lia|].
  apply bucket_ok in Hb. destruct Hb as (new & _ & _ & _ & [[Hroom ->]|[_ ->]]).
  - exact Hroom.
  - cbn. lia.
Qed.

Lemma total_row_count_nonneg (F : list (string * list csv_line)) :
  0 <= total (map row_count F).
Proof.
  unfold total. induction F as [|f F IH]; cbn; [lia|]. unfold row_count at 1. lia.
Qed.

(** C2, as the code has it: the threshold is tested once per bucket, after
    its records were appended.  The batch in memory never holds more than
    51998 records; every call of the batch writer receives the whole
    batch, of 50000 to 51998 records; a run that returns has fewer than
    50000 records left; and a run that generates exactly 100000 records
    saves one or two batches, two only if both hold exactly 50000 records
    and nothing remains. *)
Theorem batch_bounded_per_bucket (events : list event)
        (start_date end_date : datetime) (w : World) :
  (forall all_records,
      resident events start_date end_date w all_records ->
      Z.of_nat (List.length all_records) <= 51998)
  /\ forall o,
      generate_traffic_data events start_date end_date w = Some o ->
      exists saved,
        fs (world_of o) = fs w ++ saved
        /\ Forall (fun f => exists records batch_id,
                       f = batch_file records batch_id
                       /\ 50000 <= Z.of_nat (List.length records) <= 51998) saved
        /\ forall remaining w',
            o = Ok remaining w' ->
            Z.of_nat (List.length remaining) < 50000
            /\ exists counts,
                List.length counts = turns start_date end_date
                /\ total counts
                   = total (map row_count saved) + Z.of_nat (List.length remaining)
                /\ (total counts = 100000 ->
                    (List.length saved = 1%nat \/ List.length saved = 2%nat)
                    /\ (List.length saved = 2%nat ->
                        remaining = []
                        /\ Forall (fun f => row_count f = 50000) saved)).
Proof.
  split.
  - intros recs (t & batch & w1 & impact & n & w2 & j & w3
                 & Hhead & _ & _ & Hrand & Hj & Hrecs).
    apply loop_head_small in Hhead.
    apply randint_ok in Hrand. destruct Hrand as (Hn & _ & _).
    apply generate_records_ok in Hrecs. destruct Hrecs as (new & -> & Hlen & _).
    rewrite length_app. lia.
  - intros o Hrun.
    apply generate_traffic_data_inv in Hrun.
    destruct Hrun as (m & F & Hw & HF & Hret).
    exists F.
    assert (Hsizes : Forall (fun f => 50000 <= row_count f <= 51998) F).
    { eapply Forall_impl; [|exact HF].
      intros f (t & t' & front & r & _ & _ & _ & -> & _ & Hsize).
      unfold row_count. now rewrite data_rows_batch_file. }
    split; [now rewrite Hw|]. split.
    { eapply Forall_impl; [|exact HF].
      intros f (t & t' & front & r & _ & _ & _ & -> & _ & Hsize). eauto. }
    intros remaining w' Ho.
    destruct (Hret remaining w' Ho) as (Hrem & ns & Hlen & Hrange & Hsum).
    split; [exact Hrem|]. exists ns. split; [exact Hlen|]. split; [exact Hsum|].
    intros Htotal. rewrite Htotal in Hsum.
    destruct F as [|f1 [|f2 [|f3 F]]]; cbn [List.length map total fold_right] in *.
    + lia.
    + split; [now left | discriminate].
    + pose proof (Forall_inv Hsizes) as H1.
      pose proof (Forall_inv (Forall_inv_tail Hsizes)) as H2. cbn beta in H1, H2.
      split; [now right|]. intros _.
      split; [destruct remaining; [reflexivity | cbn [List.length] in *; lia]|].
      repeat constructor; lia.
    + exfalso.
      pose proof (Forall_inv Hsizes) as H1.
      pose proof (Forall_inv (Forall_inv_tail Hsizes)) as H2.
      pose proof (Forall_inv (Forall_inv_tail (Forall_inv_tail Hsizes))) as H3.
      cbn beta in H1, H2, H3.
      pose proof (total_row_count_nonneg F) as H4. unfold total in H4. lia.
Qed.

(** C4, as the code has it: every file the run writes is named
    traffic_data_batch_<YYYYMMDD>.csv after the day of [t] plus one hour,
    where [t] is the bucket being processed, the one the last record of
    the file belongs to: the clock has moved on when the batch is saved. *)
Theorem batch_named_after_next_hour (events : list event)
        (start_date end_date : datetime) (w : World)
        (o : outcome (list TrafficRecord)) :
  generate_traffic_data events start_date end_date w = Some o ->
  exists saved,
    fs (world_of o) = fs w ++ saved
    /\ Forall (fun f => exists t t' front r,
                   on_grid start_date t
                   /\ ticks t < ticks end_date
                   /\ Calendar.add_hours t 1 = inr t'
                   /\ fst f = ("traffic_data_batch_" ++ Calendar.strftime_compact t'
                               ++ ".csv")%string
                   /\ data_rows (snd f) = front ++ [r]
                   /\ timestamp r = Calendar.strftime_seconds t) saved.
Proof.
  intros Hrun. apply generate_traffic_data_inv in Hrun.
  destruct Hrun as (m & F & Hw & HF & _).
  exists F. split; [now rewrite Hw|].
  eapply Forall_impl; [|exact HF].
  intros f (t & t' & front & r & Hgrid & Hlt & Hadd & -> & Hts & _).
  exists t, t', front, r. rewrite data_rows_batch_file. now repeat split.
Qed.

(** C10: the batch writer fails on an empty sequence, leaving an empty
    file; the driver never calls it so: every file a run writes starts
    with the header row, the keys of a record, followed by the rows of at
    least 50000 records. *)
Theorem saved_files_have_header_and_rows :
  (forall batch_id w,
      save_batch [] batch_id w
      = Raise IndexError
          (mk_world (np_random w)
             (fs w ++ [(("traffic_data_batch_" ++ batch_id ++ ".csv")%string, [])])))
  /\ forall events start_date end_date w o,
      generate_traffic_data events start_date end_date w = Some o ->
      exists saved,
        fs (world_of o) = fs w ++ saved
        /\ Forall (fun f => exists r records,
                       snd f = Header (record_keys r) :: Row r :: map Row records
                       /\ 50000 <= row_count f) saved.
Proof.
  split; [reflexivity|].
  intros events start_date end_date w o Hrun.
  apply generate_traffic_data_inv in Hrun.
  destruct Hrun as (m & F & Hw & HF & _).
  exists F. split; [now rewrite Hw|].
  eapply Forall_impl; [|exact HF].
  intros f (t & t' & front & r & _ & _ & _ & -> & _ & Hsize).
  unfold row_count. rewrite data_rows_batch_file.
  destruct (front ++ [r]) as [|r0 records] eqn:E.
  - destruct front; discriminate.
  - exists r0, records. split; [reflexivity | lia].
Qed.

End Batches.

(** ** A run of twenty-six full buckets *)

Section FullBuckets.

Import NetworkTrafficGenerator.

(** With 1999 records in every bucket the threshold is passed in the 26th
    bucket, with 51974 records in the batch. *)
Lemma one_flush_run (start_date end_date : datetime) (w : World) :
  steady 1699 w ->
  0 <= ticks start_date ->
  ticks end_date = ticks start_date + 26 * Calendar.us_per_hour ->
  ticks end_date < Calendar.max_ordinal * Calendar.us_per_day ->
  exists front r w',
    generate_traffic_data [] start_date end_date w = Some (Ok [] w')
    /\ fs w' = fs w ++ [batch_file (front ++ [r])
                          (Calendar.strftime_compact (hours_later 26 start_date))]
    /\ Z.of_nat (List.length (front ++ [r])) = 51974
    /\ timestamp r = Calendar.strftime_seconds (hours_later 25 start_date).
Proof.
  intros Hw H0 Hend Hmax.
  assert (Hh : Calendar.us_per_hour = 3600000000) by reflexivity.
  assert (Hturns : turns start_date end_date = 26%nat).
  { unfold turns. rewrite Hend, Hh.
    replace (ticks start_date + 26 * 3600000000 - ticks start_date + 3600000000 - 1)
      with (3599999999 + 26 * 3600000000) by lia.
    rewrite Z.div_add by lia. reflexivity. }
  unfold generate_traffic_data. rewrite Hturns.
  destruct (steady_turns 1699 end_date 25 1 start_date [] w Hw H0)
    as (new & w2 & Hrun & Hlen & Hw2 & Hfs); [lia | exact Hmax | cbn; lia |].
  change (300 + 1699 mod 1700) with 1999 in Hlen.
  change (Z.of_nat 25) with 25 in *.
  change (25 + 1)%nat with 26%nat in Hrun. rewrite Hrun. cbn [app].
  destruct (steady_flush 1699 end_date (hours_later 25 start_date) 0 new w2 Hw2)
    as (front & r & w3 & Hflush & Hfs3 & Hlen3 & Hts & _).
  - apply (in_calendar_later start_date end_date 25); lia.
  - apply Z.ltb_lt. unfold hours_later. cbn [ticks]. lia.
  - change (300 + 1699 mod 1700) with 1999. lia.
  - change (300 + 1699 mod 1700) with 1999 in Hlen3.
    rewrite Hflush, hours_later_add. change (25 + 1) with 26 in *.
    rewrite while_loop_done
      by (apply Z.ltb_ge; unfold hours_later; cbn [ticks]; lia).
    exists front, r, w3. rewrite Hfs3, Hfs, hours_later_add.
    change (25 + 1) with 26. repeat split; try assumption. lia.
Qed.

(** C2 as stated fails: over a generator that draws 1999 records for every
    bucket, the run from 2024-01-01 00:00 to 2024-01-02 02:00 holds 51974
    records in memory and hands all of them to the batch writer at once. *)
Lemma batch_writer_receives_51974 :
  exists records w',
    generate_traffic_data [] (dt 2024 1 1 0) (dt 2024 1 2 2)
      (constant_source 1699 1 [])
    = Some (Ok [] w')
    /\ fs w' = [batch_file records "20240102"]
    /\ Z.of_nat (List.length records) = 51974.
Proof.
  destruct (one_flush_run (dt 2024 1 1 0) (dt 2024 1 2 2) (constant_source 1699 1 []))
    as (front & r & w' & Hrun & Hfs & Hlen & _);
    [apply steady_constant_source | vm_compute; discriminate | reflexivity
    | reflexivity |].
  exists (front ++ [r]), w'.
  split; [exact Hrun|]. split; [|exact Hlen].
  rewrite Hfs. reflexivity.
Qed.

(** C4 as stated fails: in the run from 2023-12-31 22:00 to 2024-01-02
    00:00 the threshold is reached while the bucket 2024-01-01 23:00 is
    processed, and the batch goes to traffic_data_batch_20240102.csv. *)
Lemma batch_named_after_following_day :
  exists front r w',
    generate_traffic_data [] (dt 2023 12 31 22) (dt 2024 1 2 0)
      (constant_source 1699 1 [])
    = Some (Ok [] w')
    /\ map fst (fs w') = ["traffic_data_batch_20240102.csv"%string]
    /\ map (fun f => data_rows (snd f)) (fs w') = [front ++ [r]]
    /\ timestamp r = "2024-01-01 23:00:00"%string.
Proof.
  destruct (one_flush_run (dt 2023 12 31 22) (dt 2024 1 2 0) (constant_source 1699 1 []))
    as (front & r & w' & Hrun & Hfs & _ & Hts);
    [apply steady_constant_source | vm_compute; discriminate | reflexivity
    | reflexivity |].
  exists front, r, w'. split; [exact Hrun|].
  rewrite Hfs. cbn [constant_source fs app map].
  rewrite data_rows_batch_file.
  split; [reflexivity|]. split; [reflexivity|]. exact Hts.
Qed.

Lemma batch_named_after_next_hour_witness :
  exists w' saved,
    generate_traffic_data [] (dt 2023 12 31 22) (dt 2024 1 2 0)
      (constant_source 1699 1 [])
    = Some (Ok [] w')
    /\ fs w' = [] ++ saved
    /\ Forall (fun f => exists t t' front r,
                   on_grid (dt 2023 12 31 22) t
                   /\ ticks t < ticks (dt 2024 1 2 0)
                   /\ Calendar.add_hours t 1 = inr t'
                   /\ fst f = ("traffic_data_batch_" ++ Calendar.strftime_compact t'
                               ++ ".csv")%string
                   /\ data_rows (snd f) = front ++ [r]
                   /\ timestamp r = Calendar.strftime_seconds t) saved.
Proof.
  destruct (one_flush_run (dt 2023 12 31 22) (dt 2024 1 2 0) (constant_source 1699 1 []))
    as (front & r & w' & Hrun & _);
    [apply steady_constant_source | vm_compute; discriminate | reflexivity
    | reflexivity |].
  destruct (batch_named_after_next_hour [] (dt 2023 12 31 22) (dt 2024 1 2 0)
              (constant_source 1699 1 []) (Ok [] w') Hrun) as (saved & Hfs & Hall).
  exists w', saved. split; [exact Hrun|]. split; [exact Hfs | exact Hall].
Defined.

(** A run of two buckets of 300 records, as the end-to-end scenario of the
    specification has it: 600 records returned, nothing saved. *)
Example two_bucket_run :
  exists recs w',
    generate_traffic_data [] (dt 2024 1 1 0) (dt 2024 1 1 2) (constant_source 0 1 [])
    = Some (Ok recs w')
    /\ List.length recs = 600%nat
    /\ fs w' = [].
Proof.
  unfold generate_traffic_data.
  change (turns (dt 2024 1 1 0) (dt 2024 1 1 2)) with (2 + 0)%nat.
  destruct (steady_turns 0 (dt 2024 1 1 2) 2 0 (dt 2024 1 1 0) []
              (constant_source 0 1 []))
    as (new & w2 & Hrun & Hlen & _ & Hfs);
    [apply steady_constant_source | vm_compute; discriminate
    | vm_compute; discriminate | reflexivity | reflexivity |].
  rewrite Hrun, while_loop_done by reflexivity.
  exists new, w2. change (300 + 0 mod 1700) with 300 in Hlen.
  split; [reflexivity|]. split; [cbn [app]; lia | exact Hfs].
Qed.

Lemma records_per_bucket_witness :
  exists recs w',
    generate_traffic_data [] (dt 2024 1 1 0) (dt 2024 1 1 2) (constant_source 0 1 [])
    = Some (Ok recs w')
    /\ 600 <= Z.of_nat (List.length recs) <= 3998
    /\ fs w' = [].
Proof.
  destruct two_bucket_run as (recs & w' & Hrun & _ & _).
  destruct records_per_bucket as (_ & _ & Htwo).
  destruct (Htwo [] (dt 2024 1 1 0) (dt 2024 1 1 2) (constant_source 0 1 [])
              recs w' eq_refl Hrun) as [Hcount Hfs].
  exists recs, w'. split; [exact Hrun|]. split; [exact Hcount | exact Hfs].
Defined.

Lemma batch_bounded_per_bucket_witness :
  exists w' saved,
    generate_traffic_data [] (dt 2024 1 1 0) (dt 2024 1 2 2)
      (constant_source 1699 1 [])
    = Some (Ok [] w')
    /\ fs w' = [] ++ saved
    /\ Forall (fun f => exists records batch_id,
                   f = batch_file records batch_id
                   /\ 50000 <= Z.of_nat (List.length records) <= 51998) saved.
Proof.
  destruct (one_flush_run (dt 2024 1 1 0) (dt 2024 1 2 2) (constant_source 1699 1 []))
    as (front & r & w' & Hrun & _);
    [apply steady_constant_source | vm_compute; discriminate | reflexivity
    | reflexivity |].
  destruct (batch_bounded_per_bucket [] (dt 2024 1 1 0) (dt 2024 1 2 2)
              (constant_source 1699 1 [])) as [_ Hsaved].
  destruct (Hsaved (Ok [] w') Hrun) as (saved & Hfs & Hall & _).
  exists w', saved. split; [exact Hrun|]. split; [exact Hfs | exact Hall].
Defined.

Lemma saved_files_have_header_and_rows_witness :
  exists w' saved,
    generate_traffic_data [] (dt 2024 1 1 0) (dt 2024 1 2 2)
      (constant_source 1699 1 [])
    = Some (Ok [] w')
    /\ fs w' = [] ++ saved
    /\ Forall (fun f => exists r records,
                   snd f = Header (record_keys r) :: Row r :: map Row records
                   /\ 50000 <= row_count f) saved.
Proof.
  destruct (one_flush_run (dt 2024 1 1 0) (dt 2024 1 2 2) (constant_source 1699 1 []))
    as (front & r & w' & Hrun & _);
    [apply steady_constant_source | vm_compute; discriminate | reflexivity
    | reflexivity |].
  destruct saved_files_have_header_and_rows as [_ Hsaved].
  destruct (Hsaved [] (dt 2024 1 1 0) (dt 2024 1 2 2) (constant_source 1699 1 [])
              (Ok [] w') Hrun) as (saved & Hfs & Hall).
  exists w', saved. split; [exact Hrun|]. split; [exact Hfs | exact Hall].
Defined.

End FullBuckets.

(** * The rest of the pipeline *)

(** ** The analyzer *)

Section FloatTotal.

Lemma SFltb_total (a b : spec_float) :
  a <> S754_nan -> b <> S754_nan -> SFltb a b = false -> SFleb b a = true.
Proof.
  unfold SFltb, SFleb, SFcompare.
  destruct a as [[]|[]| |[] ma ea], b as [[]|[]| |[] mb eb];
    try reflexivity; try congruence; try (intros; discriminate);
    change (Pos.compare_cont Eq) with Pos.compare;
    cmp_cases; simpl; intros; subst; try reflexivity; try discriminate; lia.
Qed.

Lemma SFltb_leb_apart (a b : spec_float) :
  SFltb a b = true -> SFleb b a = false.
Proof.
  unfold SFltb, SFleb, SFcompare.
  destruct a as [[]|[]| |[] ma ea], b as [[]|[]| |[] mb eb];
    try reflexivity; try (intros; discriminate);
    change (Pos.compare_cont Eq) with Pos.compare;
    cmp_cases; simpl; intros; subst; try reflexivity; try discriminate; lia.
Qed.

Lemma is_nan_spec (x : float) : is_nan x = true <-> Prim2SF x = S754_nan.
Proof.
  unfold is_nan. rewrite eqb_spec. unfold SFeqb, SFcompare.
  destruct (Prim2SF x) as [[]|[]| |[] m e]; cbn;
    rewrite ?Z.compare_refl, ?Pos.compare_cont_refl; cbn;
    split; intros H; congruence.
Qed.

Lemma not_nan_spec (x : float) : is_nan x = false -> Prim2SF x <> S754_nan.
Proof.
  intros H E. apply is_nan_spec in E. congruence.
Qed.

Lemma ltb_false_leb (x y : float) :
  is_nan x = false -> is_nan y = false ->
  (x <? y)%float = false -> (y <=? x)%float = true.
Proof.
  intros Hx Hy. rewrite ltb_spec, leb_spec.
  apply SFltb_total; now apply not_nan_spec.
Qed.

Lemma ltb_true_leb (x y : float) :
  (x <? y)%float = true -> (y <=? x)%float = false.
Proof. rewrite ltb_spec, leb_spec. apply SFltb_leb_apart. Qed.

Lemma ltb_nan_l (x y : float) : is_nan x = true -> (x <? y)%float = false.
Proof.
  intros H. apply is_nan_spec in H. rewrite ltb_spec, H. reflexivity.
Qed.

Lemma ltb_nan_r (x y : float) : is_nan y = true -> (x <? y)%float = false.
Proof.
  intros H. apply is_nan_spec in H. rewrite ltb_spec, H.
  unfold SFltb, SFcompare. now destruct (Prim2SF x).
Qed.

Lemma mul_nan_r (x y : float) : is_nan y = true -> Prim2SF (x * y) = S754_nan.
Proof.
  intros H. apply is_nan_spec in H. rewrite mul_spec, H.
  unfold SF64mul, SFmul. now destruct (Prim2SF x).
Qed.

End FloatTotal.

Section Analyzer.

Import GroqEventAnalyzer NetworkTrafficGenerator.

(** The keys the prompt reads. *)
Lemma analyze_event_impact_run (e : event) (completion : result float) :
  dict_get e "event_name" <> None ->
  dict_get e "description" <> None ->
  dict_get e "location" <> None ->
  dict_get e "time_range" <> None ->
  analyze_event_impact e completion
  = match completion with
    | inr score => inr (min2 (max2 score 1) 2)
    | inl _ => inr 1%float
    end.
Proof.
  intros H1 H2 H3 H4. unfold analyze_event_impact, getitem.
  destruct (dict_get e "event_name"); [|congruence].
  destruct (dict_get e "description"); [|congruence].
  destruct (dict_get e "location"); [|congruence].
  destruct (dict_get e "time_range"); [|congruence].
  reflexivity.
Qed.

(** X1: on an event that has the four keys of the prompt, the analyzer
    returns 1.0 when the request or the parsing of its answer fails, and
    otherwise the score brought into [1.0, 2.0]: a score that is not NaN
    comes back between 1.0 and 2.0, unchanged if it was already there. *)
Theorem analyze_event_impact_clamps (e : event) (completion : result float) :
  dict_get e "event_name" <> None ->
  dict_get e "description" <> None ->
  dict_get e "location" <> None ->
  dict_get e "time_range" <> None ->
  exists r,
    analyze_event_impact e completion = inr r
    /\ match completion with
       | inl _ => r = 1%float
       | inr score =>
           is_nan score = false ->
           (1 <=? r)%float = true /\ (r <=? 2)%float = true
           /\ ((1 <=? score)%float = true -> (score <=? 2)%float = true -> r = score)
       end.
Proof.
  intros H1 H2 H3 H4. rewrite analyze_event_impact_run by assumption.
  destruct completion as [err|score]; [now exists 1%float|].
  eexists. split; [reflexivity|]. intros Hnan.
  unfold max2, min2.
  destruct (score <? 1)%float eqn:Hlow.
  - change (2 <? 1)%float with false. cbn iota.
    split; [reflexivity|]. split; [reflexivity|].
    intros Hge. apply ltb_true_leb in Hlow. congruence.
  - destruct (2 <? score)%float eqn:Hhigh.
    + split; [reflexivity|]. split; [reflexivity|].
      intros _ Hle. apply ltb_true_leb in Hhigh. congruence.
    + split; [|split; [|reflexivity]].
      * now apply ltb_false_leb.
      * now apply ltb_false_leb.
Qed.

Lemma analyze_event_impact_clamps_witness :
  exists r,
    analyze_event_impact QatarEventScraper.event_data (inr 2.5%float) = inr r
    /\ (1 <=? r)%float = true /\ (r <=? 2)%float = true.
Proof.
  destruct (analyze_event_impact_clamps QatarEventScraper.event_data (inr 2.5%float))
    as (r & Hr & Hbounds); try discriminate.
  exists r. split; [exact Hr|].
  destruct (Hbounds eq_refl) as (Hlo & Hhi & _). now split.
Defined.

(** X2: the prompt is built before the [try]: an event without one of its
    four keys makes the analyzer raise KeyError, whatever the service
    answers. *)
Theorem analyze_event_impact_key_error (e : event) (completion : result float) :
  dict_get e "event_name" = None
  \/ dict_get e "description" = None
  \/ dict_get e "location" = None
  \/ dict_get e "time_range" = None ->
  analyze_event_impact e completion = inl KeyError.
Proof.
  unfold analyze_event_impact, getitem.
  intros [H|[H|[H|H]]];
    repeat match goal with
           | |- context [dict_get e ?k] =>
               lazymatch goal with
               | Hk : dict_get e k = None |- _ => rewrite Hk
               | _ => destruct (dict_get e k) eqn:?
               end
           end; reflexivity.
Qed.

Lemma analyze_event_impact_key_error_witness :
  analyze_event_impact [("event_name", PyStr "Film night"); ("location", PyStr "Doha")]
                       (inr 1.5%float)
  = inl KeyError.
Proof.
  apply analyze_event_impact_key_error. right. left. reflexivity.
Defined.

(** X3: a score that is NaN goes through [min(max(score, 1.0), 2.0)]
    unchanged, and with a NaN impact the metrics model never returns: it
    raises ValueError at the first conversion to [int], or OverflowError if
    the first draw is infinite. *)
Theorem nan_score_aborts_generation (e : event) (score : float)
        (t : datetime) (w : World) :
  dict_get e "event_name" <> None ->
  dict_get e "description" <> None ->
  dict_get e "location" <> None ->
  dict_get e "time_range" <> None ->
  is_nan score = true ->
  analyze_event_impact e (inr score) = inr score
  /\ exists err w',
      generate_traffic_metrics t (PyFloat score) w = Raise err w'
      /\ (err = ValueError \/ err = OverflowError).
Proof.
  intros H1 H2 H3 H4 Hnan. split.
  - rewrite analyze_event_impact_run by assumption.
    unfold min2, max2. rewrite (ltb_nan_l score 1 Hnan), (ltb_nan_r 2 score Hnan).
    reflexivity.
  - unfold generate_traffic_metrics.
    unfold bind at 1. rewrite lognormal_run by reflexivity.
    set (x := real_tape _ _).
    destruct (PyFloat.to_int (x * 1000 / 1460)) as [err|n] eqn:Hn.
    + cbn [lift]. unfold bind at 1. cbn [raise]. exists err, (skip 1 w).
      split; [reflexivity|].
      unfold PyFloat.to_int in Hn.
      destruct (Prim2SF (x * 1000 / 1460)); inversion Hn; auto.
    + cbn [lift]. unfold bind at 1. cbn [ret].
      unfold bind at 1. rewrite lognormal_run by reflexivity.
      cbn [float_mul lift]. unfold bind at 1. cbn [ret].
      assert (Hfm : is_nan (time_multiplier (Calendar.hour t) * score) = true).
      { apply is_nan_spec. now apply mul_nan_r. }
      assert (Hb : PyFloat.to_int (x * 1000 * (time_multiplier (Calendar.hour t) * score))
                   = inl ValueError).
      { unfold PyFloat.to_int. now rewrite (mul_nan_r _ _ Hfm). }
      rewrite Hb. cbn [lift]. unfold bind at 1. cbn [raise].
      eexists _, _. split; [reflexivity | now left].
Qed.

Lemma nan_score_aborts_generation_witness :
  analyze_event_impact QatarEventScraper.event_data (inr nan) = inr nan
  /\ exists err w',
      generate_traffic_metrics (dt 2024 1 1 0) (PyFloat nan) sample_source
      = Raise err w'
      /\ (err = ValueError \/ err = OverflowError).
Proof.
  apply (nan_score_aborts_generation QatarEventScraper.event_data nan
           (dt 2024 1 1 0) sample_source); try discriminate; reflexivity.
Defined.

End Analyzer.

(** ** The fields of a record *)

Section Fields.

Import NetworkTrafficGenerator.

Lemma choice_ok {A : Type} (a : list A) (w : World) (v : A) (w' : World) :
  Random.choice a w = Ok v w' -> In v a /\ w' = skip 1 w.
Proof.
  destruct a as [|x a']; [discriminate|]. intros H.
  destruct (choice_run (x :: a') x w) as (i & Hi & Hrun); [discriminate|].
  rewrite Hrun in H. pose proof (nth_In (x :: a') x Hi) as Hin.
  inversion H; subst. split; [exact Hin | reflexivity].
Qed.

Lemma random_sample_run (w : World) :
  Random.random_sample w = Ok (uniform_ahead w 0) (skip 1 w).
Proof. reflexivity. Qed.

Lemma choice_p_ok {A : Type} (a : list A) (p : list float)
      (w : World) (v : A) (w' : World) :
  Random.choice_p a p w = Ok v w' -> In v a /\ w' = skip 1 w.
Proof.
  unfold Random.choice_p. destruct a as [|x a']; [discriminate|].
  destruct (negb _); [discriminate|]. destruct (existsb _ p); [discriminate|].
  destruct (_ <? _)%float; [discriminate|].
  unfold bind. rewrite random_sample_run. cbn [ret]. intros H.
  assert (Hin : forall i, In (nth i (x :: a') x) (x :: a')).
  { intros i. destruct (Nat.lt_ge_cases i (List.length (x :: a'))) as [Hi|Hi].
    - now apply nth_In.
    - rewrite nth_overflow by exact Hi. now left. }
  unfold ret in H. inversion H; subst. split; [apply Hin | reflexivity].
Qed.

(** The slices of [0, 1) that [choice] gives to the three protocols. *)
Lemma protocol_choice (w : World) :
  Random.choice_p (keys protocols) (values protocols) w
  = Ok (if (uniform_ahead w 0 <? 0.75)%float then "TCP"
        else if (uniform_ahead w 0 <? 0.95)%float then "UDP"
        else if (uniform_ahead w 0 <? 1)%float then "ICMP"
        else "TCP")%string
       (skip 1 w).
Proof.
  unfold Random.choice_p.
  change (keys protocols) with ["TCP"; "UDP"; "ICMP"]%string.
  change (negb (Nat.eqb (List.length ["TCP"; "UDP"; "ICMP"]%string)
                        (List.length (values protocols)))) with false.
  change (existsb (fun q => (q <? 0)%float) (values protocols)) with false.
  change ((1.4901161193847656e-08 <? abs (Random.kahan_sum (values protocols) - 1))%float)
    with false.
  cbn iota. unfold bind. rewrite random_sample_run. cbn [ret].
  change (map (fun c => (c / last (Random.cumsum 0 (values protocols)) 1)%float)
              (Random.cumsum 0 (values protocols)))
    with [0.75; 0.95; 1]%float.
  cbn [Random.searchsorted_right].
  destruct (uniform_ahead w 0 <? 0.75)%float; [reflexivity|].
  destruct (uniform_ahead w 0 <? 0.95)%float; [reflexivity|].
  destruct (uniform_ahead w 0 <? 1)%float; reflexivity.
Qed.

Lemma generate_ip_ok (pool : string) (blocks : list string)
      (w : World) (s : string) (w' : World) :
  dict_get ip_ranges pool = Some blocks ->
  generate_ip pool w = Ok s w' ->
  w' = skip 2 w
  /\ exists block net host,
      In block blocks
      /\ IPv4.ip_network block = inr net
      /\ 0 <= host < IPv4.num_addresses net - 1
      /\ s = IPv4.to_string (IPv4.network_address net + host)
      /\ IPv4.contains net (IPv4.network_address net + host) = true.
Proof.
  intros Hpool H. destruct (configured_blocks pool blocks Hpool) as [Hne Hall].
  destruct (generate_ip_run pool blocks w Hpool Hne Hall)
    as (block & net & host & Hin & Hnet & Hhost & Hrun & Hcont).
  rewrite Hrun in H. inversion H; subst. split; [reflexivity|].
  exists block, net, host. now repeat split.
Qed.

Lemma split_lacks (sep : ascii) (s : string) :
  lacks sep s = true -> IPv4.split sep s = [s].
Proof.
  induction s as [|c s IH]; [reflexivity|]. cbn [lacks IPv4.split].
  intros H. apply andb_true_iff in H. destruct H as [Hc Hs].
  apply negb_true_iff in Hc. rewrite Hc, (IH Hs). reflexivity.
Qed.

Lemma split_sep_app (sep : ascii) (s rest : string) :
  lacks sep s = true ->
  IPv4.split sep (s ++ String sep rest) = s :: IPv4.split sep rest.
Proof.
  induction s as [|c s IH]; intros H.
  - cbn [String.append IPv4.split]. now rewrite Ascii.eqb_refl.
  - cbn [lacks] in H. apply andb_true_iff in H. destruct H as [Hc Hs].
    apply negb_true_iff in Hc.
    cbn [String.append IPv4.split]. rewrite Hc, (IH Hs). reflexivity.
Qed.

Lemma octets_ok : forallb (fun i => octet_ok (Z.of_nat i)) (seq 0 256) = true.
Proof. vm_compute. reflexivity. Qed.

Lemma octet_round_trip (n : Z) :
  0 <= n < 256 ->
  lacks "." (IPv4.decimal n) = true
  /\ IPv4.parse_octet (IPv4.decimal n) = Some n.
Proof.
  intros Hn. pose proof octets_ok as H. rewrite forallb_forall in H.
  specialize (H (Z.to_nat n)). rewrite Z2Nat.id in H by lia.
  assert (Hin : In (Z.to_nat n) (seq 0 256)) by (apply in_seq; lia).
  apply H in Hin. unfold octet_ok in Hin.
  apply andb_true_iff in Hin. destruct Hin as [Hdot Hparse].
  split; [exact Hdot|].
  destruct (IPv4.parse_octet (IPv4.decimal n)) as [m|]; [|discriminate].
  apply Z.eqb_eq in Hparse. now subst.
Qed.

(** The dotted quad of an address reads back as the address. *)
Lemma address_round_trip (addr : Z) :
  0 <= addr < 4294967296 ->
  IPv4.parse_address (IPv4.to_string addr) = Some addr.
Proof.
  intros Haddr. unfold IPv4.to_string, IPv4.parse_address.
  set (a := addr / 16777216). set (b := addr / 65536 mod 256).
  set (c := addr / 256 mod 256). set (d := addr mod 256).
  assert (Ha : 0 <= a < 256)
    by (unfold a; split; [apply Z.div_pos | apply Z.div_lt_upper_bound]; lia).
  assert (Hb : 0 <= b < 256) by (apply Z.mod_pos_bound; lia).
  assert (Hc : 0 <= c < 256) by (apply Z.mod_pos_bound; lia).
  assert (Hd : 0 <= d < 256) by (apply Z.mod_pos_bound; lia).
  destruct (octet_round_trip a Ha) as [Hda Hpa].
  destruct (octet_round_trip b Hb) as [Hdb Hpb].
  destruct (octet_round_trip c Hc) as [Hdc Hpc].
  destruct (octet_round_trip d Hd) as [Hdd Hpd].
  change ("." ++ ?x)%string with (String "." x).
  rewrite (split_sep_app _ _ _ Hda).
  change ("." ++ ?x)%string with (String "." x).
  rewrite (split_sep_app _ _ _ Hdb).
  change ("." ++ ?x)%string with (String "." x).
  rewrite (split_sep_app _ _ _ Hdc), (split_lacks _ _ Hdd).
  cbn [map]. rewrite Hpa, Hpb, Hpc, Hpd. f_equal.
  unfold a, b, c, d. clear.
  assert (E1 : addr / 65536 = addr / 256 / 256)
    by (rewrite Z.div_div by lia; reflexivity).
  assert (E2 : addr / 16777216 = addr / 256 / 256 / 256)
    by (rewrite !Z.div_div by lia; reflexivity).
  rewrite E1, E2.
  pose proof (Z.div_mod addr 256 ltac:(lia)).
  pose proof (Z.div_mod (addr / 256) 256 ltac:(lia)).
  pose proof (Z.div_mod (addr / 256 / 256) 256 ltac:(lia)).
  lia.
Qed.

Lemma configured_blocks_range (pool : string) (blocks : list string)
      (block : string) (net : IPv4.network) :
  dict_get ip_ranges pool = Some blocks ->
  In block blocks ->
  IPv4.ip_network block = inr net ->
  0 <= IPv4.network_address net
  /\ IPv4.network_address net + IPv4.num_addresses net <= 4294967296.
Proof.
  unfold ip_ranges. cbn [dict_get].
  repeat match goal with
         | |- context [String.eqb ?a pool] => destruct (String.eqb a pool)
         end;
    intros H; inversion H; subst;
    intros Hb; cbn [In] in Hb;
    repeat match goal with
           | H : _ \/ _ |- _ => destruct H
           | H : False |- _ => destruct H
           end; subst block;
    intros Hnet; vm_compute in Hnet; inversion Hnet; subst net;
    vm_compute; split; discriminate.
Qed.

Lemma generate_ip_address_of_pool (pool : string) (blocks : list string)
      (w : World) (s : string) (w' : World) :
  dict_get ip_ranges pool = Some blocks ->
  generate_ip pool w = Ok s w' ->
  address_of_pool pool s.
Proof.
  intros Hpool H.
  destruct (generate_ip_ok pool blocks w s w' Hpool H)
    as (_ & block & net & host & Hin & Hnet & Hhost & -> & Hcont).
  destruct (configured_blocks_range pool blocks block net Hpool Hin Hnet) as [H0 H1].
  exists blocks, block, net, (IPv4.network_address net + host).
  split; [exact Hpool|]. split; [exact Hin|]. split; [exact Hnet|].
  split; [reflexivity|]. split; [apply address_round_trip; lia|].
  split; [exact Hcont | lia].
Qed.

Lemma record_fields_valid (t : datetime) (impact : pyval)
      (w : World) (r : TrafficRecord) (w' : World) :
  generate_record t impact w = Ok r w' -> valid_fields r.
Proof.
  intros H. destruct (generate_record_ok t impact w r w' H) as (_ & Hport & _).
  unfold generate_record in H. do 6 inv_ok H. inversion H; subst; clear H.
  unfold valid_fields. cbn [source_ip dest_ip source_port dest_port protocol] in *.
  repeat match goal with
         | Hg : generate_ip ?pool _ = Ok _ _ |- _ =>
             apply (generate_ip_address_of_pool pool _ _ _ _ eq_refl) in Hg
         | Hg : Random.choice _ _ = Ok _ _ |- _ =>
             apply choice_ok in Hg; destruct Hg as [Hg _]
         | Hg : Random.choice_p _ _ _ = Ok _ _ |- _ =>
             apply choice_p_ok in Hg; destruct Hg as [Hg _]
         end.
  repeat split; try assumption; lia.
Qed.


(** X4: the fields of every record: the source address is the dotted quad
    of an address of a block of qatar_isps and the destination address of
    a block of cdns, neither the last address of its block; the source
    port lies between 1024 and 65534; the destination port is one of 80,
    443, 53, 1935 and 3074; the protocol is TCP, UDP or ICMP. *)
Theorem generate_record_valid_fields (t : datetime) (impact : pyval)
        (w : World) (r : TrafficRecord) (w' : World) :
  generate_record t impact w = Ok r w' -> valid_fields r.
Proof. apply record_fields_valid. Qed.

Lemma generate_record_valid_fields_witness :
  exists r w',
    generate_record (dt 2024 1 1 0) (PyFloat 1) (constant_source 7 1 []) = Ok r w'
    /\ valid_fields r.
Proof.
  destruct (generate_record_steady 7 (dt 2024 1 1 0) (constant_source 7 1 []))
    as [r Hr]; [apply steady_constant_source|].
  exists r, (skip 11 (constant_source 7 1 [])). split; [exact Hr|].
  exact (generate_record_valid_fields _ _ _ _ _ Hr).
Defined.

Lemma generate_record_protocol (t : datetime) (impact : pyval)
      (w : World) (r : TrafficRecord) (w' : World) :
  generate_record t impact w = Ok r w' ->
  protocol r = (if (uniform_ahead w 10 <? 0.75)%float then "TCP"
                else if (uniform_ahead w 10 <? 0.95)%float then "UDP"
                else if (uniform_ahead w 10 <? 1)%float then "ICMP"
                else "TCP")%string.
Proof.
  intros H. unfold generate_record in H. do 6 inv_ok H.
  inversion H; subst; clear H. cbn [protocol].
  repeat match goal with
         | Hg : generate_traffic_metrics _ _ _ = Ok _ _ |- _ =>
             apply generate_traffic_metrics_ok in Hg;
             destruct Hg as (? & ? & ? & _ & _ & _ & _ & _ & _ & _ & _ & ->)
         | Hg : generate_ip ?pool _ = Ok _ _ |- _ =>
             apply (generate_ip_ok pool _ _ _ _ eq_refl) in Hg;
             destruct Hg as [-> _]
         | Hg : Random.randint _ _ _ = Ok _ _ |- _ =>
             apply randint_ok in Hg; destruct Hg as (_ & _ & ->)
         | Hg : Random.choice _ _ = Ok _ _ |- _ =>
             apply choice_ok in Hg; destruct Hg as [_ ->]
         end.
  match goal with
  | Hg : Random.choice_p _ _ _ = Ok _ _ |- _ =>
      rewrite protocol_choice in Hg; inversion Hg
  end.
  reflexivity.
Qed.

(** X5: the protocol of a record follows the uniform sample [u] that
    [choice] draws for it, the eleventh draw of the record: TCP when
    [u < 0.75], UDP when [0.75 <= u < 0.95] and ICMP when
    [0.95 <= u < 1]. *)
Theorem protocol_follows_cumulative_weights (t : datetime) (impact : pyval)
        (w : World) (r : TrafficRecord) (w' : World) :
  generate_record t impact w = Ok r w' ->
  ((uniform_ahead w 10 <? 0.75)%float = true -> protocol r = "TCP"%string)
  /\ ((0.75 <=? uniform_ahead w 10)%float = true ->
      (uniform_ahead w 10 <? 0.95)%float = true -> protocol r = "UDP"%string)
  /\ ((0.95 <=? uniform_ahead w 10)%float = true ->
      (uniform_ahead w 10 <? 1)%float = true -> protocol r = "ICMP"%string).
Proof.
  intros H. apply generate_record_protocol in H. rewrite H. clear H.
  set (u := uniform_ahead w 10).
  split; [|split].
  - intros ->. reflexivity.
  - intros Hge Hlt.
    destruct (u <? 0.75)%float eqn:E.
    + apply ltb_true_leb in E. congruence.
    + now rewrite Hlt.
  - intros Hge Hlt.
    destruct (u <? 0.95)%float eqn:E.
    + apply ltb_true_leb in E. congruence.
    + destruct (u <? 0.75)%float eqn:E'.
      * assert (Hc : (u <? 0.95)%float = true)
          by (apply (ltb_trans u 0.75 0.95); [exact E' | reflexivity]).
        congruence.
      * now rewrite Hlt.
Qed.

Lemma protocol_follows_cumulative_weights_witness :
  exists r w',
    generate_record (dt 2024 1 1 0) (PyFloat 1)
                    (constant_source 8106479329266893 1 []) = Ok r w'
    /\ protocol r = "UDP"%string.
Proof.
  destruct (generate_record_steady 8106479329266893 (dt 2024 1 1 0)
              (constant_source 8106479329266893 1 []))
    as [r Hr]; [apply steady_constant_source|].
  exists r, (skip 11 (constant_source 8106479329266893 1 [])).
  split; [exact Hr|].
  apply (proj1 (proj2 (protocol_follows_cumulative_weights _ _ _ _ _ Hr)));
    vm_compute; reflexivity.
Defined.

End Fields.

(** ** The records of a run *)

Section Partition.

Import NetworkTrafficGenerator.

Lemma generate_records_valid (n : nat) (t : datetime) (impact : pyval) :
  forall (batch : list TrafficRecord) (w : World)
         (recs : list TrafficRecord) (w' : World),
    generate_records n t impact batch w = Ok recs w' ->
    exists new, recs = batch ++ new /\ Forall valid_fields new.
Proof.
  induction n as [|n IH]; intros batch w recs w' H.
  - cbn in H. inversion H; subst. exists []. now rewrite app_nil_r.
  - cbn [generate_records] in H. inv_ok H.
    apply record_fields_valid in Hc.
    apply IH in H. destruct H as (new & -> & Hall).
    exists (a :: new). rewrite <- app_assoc. split; [reflexivity|].
    now constructor.
Qed.

Lemma next_hour (t t' : datetime) :
  Calendar.add_hours t 1 = inr t' -> t' = hours_later 1 t.
Proof.
  intros H. apply add_hours_ok in H. destruct t' as [x]. unfold hours_later.
  cbn [ticks] in *. f_equal. lia.
Qed.

Lemma rows_of_app (F G : list (string * list csv_line)) :
  rows_of (F ++ G) = rows_of F ++ rows_of G.
Proof. unfold rows_of. apply flat_map_app. Qed.

Lemma while_loop_partition (events : list event) (end_date : datetime) :
  forall (fuel : nat) (t : datetime) (batch : list TrafficRecord)
         (w : World) (o : outcome (list TrafficRecord)),
    while_loop fuel events end_date t batch w = Some o ->
    exists F groups rest,
      fs (world_of o) = fs w ++ F
      /\ bucketed t groups
      /\ batch ++ List.concat groups = rows_of F ++ rest
      /\ (List.length groups <= turns t end_date)%nat
      /\ forall recs w', o = Ok recs w' ->
           rest = recs /\ List.length groups = turns t end_date.
Proof.
  induction fuel as [|fuel IH]; intros t batch w o Hrun;
    destruct (Calendar.lt t end_date) eqn:Hlt.
  - rewrite while_loop_spent in Hrun by assumption. discriminate.
  - rewrite while_loop_done in Hrun by assumption. inversion Hrun; subst o.
    exists [], [], batch. cbn [world_of List.concat rows_of flat_map bucketed List.length].
    rewrite !app_nil_r. repeat split; try lia.
    + now inversion H.
    + now rewrite turns_done.
  - rewrite while_loop_step in Hrun by assumption.
    destruct (bucket_cases events t batch w)
      as [(e & m & Hb)|(impact & n & new & m & t' & _ & _ & Hn & Hrecs & Hlen & Hall
                        & Hadd & Hb)];
      rewrite Hb in Hrun.
    + inversion Hrun; subst o.
      exists [], [], batch. cbn [world_of List.concat rows_of flat_map bucketed List.length].
      rewrite !app_nil_r. repeat split; try lia; discriminate.
    + pose proof (add_hours_ok _ _ Hadd) as Ht'.
      pose proof (next_hour _ _ Hadd) as Hnext.
      assert (Hgroup : 300 <= Z.of_nat (List.length new) < 2000
                       /\ Forall (fun r => timestamp r = Calendar.strftime_seconds t
                                           /\ valid_fields r) new).
      { split; [lia|].
        apply generate_records_valid in Hrecs.
        destruct Hrecs as (new' & Heq & Hvalid).
        apply app_inv_head in Heq. subst new'.
        apply Forall_forall. intros r Hr. split.
        - now apply (proj1 (Forall_forall _ _) Hall).
        - now apply (proj1 (Forall_forall _ _) Hvalid). }
      destruct Hgroup as [Hsize Hgroup].
      rewrite (turns_step t t' end_date Hlt Ht').
      destruct (flush_threshold <=? Z.of_nat (List.length (batch ++ new))).
      * apply IH in Hrun.
        destruct Hrun as (F & groups & rest & Hfs & Hb' & Hcat & Hle & Hret).
        exists (batch_file (batch ++ new) (Calendar.strftime_compact t') :: F),
          (new :: groups), rest.
        split; [|split; [|split; [|split]]].
        -- rewrite Hfs. cbn [fs]. now rewrite <- app_assoc.
        -- cbn [bucketed]. rewrite <- Hnext. now repeat split.
        -- cbn [List.concat rows_of flat_map snd]. rewrite data_rows_batch_file.
           cbn [app] in Hcat. fold (rows_of F). rewrite Hcat.
           now rewrite !app_assoc.
        -- cbn [List.length]. lia.
        -- intros recs w' Ho. destruct (Hret recs w' Ho) as [-> Hlen'].
           split; [reflexivity|]. cbn [List.length]. now rewrite Hlen'.
      * apply IH in Hrun.
        destruct Hrun as (F & groups & rest & Hfs & Hb' & Hcat & Hle & Hret).
        exists F, (new :: groups), rest.
        split; [|split; [|split; [|split]]].
        -- rewrite Hfs. reflexivity.
        -- cbn [bucketed]. rewrite <- Hnext. now repeat split.
        -- cbn [List.concat]. rewrite <- Hcat. now rewrite app_assoc.
        -- cbn [List.length]. lia.
        -- intros recs w' Ho. destruct (Hret recs w' Ho) as [-> Hlen'].
           split; [reflexivity|]. cbn [List.length]. now rewrite Hlen'.
  - rewrite while_loop_done in Hrun by assumption. inversion Hrun; subst o.
    exists [], [], batch. cbn [world_of List.concat rows_of flat_map bucketed List.length].
    rewrite !app_nil_r. repeat split; try lia.
    + now inversion H.
    + now rewrite turns_done.
Qed.

(** X6: a run loses and reorders nothing it does not drop on purpose.  The
    records of the files it writes, in the order of writing, followed by
    the records still in memory ([rest]), are the records of its buckets
    in order: between 300 and 1999 for each bucket, stamped with the hour
    of the bucket and with valid fields.  A run that returns has gone
    through all its buckets and returns [rest]. *)
Theorem run_keeps_records_in_order (events : list event)
        (start_date end_date : datetime) (w : World)
        (o : outcome (list TrafficRecord)) :
  generate_traffic_data events start_date end_date w = Some o ->
  exists saved groups rest,
    fs (world_of o) = fs w ++ saved
    /\ bucketed start_date groups
    /\ List.concat groups = rows_of saved ++ rest
    /\ (List.length groups <= turns start_date end_date)%nat
    /\ forall all_records w',
        o = Ok all_records w' ->
        rest = all_records /\ List.length groups = turns start_date end_date.
Proof.
  intros Hrun. apply while_loop_partition in Hrun.
  destruct Hrun as (F & groups & rest & Hfs & Hb & Hcat & Hle & Hret).
  exists F, groups, rest.
  split; [exact Hfs|]. split; [exact Hb|]. split; [exact Hcat|].
  split; [exact Hle | exact Hret].
Qed.

Lemma run_keeps_records_in_order_witness :
  exists w' saved groups rest,
    generate_traffic_data [] (dt 2024 1 1 0) (dt 2024 1 2 2)
      (constant_source 1699 1 [])
    = Some (Ok [] w')
    /\ fs w' = [] ++ saved
    /\ bucketed (dt 2024 1 1 0) groups
    /\ List.concat groups = rows_of saved ++ rest
    /\ rest = []
    /\ List.length groups = 26%nat.
Proof.
  destruct (one_flush_run (dt 2024 1 1 0) (dt 2024 1 2 2) (constant_source 1699 1 []))
    as (front & r & w' & Hrun & _);
    [apply steady_constant_source | vm_compute; discriminate | reflexivity
    | reflexivity |].
  destruct (run_keeps_records_in_order [] (dt 2024 1 1 0) (dt 2024 1 2 2)
              (constant_source 1699 1 []) (Ok [] w') Hrun)
    as (saved & groups & rest & Hfs & Hb & Hcat & _ & Hret).
  destruct (Hret [] w' eq_refl) as [Hrest Hlen].
  exists w', saved, groups, rest.
  split; [exact Hrun|]. split; [exact Hfs|]. split; [exact Hb|].
  split; [exact Hcat|]. split; [exact Hrest|]. exact Hlen.
Defined.

End Partition.

(** ** The files of a run *)

Section Spacing.

Import NetworkTrafficGenerator.

Lemma later_day (a b : datetime) :
  ticks a + 26 * Calendar.us_per_hour <= ticks b ->
  Calendar.toordinal a < Calendar.toordinal b.
Proof.
  unfold Calendar.toordinal.
  change Calendar.us_per_hour with 3600000000.
  change Calendar.us_per_day with 86400000000. intros H.
  assert (Hle : (ticks a + 1 * 86400000000) / 86400000000 <= ticks b / 86400000000)
    by (apply Z.div_le_mono; lia).
  rewrite Z.div_add in Hle by lia. lia.
Qed.

Lemma while_loop_apart (events : list event) (end_date : datetime) :
  forall (fuel : nat) (t : datetime) (batch : list TrafficRecord)
         (w : World) (o : outcome (list TrafficRecord)) (last : datetime) (c : Z),
    0 <= c ->
    ticks t = ticks last + c * Calendar.us_per_hour ->
    Z.of_nat (List.length batch) <= 1999 * c ->
    while_loop fuel events end_date t batch w = Some o ->
    exists F,
      fs (world_of o) = fs w ++ F
      /\ flushed_apart end_date last F
      /\ 26 * Z.of_nat (List.length F) <= c + Z.of_nat (turns t end_date).
Proof.
  assert (Hh : Calendar.us_per_hour = 3600000000) by reflexivity.
  induction fuel as [|fuel IH]; intros t batch w o last c Hc Ht Hbatch Hrun;
    destruct (Calendar.lt t end_date) eqn:Hlt.
  - rewrite while_loop_spent in Hrun by assumption. discriminate.
  - rewrite while_loop_done in Hrun by assumption. inversion Hrun; subst o.
    exists []. cbn [world_of flushed_apart List.length]. rewrite app_nil_r.
    split; [reflexivity|]. split; [exact I | lia].
  - rewrite while_loop_step in Hrun by assumption.
    destruct (bucket_cases events t batch w)
      as [(e & m & Hb)|(impact & n & new & m & t' & _ & _ & Hn & _ & Hlen & _
                        & Hadd & Hb)];
      rewrite Hb in Hrun.
    + inversion Hrun; subst o.
      exists []. cbn [world_of flushed_apart List.length skip fs].
      rewrite app_nil_r. split; [reflexivity|]. split; [exact I | lia].
    + pose proof (add_hours_ok _ _ Hadd) as Ht'.
      rewrite (turns_step t t' end_date Hlt Ht').
      apply Z.ltb_lt in Hlt.
      unfold flush_threshold in Hrun.
      destruct (Z.leb_spec 50000 (Z.of_nat (List.length (batch ++ new)))) as [Hfull|Hroom].
      * rewrite length_app in Hfull.
        apply (IH _ _ _ _ t' 0) in Hrun; [|lia|lia|cbn; lia].
        destruct Hrun as (F & Hfs & Hap & Hcount).
        exists (batch_file (batch ++ new) (Calendar.strftime_compact t') :: F).
        split; [|split].
        -- rewrite Hfs. cbn [fs]. now rewrite <- app_assoc.
        -- cbn [flushed_apart]. exists t'.
           assert (Hfar : ticks last + 26 * Calendar.us_per_hour <= ticks t')
             by (rewrite Ht', Ht, Hh; lia).
           split; [exact Hfar|]. split; [now apply later_day|].
           split; [lia|]. split; [reflexivity | exact Hap].
        -- cbn [List.length]. lia.
      * rewrite length_app in Hroom.
        apply (IH _ _ _ _ last (c + 1)) in Hrun;
          [|lia|rewrite Ht', Ht; ring|rewrite length_app; lia].
        destruct Hrun as (F & Hfs & Hap & Hcount).
        exists F. split; [|split].
        -- rewrite Hfs. reflexivity.
        -- exact Hap.
        -- lia.
  - rewrite while_loop_done in Hrun by assumption. inversion Hrun; subst o.
    exists []. cbn [world_of flushed_apart List.length]. rewrite app_nil_r.
    split; [reflexivity|]. split; [exact I | lia].
Qed.

Lemma generate_traffic_data_apart (events : list event)
      (start_date end_date : datetime) (w : World)
      (o : outcome (list TrafficRecord)) :
  generate_traffic_data events start_date end_date w = Some o ->
  exists saved,
    fs (world_of o) = fs w ++ saved
    /\ flushed_apart end_date start_date saved
    /\ 26 * Z.of_nat (List.length saved) <= Z.of_nat (turns start_date end_date).
Proof.
  intros Hrun.
  apply (while_loop_apart events end_date _ _ _ _ _ start_date 0) in Hrun;
    [exact Hrun | lia | lia | cbn; lia].
Qed.

(** X7: a batch needs at least 26 buckets to reach the threshold, so that
    the files of a run are named after hours at least 26 hours apart (the
    first one 26 hours after the start at the earliest), each on a later
    day than the one before, and a run of [n] buckets writes at most
    [n / 26] files. *)
Theorem saves_are_26_buckets_apart (events : list event)
        (start_date end_date : datetime) (w : World)
        (o : outcome (list TrafficRecord)) :
  generate_traffic_data events start_date end_date w = Some o ->
  exists saved,
    fs (world_of o) = fs w ++ saved
    /\ flushed_apart end_date start_date saved
    /\ 26 * Z.of_nat (List.length saved) <= Z.of_nat (turns start_date end_date).
Proof. apply generate_traffic_data_apart. Qed.

Lemma saves_are_26_buckets_apart_witness :
  exists w' saved,
    generate_traffic_data [] (dt 2024 1 1 0) (dt 2024 1 2 2)
      (constant_source 1699 1 [])
    = Some (Ok [] w')
    /\ fs w' = [] ++ saved
    /\ flushed_apart (dt 2024 1 2 2) (dt 2024 1 1 0) saved
    /\ 26 * Z.of_nat (List.length saved)
       <= Z.of_nat (turns (dt 2024 1 1 0) (dt 2024 1 2 2)).
Proof.
  destruct (one_flush_run (dt 2024 1 1 0) (dt 2024 1 2 2) (constant_source 1699 1 []))
    as (front & r & w' & Hrun & _);
    [apply steady_constant_source | vm_compute; discriminate | reflexivity
    | reflexivity |].
  destruct (saves_are_26_buckets_apart [] (dt 2024 1 1 0) (dt 2024 1 2 2)
              (constant_source 1699 1 []) (Ok [] w') Hrun)
    as (saved & Hfs & Hap & Hcount).
  exists w', saved.
  split; [exact Hrun|]. split; [exact Hfs|]. split; [exact Hap | exact Hcount].
Defined.

End Spacing.

(** ** The files of [main] and the dashboard *)

Section January.

Import NetworkTrafficGenerator.

Lemma distinct_NoDup (l : list string) : distinct l = true -> NoDup l.
Proof.
  induction l as [|x l IH]; intros H; [constructor|].
  cbn [distinct] in H. apply andb_true_iff in H. destruct H as [Hx Hl].
  constructor; [|now apply IH].
  intros Hin. apply negb_true_iff in Hx.
  assert (Hex : existsb (String.eqb x) l = true)
    by (apply existsb_exists; exists x; split; [exact Hin | apply String.eqb_refl]).
  congruence.
Qed.

Lemma january_names_distinct : NoDup january_names.
Proof. apply distinct_NoDup. vm_compute. reflexivity. Qed.

Lemma january_named_ok : january_named = true.
Proof. vm_compute. reflexivity. Qed.

Lemma strftime_compact_day (a b : datetime) :
  Calendar.toordinal a = Calendar.toordinal b ->
  Calendar.strftime_compact a = Calendar.strftime_compact b.
Proof.
  intros H. unfold Calendar.strftime_compact, Calendar.year, Calendar.month,
              Calendar.day. now rewrite H.
Qed.

Lemma toordinal_january_day (d : nat) :
  Calendar.toordinal (january_day d) = 738886 + Z.of_nat d.
Proof.
  unfold Calendar.toordinal, january_day, hours_later. cbn [ticks].
  change (ticks (dt 2024 1 1 0)) with (738885 * 86400000000).
  change Calendar.us_per_hour with 3600000000.
  change Calendar.us_per_day with 86400000000.
  replace (738885 * 86400000000 + 24 * Z.of_nat d * 3600000000)
    with ((738885 + Z.of_nat d) * 86400000000) by ring.
  rewrite Z.div_mul by lia. lia.
Qed.

Lemma name_of_day (t : datetime) (d : nat) :
  Calendar.toordinal t = 738886 + Z.of_nat d ->
  (d < 32)%nat ->
  ("traffic_data_batch_" ++ Calendar.strftime_compact t ++ ".csv")%string
  = nth d january_names ""%string.
Proof.
  intros Hord Hd.
  rewrite (strftime_compact_day t (january_day d))
    by (now rewrite toordinal_january_day).
  pose proof january_named_ok as H. unfold january_named in H.
  rewrite forallb_forall in H. apply String.eqb_eq. apply H.
  apply in_seq. lia.
Qed.

Lemma january_apart :
  forall (F : list (string * list csv_line)) (last : datetime),
    flushed_apart (dt 2024 2 1 0) last F ->
    738886 <= Calendar.toordinal last ->
    Forall (fun f => exists d,
                (Z.to_nat (Calendar.toordinal last - 738886) < d < 32)%nat
                /\ fst f = nth d january_names ""%string) F
    /\ NoDup (map fst F).
Proof.
  induction F as [|f F IH]; intros last Hap Hlast.
  - split; constructor.
  - cbn [flushed_apart] in Hap.
    destruct Hap as (t' & _ & Hday & Hend & Hname & Hap).
    assert (Hmax : Calendar.toordinal t' <= 738886 + 31).
    { unfold Calendar.toordinal.
      change (ticks (dt 2024 2 1 0)) with (738916 * 86400000000) in Hend.
      change Calendar.us_per_hour with 3600000000 in Hend.
      change Calendar.us_per_day with 86400000000.
      assert (ticks t' / 86400000000 < 738917)
        by (apply Z.div_lt_upper_bound; lia).
      lia. }
    destruct (IH t' Hap ltac:(lia)) as [Hall Hnodup].
    set (d := Z.to_nat (Calendar.toordinal t' - 738886)).
    assert (Hf : fst f = nth d january_names ""%string).
    { rewrite Hname. apply name_of_day; unfold d; lia. }
    split.
    + constructor.
      * exists d. split; [unfold d; lia | exact Hf].
      * eapply Forall_impl; [|exact Hall].
        intros f' (d' & Hd' & Hf'). exists d'. split; [fold d in Hd'; unfold d in *; lia | exact Hf'].
    + cbn [map]. constructor; [|exact Hnodup].
      intros Hin. apply in_map_iff in Hin. destruct Hin as (f' & Heq & Hin).
      apply (proj1 (Forall_forall _ _) Hall) in Hin.
      destruct Hin as (d' & Hd' & Hf'). fold d in Hd'.
      rewrite Hf, Hf' in Heq.
      apply (proj1 (NoDup_nth january_names ""%string) january_names_distinct) in Heq;
        [lia | |]; change (List.length january_names) with 32%nat; unfold d in *; lia.
Qed.

Lemma total_at_least (ns : list Z) :
  Forall (fun n => 300 <= n < 2000) ns ->
  300 * Z.of_nat (List.length ns) <= total ns.
Proof.
  induction 1 as [|n ns Hn _ IH]; cbn [total fold_right List.length] in *; [lia|].
  fold (total ns). lia.
Qed.

Lemma rows_at_most (start_date end_date : datetime)
      (F : list (string * list csv_line)) :
  Forall (flush_of start_date end_date) F ->
  total (map row_count F) <= 51998 * Z.of_nat (List.length F).
Proof.
  induction 1 as [|f F Hf _ IH]; cbn [total fold_right List.length map] in *; [lia|].
  fold (total (map row_count F)).
  destruct Hf as (t & t' & front & r & _ & _ & _ & -> & _ & Hsize).
  unfold row_count at 1. rewrite data_rows_batch_file. lia.
Qed.

(** X8: the files [main] writes and the files the dashboard reads.  The
    run of January 2024 writes at most 28 files, under names that differ
    from one another, so that no batch overwrites an earlier one; every
    name is one of those the dashboard looks for, or
    traffic_data_batch_20240201.csv, which it does not; the first name the
    dashboard looks for, traffic_data_batch_20240101.csv, is never
    written.  A run that ends normally has written at least 4 files. *)
Theorem main_files_and_dashboard (events : list event) (w : World)
        (o : outcome unit) :
  main_traffic events w = Some o ->
  exists saved,
    fs (world_of o) = fs w ++ saved
    /\ NoDup (map fst saved)
    /\ Forall (fun f => (In (fst f) traffic_files
                         \/ fst f = "traffic_data_batch_20240201.csv"%string)
                        /\ fst f <> "traffic_data_batch_20240101.csv"%string) saved
    /\ (List.length saved <= 28)%nat
    /\ (forall w', o = Ok tt w' -> (4 <= List.length saved)%nat).
Proof.
  unfold main_traffic. intros Hmain.
  destruct (generate_traffic_data events (dt 2024 1 1 0) (dt 2024 2 1 0) w)
    as [o'|] eqn:Hrun; [|discriminate].
  destruct (generate_traffic_data_apart _ _ _ _ _ Hrun) as (saved & Hfs & Hap & Hcount).
  destruct (generate_traffic_data_inv _ _ _ _ _ Hrun) as (m & F & Hw & HF & Hret).
  assert (HF' : F = saved).
  { rewrite Hw in Hfs. cbn [fs] in Hfs. now apply app_inv_head in Hfs. }
  subst F.
  change (turns (dt 2024 1 1 0) (dt 2024 2 1 0)) with 744%nat in *.
  destruct (january_apart saved (dt 2024 1 1 0) Hap) as [Hnames Hnodup];
    [vm_compute; discriminate|].
  exists saved.
  split; [destruct o' as [recs w'|e w']; inversion Hmain; subst o; exact Hfs|].
  split; [exact Hnodup|]. split; [|split].
  - eapply Forall_impl; [|exact Hnames].
    intros f (d & Hd & ->).
    change (Z.to_nat (Calendar.toordinal (dt 2024 1 1 0) - 738886)) with 0%nat in Hd.
    pose proof january_names_distinct as Hdist.
    split.
    + destruct (Nat.eq_dec d 31) as [->|Hne]; [right; reflexivity|].
      left. unfold january_names.
      rewrite app_nth1 by (change (List.length traffic_files) with 31%nat; lia).
      apply nth_In. change (List.length traffic_files) with 31%nat. lia.
    + change "traffic_data_batch_20240101.csv"%string
        with (nth 0 january_names ""%string).
      intros Heq.
      apply (proj1 (NoDup_nth january_names ""%string) Hdist) in Heq;
        [lia | |]; change (List.length january_names) with 32%nat; lia.
  - lia.
  - intros w' Ho. destruct o' as [recs w''|e w'']; inversion Hmain; subst o;
      [|discriminate].
    destruct (Hret recs w'' eq_refl) as (Hrem & ns & Hlen & Hrange & Hsum).
    pose proof (total_at_least ns Hrange) as Hlow.
    pose proof (rows_at_most _ _ saved HF) as Hhigh.
    rewrite Hlen in Hlow. lia.
Qed.

Lemma main_files_and_dashboard_witness :
  exists o saved,
    main_traffic [] (constant_source 1699 1 []) = Some o
    /\ fs (world_of o) = [] ++ saved
    /\ NoDup (map fst saved)
    /\ Forall (fun f => (In (fst f) traffic_files
                         \/ fst f = "traffic_data_batch_20240201.csv"%string)
                        /\ fst f <> "traffic_data_batch_20240101.csv"%string) saved
    /\ (List.length saved <= 28)%nat.
Proof.
  destruct (generate_traffic_data_terminates [] (dt 2024 1 1 0) (dt 2024 2 1 0)
              (constant_source 1699 1 [])) as [o' Hrun].
  assert (Hmain : exists o, main_traffic [] (constant_source 1699 1 []) = Some o).
  { unfold main_traffic. rewrite Hrun. destruct o'; eexists; reflexivity. }
  destruct Hmain as [o Hmain].
  destruct (main_files_and_dashboard [] (constant_source 1699 1 []) o Hmain)
    as (saved & Hfs & Hnodup & Hnames & Hcount & _).
  exists o, saved.
  split; [exact Hmain|]. split; [exact Hfs|]. split; [exact Hnodup|].
  split; [exact Hnames | exact Hcount].
Defined.

End January.

(** ** Unknown pools and malformed events *)

Section Failures.

Import NetworkTrafficGenerator.

Lemma known_pools (pool : string) :
  In pool ["qatar_isps"; "data_centers"; "cdns"]%string
  <-> dict_get ip_ranges pool <> None.
Proof.
  unfold ip_ranges. cbn [dict_get In]. split.
  - intros [<-|[<-|[<-|[]]]]; cbn; discriminate.
  - destruct (String.eqb_spec "qatar_isps" pool) as [->|_]; [now left|].
    destruct (String.eqb_spec "data_centers" pool) as [->|_]; [now right; left|].
    destruct (String.eqb_spec "cdns" pool) as [->|_]; [now right; right; left|].
    congruence.
Qed.

(** X9: [generate_ip] knows three pools.  For each of them it returns,
    after two draws, the dotted quad of an address of one of the blocks of
    the pool; for any other name it raises [KeyError] before anything is
    drawn. *)
Theorem generate_ip_known_pools (pool : string) (w : World) :
  (In pool ["qatar_isps"; "data_centers"; "cdns"]%string ->
   exists s, generate_ip pool w = Ok s (skip 2 w) /\ address_of_pool pool s)
  /\ (~ In pool ["qatar_isps"; "data_centers"; "cdns"]%string ->
      generate_ip pool w = Raise KeyError w).
Proof.
  split; intros Hpool.
  - apply known_pools in Hpool.
    destruct (dict_get ip_ranges pool) as [blocks|] eqn:Hblocks; [|congruence].
    destruct (generate_ip_total pool blocks w Hblocks) as [s Hs].
    exists s. split; [exact Hs|].
    exact (generate_ip_address_of_pool pool blocks w s _ Hblocks Hs).
  - assert (Hnone : dict_get ip_ranges pool = None).
    { destruct (dict_get ip_ranges pool) eqn:E; [|reflexivity].
      exfalso. apply Hpool. apply known_pools. congruence. }
    unfold generate_ip, getitem. rewrite Hnone. reflexivity.
Qed.

Lemma turns_positive (start_date end_date : datetime) :
  Calendar.lt start_date end_date = true ->
  exists n, turns start_date end_date = S n.
Proof.
  intros Hlt. exists (turns (hours_later 1 start_date) end_date).
  apply turns_step; [exact Hlt|]. unfold hours_later. cbn [ticks]. lia.
Qed.

Lemma filter_r_stops {A : Type} (p : A -> result bool) (front back : list A)
      (x : A) (err : exn) :
  Forall (fun a => exists b, p a = inr b) front ->
  p x = inl err ->
  filter_r p (front ++ x :: back) = inl err.
Proof.
  intros Hfront Hx. induction Hfront as [|a front [b Hb] _ IH]; cbn [app filter_r].
  - now rewrite Hx.
  - rewrite Hb. cbn [rbind]. now rewrite IH.
Qed.

Lemma event_impact_stops (front back : list event) (e : event) (t : datetime) :
  Forall (fun e' => exists s, dict_get e' "date_range" = Some (PyStr s)) front ->
  event_impact (front ++ e :: back) t
  = match dict_get e "date_range" with
    | None => inl KeyError
    | Some (PyFloat _) => inl AttributeError
    | Some (PyStr _) => event_impact (front ++ e :: back) t
    end.
Proof.
  intros Hfront.
  assert (Hok : Forall (fun a => exists b,
                            rbind (getitem a "date_range")
                                  (fun d => startswith d (Calendar.strftime_date t))
                            = inr b) front).
  { eapply Forall_impl; [|exact Hfront]. intros e' [s Hs].
    unfold getitem. rewrite Hs. cbn. eauto. }
  destruct (dict_get e "date_range") as [[s|x]|] eqn:He; [reflexivity|..];
    unfold event_impact; cbv zeta; unfold event in *.
  - rewrite (filter_r_stops _ front back e AttributeError Hok); [reflexivity|].
    unfold getitem. now rewrite He.
  - rewrite (filter_r_stops _ front back e KeyError Hok); [reflexivity|].
    unfold getitem. now rewrite He.
Qed.

(** X10: an event without a string under ['date_range'] aborts every run
    that has a bucket to process: the first such event of the list makes
    the first bucket raise [KeyError] when the key is missing and
    [AttributeError] when its value is a float, before anything is drawn
    or written. *)
Theorem malformed_event_aborts_run (front back : list event) (e : event)
        (start_date end_date : datetime) (w : World) :
  Forall (fun e' => exists s, dict_get e' "date_range" = Some (PyStr s)) front ->
  Calendar.lt start_date end_date = true ->
  (dict_get e "date_range" = None ->
   generate_traffic_data (front ++ e :: back) start_date end_date w
   = Some (Raise KeyError w))
  /\ (forall x, dict_get e "date_range" = Some (PyFloat x) ->
      generate_traffic_data (front ++ e :: back) start_date end_date w
      = Some (Raise AttributeError w)).
Proof.
  intros Hfront Hlt.
  destruct (turns_positive _ _ Hlt) as [n Hn].
  unfold generate_traffic_data. rewrite Hn, while_loop_step by exact Hlt.
  unfold bucket, bind at 1.
  rewrite (event_impact_stops front back e start_date Hfront).
  split; [intros He | intros x He]; rewrite He; reflexivity.
Qed.

Lemma malformed_event_aborts_run_witness :
  generate_traffic_data ([one_day_event] ++ [("event_name", PyStr "Gala")] :: [])
    (dt 2024 1 1 0) (dt 2024 2 1 0) sample_source
  = Some (Raise KeyError sample_source).
Proof.
  apply (malformed_event_aborts_run [one_day_event] [] [("event_name", PyStr "Gala")]
           (dt 2024 1 1 0) (dt 2024 2 1 0) sample_source).
  - repeat constructor. exists "2024-01-01"%string. reflexivity.
  - reflexivity.
  - reflexivity.
Defined.

End Failures.

(** ** From the scraper to the generator *)

Section Pipeline.

Import QatarEventScraper GroqEventAnalyzer NetworkTrafficGenerator.

Lemma keys_setitem {V : Type} (d : dict V) (k : string) (v : V) :
  In k (keys d) -> keys (setitem d k v) = keys d.
Proof.
  induction d as [|[k' v'] d IH]; cbn [keys map setitem In fst]; [intros []|].
  intros Hin. destruct (String.eqb_spec k' k) as [->|Hne]; [reflexivity|].
  cbn [map fst]. f_equal. apply IH. destruct Hin; [congruence | assumption].
Qed.

Lemma Forall_setitem {V : Type} (P : string * V -> Prop) (d : dict V)
      (k : string) (v : V) :
  (forall k', P (k', v)) -> Forall P d -> Forall P (setitem d k v).
Proof.
  intros Hv. induction 1 as [|[k' v'] d Hx Hd IH]; cbn [setitem].
  - repeat constructor. apply Hv.
  - destruct (String.eqb k' k); constructor;
      first [apply Hv | assumption].
Qed.

Lemma dict_get_setitem_same {V : Type} (d : dict V) (k : string) (v : V) :
  dict_get (setitem d k v) k = Some v.
Proof.
  induction d as [|[k' v'] d IH]; cbn [setitem dict_get].
  - now rewrite String.eqb_refl.
  - destruct (String.eqb k' k) eqn:E; cbn [dict_get]; rewrite E; [reflexivity | exact IH].
Qed.

Lemma dict_get_setitem_other {V : Type} (d : dict V) (k k' : string) (v : V) :
  k <> k' -> dict_get (setitem d k v) k' = dict_get d k'.
Proof.
  intros Hne. induction d as [|[k0 v0] d IH]; cbn [setitem dict_get].
  - destruct (String.eqb_spec k k'); [congruence | reflexivity].
  - destruct (String.eqb_spec k0 k) as [->|Hk]; cbn [dict_get].
    + destruct (String.eqb_spec k k'); [congruence | reflexivity].
    + now rewrite IH.
Qed.

Lemma dict_get_in_keys {V : Type} (P : string * V -> Prop) (d : dict V) (k : string) :
  In k (keys d) -> Forall P d -> exists v, dict_get d k = Some v /\ P (k, v).
Proof.
  induction d as [|[k' v'] d IH]; cbn [keys map In fst dict_get]; [intros []|].
  intros Hin Hall. destruct (String.eqb_spec k' k) as [->|Hne].
  - exists v'. split; [reflexivity | exact (Forall_inv Hall)].
  - apply IH; [destruct Hin; [congruence | assumption] | exact (Forall_inv_tail Hall)].
Qed.

Lemma scraped_setitem (d : event) (k s : string) :
  In k (keys event_data) -> scraped d -> scraped (setitem d k (PyStr s)).
Proof.
  intros Hk [Hkeys Hall]. split.
  - rewrite keys_setitem; [exact Hkeys | now rewrite Hkeys].
  - apply Forall_setitem; [intros k'; now exists s | exact Hall].
Qed.

Lemma scraped_event_data : scraped event_data.
Proof. split; [reflexivity|]. repeat constructor; now exists ""%string. Qed.

Lemma scraped_read_detail (d : event) (detail : Soup.node) :
  scraped d -> scraped (read_detail d detail).
Proof.
  intros Hd. unfold read_detail.
  repeat match goal with
         | |- context [if ?b then _ else _] => destruct b
         end;
    try exact Hd; apply scraped_setitem; try exact Hd; cbn; tauto.
Qed.

Lemma scraped_fold (details : list Soup.node) :
  forall d, scraped d -> scraped (fold_left read_detail details d).
Proof.
  induction details as [|x details IH]; intros d Hd; [exact Hd|].
  cbn [fold_left]. apply IH. now apply scraped_read_detail.
Qed.

Lemma event_type_setitem (d : event) (k : string) (v : pyval) :
  k <> "event_type"%string ->
  dict_get d "event_type" = Some (PyStr "") ->
  dict_get (setitem d k v) "event_type" = Some (PyStr "").
Proof. intros Hk Hd. now rewrite dict_get_setitem_other. Qed.

Lemma event_type_fold (details : list Soup.node) :
  forall d, dict_get d "event_type" = Some (PyStr "") ->
            dict_get (fold_left read_detail details d) "event_type" = Some (PyStr "").
Proof.
  induction details as [|x details IH]; intros d Hd; [exact Hd|].
  cbn [fold_left]. apply IH. unfold read_detail.
  repeat match goal with
         | |- context [if ?b then _ else _] => destruct b
         end;
    try exact Hd; apply event_type_setitem; try exact Hd; discriminate.
Qed.

Lemma parse_event_scraped (event_block : Soup.node) (data : event) :
  parse_event event_block = Some data ->
  scraped data /\ dict_get data "event_type" = Some (PyStr "").
Proof.
  unfold parse_event.
  set (titled := match Soup.find "a" "article-block__title" event_block with
                 | Some _ => _
                 | None => _
                 end).
  assert (Ht : match titled with
               | inl _ => True
               | inr d => scraped d /\ dict_get d "event_type" = Some (PyStr "")
               end).
  { unfold titled. destruct (Soup.find "a" "article-block__title" event_block) as [title|].
    - destruct (Soup.attr title "href") as [err|href];
        cbv beta iota delta [rbind]; [exact I|]. split.
      + repeat apply scraped_setitem; try (cbn; tauto). exact scraped_event_data.
      + repeat (apply event_type_setitem; [discriminate|]). reflexivity.
    - split; [exact scraped_event_data | reflexivity]. }
  destruct titled as [err|d]; [discriminate|].
  destruct Ht as [Hs He].
  intros Hdata.
  match type of Hdata with
  | Some ?x = Some _ => assert (Heq : data = x) by congruence
  end.
  clear Hdata. subst data.
  set (d1 := match Soup.find "div" "article-block__text" event_block with
             | Some _ => _
             | None => d
             end).
  assert (H1 : scraped d1 /\ dict_get d1 "event_type" = Some (PyStr "")).
  { unfold d1. destruct (Soup.find "div" "article-block__text" event_block).
    - split; [apply scraped_setitem; [cbn; tauto | exact Hs]
             | apply event_type_setitem; [discriminate | exact He]].
    - now split. }
  destruct H1 as [Hs1 He1]. clearbody d1.
  destruct (Soup.find "div" "top-slider-content-event" event_block).
  - split; [now apply scraped_fold | now apply event_type_fold].
  - now split.
Qed.

(** X11: [parse_event] gives up on a block, returning [None], exactly when
    the block has a title link without [href].  Every event it returns
    has the seven keys event_name, date_range, location, description,
    event_type, time_range and url, in this order, with strings as
    values, and an empty event_type. *)
Theorem parse_event_shape (event_block : Soup.node) :
  (parse_event event_block = None
   <-> exists title_elem,
        Soup.find "a" "article-block__title" event_block = Some title_elem
        /\ Soup.attr title_elem "href" = inl KeyError)
  /\ forall data,
      parse_event event_block = Some data ->
      keys data = ["event_name"; "date_range"; "location"; "description";
                   "event_type"; "time_range"; "url"]%string
      /\ Forall (fun kv => exists s, snd kv = PyStr s) data
      /\ dict_get data "event_type" = Some (PyStr "").
Proof.
  split.
  - unfold parse_event.
    destruct (Soup.find "a" "article-block__title" event_block) as [title|].
    + destruct (Soup.attr title "href") as [err|href] eqn:Hattr;
        cbv beta iota delta [rbind].
      * assert (Herr : err = KeyError).
        { unfold Soup.attr, getitem in Hattr.
          destruct title as [s|name classes attrs children];
            [|destruct (dict_get attrs "href")]; congruence. }
        subst err. split; [intros _; now exists title | reflexivity].
      * split; [discriminate | intros (t & Ht & Hk)].
        assert (t = title) by congruence. subst t. congruence.
    + split; [discriminate | intros (t & Ht & _); discriminate].
  - intros data H. apply parse_event_scraped in H.
    destruct H as [[Hkeys Hall] Htype]. now repeat split.
Qed.

Lemma scrape_events_scraped (pages : Z -> option Soup.node) :
  Forall scraped (scrape_events pages).
Proof.
  unfold scrape_events. apply Forall_flat_map. apply Forall_forall.
  intros page _. destruct (pages page) as [soup|]; [|constructor].
  apply Forall_flat_map. apply Forall_forall. intros block _.
  destruct (parse_event block) as [data|] eqn:E; [|constructor].
  constructor; [|constructor]. now apply parse_event_scraped in E.
Qed.

Lemma scraped_key (e : event) (k : string) :
  scraped e -> In k (keys event_data) -> exists s, dict_get e k = Some (PyStr s).
Proof.
  intros [Hkeys Hall] Hk. rewrite <- Hkeys in Hk.
  destruct (dict_get_in_keys _ e k Hk Hall) as (v & Hv & s & Hs).
  cbn [snd] in Hs. subst v. now exists s.
Qed.

Lemma analyze_scraped (e : event) (completion : result float) :
  scraped e -> exists x, analyze_event_impact e completion = inr x.
Proof.
  intros He.
  destruct (scraped_key e "event_name" He ltac:(cbn; tauto)) as [s1 H1].
  destruct (scraped_key e "description" He ltac:(cbn; tauto)) as [s2 H2].
  destruct (scraped_key e "location" He ltac:(cbn; tauto)) as [s3 H3].
  destruct (scraped_key e "time_range" He ltac:(cbn; tauto)) as [s4 H4].
  rewrite analyze_event_impact_run by congruence.
  destruct completion; eauto.
Qed.

Lemma annotate_scored (completions : nat -> result float) :
  forall (events : list event) (i : nat),
    Forall scraped events ->
    exists scored,
      annotate events completions i = inr scored
      /\ List.length scored = List.length events
      /\ Forall (fun e => (exists s, dict_get e "date_range" = Some (PyStr s))
                          /\ exists x, dict_get e "impact_score" = Some (PyFloat x))
                scored.
Proof.
  induction events as [|e events IH]; intros i Hall.
  - exists []. repeat split. constructor.
  - pose proof (Forall_inv Hall) as He.
    destruct (IH (S i) (Forall_inv_tail Hall)) as (scored & Hrun & Hlen & Hwf).
    cbn [annotate].
    destruct (analyze_scraped e (completions i) He) as [x Hx]. rewrite Hx.
    cbn [rbind]. rewrite Hrun. cbn [rbind].
    eexists. split; [reflexivity|]. split; [cbn [List.length]; now rewrite Hlen|].
    constructor; [|exact Hwf]. split.
    + destruct (scraped_key e "date_range" He ltac:(cbn; tauto)) as [s Hs].
      exists s. rewrite dict_get_setitem_other by discriminate. exact Hs.
    + exists x. apply dict_get_setitem_same.
Qed.

Lemma event_impact_returns (events : list event) (current : datetime) :
  Forall well_formed events ->
  exists x, event_impact events current = inr (PyFloat x).
Proof.
  intros Hwf. unfold event_impact.
  rewrite (filter_r_well_formed _ _ Hwf). cbn [rbind].
  set (relevant := filter _ events).
  assert (Hrel : Forall well_formed relevant) by now apply Forall_filter.
  rewrite (scores_well_formed _ Hrel). clearbody relevant.
  destruct relevant as [|e0 rest]; cbn [map py_max]; [now exists 1%float|].
  destruct (py_max_from_floats (map score rest) (score e0)) as (x & Hx & _).
  now exists x.
Qed.

(** X12: the three stages fit together.  Whatever the pages hold and
    whatever the scoring service answers, scoring the scraped events
    raises nothing, every scored event has a string under ['date_range']
    and a float under ['impact_score'], and the generator finds a float
    impact for every bucket. *)
Theorem scraped_events_feed_generator (pages : Z -> option Soup.node)
        (completions : nat -> result float) :
  exists events,
    annotate (scrape_events pages) completions 0 = inr events
    /\ List.length events = List.length (scrape_events pages)
    /\ Forall (fun e => (exists s, dict_get e "date_range" = Some (PyStr s))
                        /\ exists x, dict_get e "impact_score" = Some (PyFloat x))
              events
    /\ forall current, exists x, event_impact events current = inr (PyFloat x).
Proof.
  destruct (annotate_scored completions (scrape_events pages) 0
              (scrape_events_scraped pages)) as (events & Hrun & Hlen & Hsc).
  exists events. split; [exact Hrun|]. split; [exact Hlen|]. split; [exact Hsc|].
  intros current. apply event_impact_returns.
  eapply Forall_impl; [|exact Hsc]. intros e [Hd Hs]. split; [exact Hd | now right].
Qed.

End Pipeline.

(** ** The date of an event on the dashboard *)

Section DashboardDates.

Lemma string_app_assoc (a b c : string) :
  ((a ++ b) ++ c = a ++ (b ++ c))%string.
Proof. induction a as [|x a IH]; cbn [String.append]; [reflexivity | now rewrite IH]. Qed.

Lemma padded_app (width : nat) :
  forall (n : Z) (acc : string),
    Calendar.padded width n acc = (Calendar.padded width n "" ++ acc)%string.
Proof.
  induction width as [|width IH]; intros n acc; [reflexivity|].
  cbn [Calendar.padded].
  rewrite (IH (n / 10) (String (Calendar.digit n) acc)).
  rewrite (IH (n / 10) (String (Calendar.digit n) "")).
  rewrite string_app_assoc. reflexivity.
Qed.

Lemma all_digits_app (a b : string) :
  all_digits (a ++ b) = all_digits a && all_digits b.
Proof.
  induction a as [|c a IH]; [reflexivity|].
  cbn [String.append all_digits]. rewrite IH. now rewrite andb_assoc.
Qed.

Lemma digit_is_digit (d : Z) :
  all_digits (String (Calendar.digit d) "") = true.
Proof.
  unfold Calendar.digit.
  pose proof (Z.mod_pos_bound d 10 ltac:(lia)) as H.
  set (k := Z.to_nat (d mod 10)).
  assert (Hk : (k < 10)%nat) by (unfold k; lia). clearbody k. clear H.
  do 10 (destruct k as [|k]; [reflexivity|]). lia.
Qed.

Lemma padded_digits (width : nat) :
  forall n, all_digits (Calendar.padded width n "") = true.
Proof.
  induction width as [|width IH]; intros n; [reflexivity|].
  cbn [Calendar.padded]. rewrite padded_app, all_digits_app, IH.
  apply digit_is_digit.
Qed.

Lemma digit_char (c : ascii) :
  Nat.leb 48 (nat_of_ascii c) && Nat.leb (nat_of_ascii c) 57 = true ->
  Soup.is_space c = false /\ Ascii.eqb c "-" = false.
Proof.
  intros H. apply andb_true_iff in H. destruct H as [Hlo Hhi].
  apply Nat.leb_le in Hlo, Hhi. split.
  - unfold Soup.is_space.
    destruct (Nat.leb_spec 9 (nat_of_ascii c)), (Nat.leb_spec (nat_of_ascii c) 13),
      (Nat.leb_spec 28 (nat_of_ascii c)), (Nat.leb_spec (nat_of_ascii c) 32);
      cbn; try reflexivity; lia.
  - destruct (Ascii.eqb_spec c "-") as [->|]; [|reflexivity].
    cbn in Hlo. lia.
Qed.

Lemma digits_lack_dash (s : string) : all_digits s = true -> lacks "-" s = true.
Proof.
  induction s as [|c s IH]; [reflexivity|]. cbn [all_digits lacks].
  intros H. apply andb_true_iff in H. destruct H as [Hc Hs].
  destruct (digit_char c Hc) as [_ ->]. now rewrite IH.
Qed.

Lemma rstrip_digits (s : string) : all_digits s = true -> Soup.rstrip s = s.
Proof.
  induction s as [|c s IH]; [reflexivity|]. cbn [all_digits Soup.rstrip].
  intros H. apply andb_true_iff in H. destruct H as [Hc Hs].
  destruct (digit_char c Hc) as [Hsp _]. rewrite (IH Hs).
  destruct s; [now rewrite Hsp | reflexivity].
Qed.

Lemma strip_digits (s : string) : all_digits s = true -> Soup.strip s = s.
Proof.
  intros H. unfold Soup.strip.
  assert (Hl : Soup.lstrip s = s).
  { destruct s as [|c s]; [reflexivity|]. cbn [all_digits Soup.lstrip] in *.
    apply andb_true_iff in H. destruct H as [Hc _].
    destruct (digit_char c Hc) as [-> _]. reflexivity. }
  rewrite Hl. now apply rstrip_digits.
Qed.

Lemma prefix_app (p s : string) :
  prefix p s = true -> exists rest, s = (p ++ rest)%string.
Proof.
  revert s. induction p as [|c p IH]; intros s H.
  - now exists s.
  - destruct s as [|c' s]; [discriminate|]. cbn [prefix] in H.
    destruct (ascii_dec c c') as [->|]; [|discriminate].
    destruct (IH s H) as [rest ->]. now exists rest.
Qed.

(** X13: the generator and the dashboard read the date of an event
    differently.  Of a ['date_range'] that the generator matches with the
    day of a bucket, one that starts with [YYYY-MM-DD], the dashboard
    keeps the text before the first dash: the four digits of the year
    (from the year 1000 on, where [%Y] writes four digits), without month
    and day. *)
Theorem dashboard_keeps_the_year (date_range : string) (current : datetime) :
  1000 <= Calendar.year current ->
  prefix (Calendar.strftime_date current) date_range = true ->
  event_date_text date_range = Calendar.padded 4 (Calendar.year current) "".
Proof.
  intros _ H. apply prefix_app in H. destruct H as [rest ->].
  unfold event_date_text, Calendar.strftime_date.
  rewrite padded_app, string_app_assoc.
  pose proof (padded_digits 4 (Calendar.year current)) as Hd.
  change ("-" ++ ?x)%string with (String "-" x).
  cbn [String.append].
  rewrite split_sep_app by now apply digits_lack_dash.
  cbn [hd]. now apply strip_digits.
Qed.

Lemma dashboard_keeps_the_year_witness :
  event_date_text "2024-01-01 - 2024-01-03" = "2024"%string.
Proof.
  apply (dashboard_keeps_the_year "2024-01-01 - 2024-01-03" (dt 2024 1 1 0)).
  - vm_compute. discriminate.
  - reflexivity.
Defined.

End DashboardDates.

(** ** The heat map of the dashboard *)

Section HeatMap.

Import NetworkTrafficGenerator.

Lemma bucketed_valid (groups : list (list TrafficRecord)) :
  forall t, bucketed t groups -> Forall valid_fields (List.concat groups).
Proof.
  induction groups as [|g groups IH]; intros t H; [constructor|].
  cbn [bucketed] in H. destruct H as (_ & Hg & Hrest).
  cbn [List.concat]. apply Forall_app. split.
  - eapply Forall_impl; [|exact Hg]. now intros r [_ Hr].
  - exact (IH _ Hrest).
Qed.

Lemma cdns_leading_digit (s : string) :
  address_of_pool "cdns" s -> exists rest, s = String "1" rest.
Proof.
  intros (blocks & block & net & addr & Hpool & Hin & Hnet & -> & _ & Hcont & _).
  vm_compute in Hpool. injection Hpool as <-.
  unfold IPv4.to_string.
  destruct Hin as [<-|[<-|[]]]; vm_compute in Hnet; injection Hnet as <-;
    unfold IPv4.contains in Hcont; apply andb_true_iff in Hcont;
    destruct Hcont as [Hlo Hhi]; apply Z.leb_le in Hlo, Hhi;
    cbn [IPv4.network_address] in Hlo.
  - change (IPv4.broadcast_address (IPv4.mk_network 1745879040 12))
      with 1746927615 in Hhi.
    assert (Hq : addr / 16777216 = 104)
      by (symmetry; apply (Z.div_unique addr 16777216 104 (addr - 104 * 16777216)); lia).
    rewrite Hq. eexists. reflexivity.
  - change (IPv4.broadcast_address (IPv4.mk_network 3340468224 21))
      with 3340470271 in Hhi.
    assert (Hq : addr / 16777216 = 199)
      by (symmetry; apply (Z.div_unique addr 16777216 199 (addr - 199 * 16777216)); lia).
    rewrite Hq. eexists. reflexivity.
Qed.

(** X14: the heat map of the dashboard never finds a row.  It gives a
    location the rows whose ['dest_ip'] starts with the first six
    characters of its latitude, such as 25.285 for Doha, whereas the
    destination addresses of the generator all lie in 104.16.0.0/12 or
    199.27.128.0/21 and start with the digit 1: for each of the five
    locations the selection is empty, whichever files of a run have been
    loaded. *)
Theorem heat_map_selects_no_row (events : list event)
        (start_date end_date : datetime) (w : World)
        (o : outcome (list TrafficRecord)) :
  generate_traffic_data events start_date end_date w = Some o ->
  exists saved,
    fs (world_of o) = fs w ++ saved
    /\ forall loaded location latitude,
        incl loaded saved ->
        In (location, latitude) qatar_locations ->
        location_rows (rows_of loaded) latitude = [].
Proof.
  intros Hrun. apply while_loop_partition in Hrun.
  destruct Hrun as (saved & groups & rest & Hfs & Hb & Hcat & _).
  exists saved. split; [exact Hfs|].
  apply bucketed_valid in Hb. cbn [app] in Hcat. rewrite Hcat in Hb.
  apply Forall_app in Hb. destruct Hb as [Hsaved _]. clear Hcat.
  intros loaded location latitude Hincl Hloc.
  assert (Hloaded : Forall valid_fields (rows_of loaded)).
  { apply Forall_forall. intros r Hr. unfold rows_of in Hr.
    apply in_flat_map in Hr. destruct Hr as (f & Hf & Hr).
    apply (proj1 (Forall_forall _ _) Hsaved). unfold rows_of.
    apply in_flat_map. exists f. split; [now apply Hincl | exact Hr]. }
  unfold location_rows.
  induction Hloaded as [|r rows Hr _ IH]; [reflexivity|].
  cbn [filter]. rewrite IH.
  destruct Hr as (_ & Hdst & _).
  destruct (cdns_leading_digit _ Hdst) as [tail ->].
  cbn [In qatar_locations] in Hloc.
  repeat match goal with
         | H : _ \/ _ |- _ => destruct H as [H|H]
         | H : (_, _) = (_, _) |- _ => injection H as <- <-
         | H : False |- _ => destruct H
         end; reflexivity.
Qed.

Lemma heat_map_selects_no_row_witness :
  exists w' saved,
    generate_traffic_data [] (dt 2024 1 1 0) (dt 2024 1 2 2)
      (constant_source 1699 1 [])
    = Some (Ok [] w')
    /\ fs w' = [] ++ saved
    /\ saved <> []
    /\ location_rows (rows_of saved) "25.2854" = [].
Proof.
  destruct (one_flush_run (dt 2024 1 1 0) (dt 2024 1 2 2) (constant_source 1699 1 []))
    as (front & r & w' & Hrun & Hfs1 & _);
    [apply steady_constant_source | vm_compute; discriminate | reflexivity
    | reflexivity |].
  destruct (heat_map_selects_no_row [] (dt 2024 1 1 0) (dt 2024 1 2 2)
              (constant_source 1699 1 []) (Ok [] w') Hrun) as (saved & Hfs & Hnone).
  exists w', saved.
  split; [exact Hrun|]. split; [exact Hfs|]. split.
  - cbn [world_of] in Hfs. rewrite Hfs1 in Hfs. cbn [constant_source fs app] in Hfs.
    intros ->. discriminate Hfs.
  - apply (Hnone saved "Doha"%string); [apply incl_refl | now left].
Defined.

End HeatMap.
